(** * amranu/agent: built-in tools, task supervisor and conversation controller

    A shallow embedding of the parts of [agent.py] and
    [cli_agent/core/builtin_tool_executor.py] that the specification's
    testable properties speak about, with the properties stated and proved
    (or refuted at a concrete input) against the embedded code.

    Conventions.
    - A Python [str] is a list of Unicode code points ([pystr]); [len] is
      [length].  Literals of the source are written [py "..."]; the few
      non-ASCII characters of the source are given by their code point.
    - A Python [int] is a [Z].
    - A [dict] whose iteration order is observable is an association list
      with pairwise distinct keys, in insertion order.
    - The file system is a finite map from paths to nodes.
    - Code that may raise returns a [res]: a value or an exception.
    - Clock readings are counted in tenths of a second.
    - What the agent finds outside itself (subprocesses, the control
      socket, remote tool servers, the subagent manager's own code, the
      clock, [uuid4], the command line library) is an argument of the
      function that uses it; [json.dumps] and [json.loads] are variables
      of the sections that need them.
    - A name the class defines twice stands for its second definition,
      the one a call reaches; the module-level name [list] stands for the
      command defined under it at the end of agent.py. *)

From Equations Require Import Equations.
From Stdlib Require Import ZArith Ascii String DecimalString Uint63 PrimFloat.
From Stdlib Require DecimalZ.
From stdpp Require Import base option list sorting gmap.

Local Open Scope Z_scope.
Local Open Scope list_scope.

(** ** Python text *)

Definition char := N.
Definition pystr := list char.

Definition py (s : string) : pystr := N_of_ascii <$> list_ascii_of_string s.
Arguments py _%_string : simpl never.

Definition LF : char := 10%N.
Definition CR : char := 13%N.
Definition SPACE : char := 32%N.
Definition TAB : char := 9%N.
(** U+2192 RIGHTWARDS ARROW, the separator after a line number. *)
Definition ARROW : char := 8594%N.

(** [str(n)] for an [int]. *)
Definition str_int (n : Z) : pystr := py (NilZero.string_of_int (Z.to_int n)).
Arguments str_int : simpl never.

(** [len(s)] as an [int]. *)
Definition len {A} (l : list A) : Z := Z.of_nat (length l).

(** [f"{n:<w>d}"]: right-aligned in a field of [w] characters, padded with
    spaces on the left, never truncated. *)
Definition fmt_d (w : nat) (n : Z) : pystr :=
  let digits := str_int n in
  replicate (w - length digits) SPACE ++ digits.
Arguments fmt_d : simpl never.

(** [str.isspace] on one character, which is what [strip], [lstrip] and
    [rstrip] without argument remove: the code points CPython classifies as
    whitespace. *)
Definition isspace (c : char) : bool :=
  ((9 <=? c) && (c <=? 13) || (28 <=? c) && (c <=? 32)
   || (c =? 133) || (c =? 160) || (c =? 5760)
   || (8192 <=? c) && (c <=? 8202)
   || (c =? 8232) || (c =? 8233) || (c =? 8239) || (c =? 8287)
   || (c =? 12288))%N.

Fixpoint lstrip (s : pystr) : pystr :=
  match s with
  | c :: s' => if isspace c then lstrip s' else s
  | [] => []
  end.

Definition rstrip (s : pystr) : pystr := reverse (lstrip (reverse s)).
Definition strip (s : pystr) : pystr := rstrip (lstrip s).

(** [s.startswith(p)]. *)
Fixpoint startswith (p s : pystr) : bool :=
  match p, s with
  | [], _ => true
  | a :: p', b :: s' => bool_decide (a = b) && startswith p' s'
  | _ :: _, [] => false
  end.

(** [s.endswith(p)]. *)
Definition endswith (p s : pystr) : bool := startswith (reverse p) (reverse s).

(** [sub in s]. *)
Fixpoint contains (sub s : pystr) : bool :=
  startswith sub s ||
  match s with
  | [] => false
  | _ :: s' => contains sub s'
  end.

(** [s.replace(old, new)]: every occurrence of [old], found left to right
    and not overlapping, becomes [new]; an empty [old] matches before every
    character and at the end. *)
Equations? replace (old new s : pystr) : pystr by wf (length s) lt :=
  replace [] new s := new ++ flat_map (fun c => c :: new) s;
  replace (o :: old) new [] := [];
  replace (o :: old) new (c :: s) with startswith (o :: old) (c :: s) := {
    | true := new ++ replace (o :: old) new (drop (length old) s);
    | false := c :: replace (o :: old) new s }.
Proof. all: simpl; rewrite ?length_drop; lia. Qed.

(** [s.count(sub)]: the number of non-overlapping occurrences. *)
Equations? count (sub s : pystr) : nat by wf (length s) lt :=
  count [] s := S (length s);
  count (o :: sub) [] := 0%nat;
  count (o :: sub) (c :: s) with startswith (o :: sub) (c :: s) := {
    | true := S (count (o :: sub) (drop (length sub) s));
    | false := count (o :: sub) s }.
Proof. all: simpl; rewrite ?length_drop; lia. Qed.

(** [s.split(sep)] for a non-empty [sep]; the code never splits on an
    empty separator, for which Python raises [ValueError]. *)
Equations? split (sep s : pystr) : list pystr by wf (length s) lt :=
  split [] s := [s];
  split (o :: sep) [] := [[]];
  split (o :: sep) (c :: s) with startswith (o :: sep) (c :: s) := {
    | true := [] :: split (o :: sep) (drop (length sep) s);
    | false with split (o :: sep) s := {
        | [] := [[c]];
        | seg :: segs := (c :: seg) :: segs } }.
Proof. all: simpl; rewrite ?length_drop; lia. Qed.

(** [sep.join(parts)]. *)
Fixpoint join (sep : pystr) (parts : list pystr) : pystr :=
  match parts with
  | [] => []
  | [p] => p
  | p :: rest => p ++ sep ++ join sep rest
  end.

(** Universal-newline translation of a text stream opened for reading:
    CR LF and a lone CR both read as LF. *)
Fixpoint universal_newlines (s : pystr) : pystr :=
  match s with
  | [] => []
  | c :: s' =>
      if bool_decide (c = CR) then
        match s' with
        | c' :: s'' =>
            if bool_decide (c' = LF) then LF :: universal_newlines s''
            else LF :: universal_newlines s'
        | [] => [LF]
        end
      else c :: universal_newlines s'
  end.

(** [f.readlines()]: the text cut after every LF, each line keeping its
    terminator; no empty last line. *)
Fixpoint readlines (s : pystr) : list pystr :=
  match s with
  | [] => []
  | c :: s' =>
      if bool_decide (c = LF) then [c] :: readlines s'
      else match readlines s' with
           | [] => [[c]]
           | l :: ls => (c :: l) :: ls
           end
  end.

(** ** Exceptions and fallible code *)

(** The classes of exception the tool layer tells apart in its handlers.
    All of them derive from [Exception]. *)
Inductive exc_class :=
  | FileNotFoundError
  | PermissionError
  | TimeoutExpired
  | OtherException.

(** An exception: its class and [str(e)]. *)
Record exc := Exc { exc_cls : exc_class; exc_str : pystr }.

Inductive res (A : Type) :=
  | Val (a : A)
  | Raise (e : exc).
Arguments Val {A} a.
Arguments Raise {A} e.

#[global] Instance exc_class_eq_dec : EqDecision exc_class.
Proof. solve_decision. Defined.

(** How a call ends for its caller where [SystemExit] is among the
    possibilities: it returns, or [SystemExit] leaves it with a code
    ([None] for a bare [sys.exit()]), or an exception does.  [SystemExit]
    derives from [BaseException] and not from [Exception]: a handler
    [except Exception] lets it through. *)
Inductive exec_result :=
  | Returned (out : pystr)
  | SystemExit (code : option Z)
  | Raised (e : exc).

(** A todo item as the [todo_write] schema has it. *)
Record todo := Todo {
  todo_id : pystr;
  todo_content : pystr;
  todo_status : pystr;
  todo_priority : pystr
}.

(** ** Tool arguments

    The argument dict of a tool call, read with [args.get(key, default)]:
    one optional field per key of the built-in tools' schemas, [None] when
    the key is absent. *)
Record arguments := Arguments {
  arg_file_path : option pystr;
  arg_content : option pystr;
  arg_offset : option Z;
  arg_limit : option Z;
  arg_old_text : option pystr;
  arg_new_text : option pystr;
  arg_command : option pystr;
  arg_timeout : option Z;
  arg_url : option pystr;
  arg_description : option pystr;
  arg_prompt : option pystr;
  arg_context : option pystr;
  arg_task_id : option pystr;
  arg_include_running : option bool;
  arg_clear_after_retrieval : option bool;
  arg_directory_path : option pystr;
  arg_todos : option (list todo)
}.

Definition no_args : arguments :=
  Arguments None None None None None None None None None None None None
            None None None None None.

Definition file_args (path : pystr) : arguments :=
  Arguments (Some path) None None None None None None None None None None
            None None None None None None.

Definition write_args (path content : pystr) : arguments :=
  Arguments (Some path) (Some content) None None None None None None None
            None None None None None None None None.

Definition read_args (path : pystr) (offset : Z) : arguments :=
  Arguments (Some path) None (Some offset) None None None None None None
            None None None None None None None None.

Definition url_args (url : pystr) : arguments :=
  Arguments None None None None None None None None (Some url) None None
            None None None None None None.

Definition replace_args (path old new : pystr) : arguments :=
  Arguments (Some path) None None None (Some old) (Some new) None None None
            None None None None None None None None.

(** ** The file system

    A path holds a regular text file or a node every access to which
    raises (a directory, a file without permission, bytes that do not
    decode, a path below a regular file).  Paths are taken as written, one
    name per file; directories are not nodes of their own, those a write
    needs are made on the way, as [os.makedirs] does.  A file that can be
    read can be written: the properties of the tools that write are
    stated for a write that succeeds.  Text is text the UTF-8 codec
    encodes. *)
Inductive node :=
  | File (text : pystr)
  | Locked (e : exc).

Abbreviation filesystem := (gmap pystr node).

(** [open(path, 'r', encoding='utf-8')] followed by [f.read()]. *)
Definition read_text (fs : filesystem) (path : pystr) : res pystr :=
  match fs !! path with
  | None => Raise (Exc FileNotFoundError path)
  | Some (Locked e) => Raise e
  | Some (File text) => Val (universal_newlines text)
  end.

(** [open(path, 'w', encoding='utf-8')] followed by [f.write(content)]. *)
Definition write_text (fs : filesystem) (path content : pystr)
  : filesystem * res unit :=
  match fs !! path with
  | Some (Locked e) => (fs, Raise e)
  | _ => (<[path := File content]> fs, Val ())
  end.

(** ** File tools of [agent.py] *)

(** One line of [_read_file]'s result: [f"{i + 1:6d}→{lines[i].rstrip()}"].
    The index is always in range, the loop runs below [len(lines)]. *)
Definition numbered_line (lines : list pystr) (i : Z) : pystr :=
  fmt_d 6 (i + 1) ++ [ARROW] ++ rstrip (lines !!! Z.to_nat i).

Definition _read_file (args : arguments) (fs : filesystem) : pystr :=
  let file_path := default [] (arg_file_path args) in
  let offset := default 1 (arg_offset args) in
  let limit := arg_limit args in
  if bool_decide (file_path = []) then py "Error: No file path provided"
  else
    match read_text fs file_path with
    | Val text =>
        let lines := readlines text in
        let start_idx := Z.max 0 (offset - 1) in
        let end_idx :=
          match limit with
          | None => len lines
          | Some l => Z.min (len lines) (start_idx + l)
          end in
        let result := numbered_line lines <$> seqZ start_idx (end_idx - start_idx) in
        join [LF] result
    | Raise (Exc FileNotFoundError _) =>
        py "Error: File not found: " ++ file_path
    | Raise e => py "Error reading file: " ++ exc_str e
    end.

Definition _write_file (args : arguments) (fs : filesystem)
  : filesystem * pystr :=
  let file_path := default [] (arg_file_path args) in
  let content := default [] (arg_content args) in
  if bool_decide (file_path = []) then (fs, py "Error: No file path provided")
  else
    match write_text fs file_path content with
    | (fs', Val _) =>
        (fs', py "Successfully wrote " ++ str_int (len content)
                ++ py " characters to " ++ file_path)
    | (fs', Raise e) => (fs', py "Error writing file: " ++ exc_str e)
    end.

Definition _replace_in_file (args : arguments) (fs : filesystem)
  : filesystem * pystr :=
  let file_path := default [] (arg_file_path args) in
  let old_text := default [] (arg_old_text args) in
  let new_text := default [] (arg_new_text args) in
  if bool_decide (file_path = []) then (fs, py "Error: No file path provided")
  else if bool_decide (old_text = []) then (fs, py "Error: No old text provided")
  else
    match read_text fs file_path with
    | Val content =>
        if negb (contains old_text content) then
          (fs, py "Error: Text not found in file: " ++ old_text)
        else
          let new_content := replace old_text new_text content in
          match write_text fs file_path new_content with
          | (fs', Val _) =>
              let count := count old_text content in
              (fs', py "Successfully replaced " ++ str_int (Z.of_nat count)
                      ++ py " occurrence(s) of text in " ++ file_path)
          | (fs', Raise e) =>
              (fs', py "Error replacing text in file: " ++ exc_str e)
          end
    | Raise (Exc FileNotFoundError _) =>
        (fs, py "Error: File not found: " ++ file_path)
    | Raise e => (fs, py "Error replacing text in file: " ++ exc_str e)
    end.

(** ** File tools of [builtin_tool_executor.py] *)

Module Executor.

(** [repr] of a list of ints: [[0, 2, 5]]. *)
Definition repr_int_list (l : list Z) : pystr :=
  py "[" ++ join (py ", ") (str_int <$> l) ++ py "]".

(** [[i for i, line in enumerate(lines) if needle in line]]. *)
Definition matching_lines (needle : pystr) (lines : list pystr) : list Z :=
  (Z.of_nat ∘ fst) <$> filter (fun p => contains needle p.2 = true) (imap pair lines).

(** The error returned when [old_text] is not in [content].  The
    whitespace warnings computed before are only logged. *)
Definition not_found_error (file_path old_text content : pystr) : pystr :=
  let lines := split [LF] content in
  let old_lines := split [LF] old_text in
  let stripped_old := strip old_text in
  if negb (bool_decide (stripped_old = [])) && contains stripped_old content then
    py "Error: Text found but whitespace doesn't match in " ++ file_path
    ++ py ". Check for exact indentation, tabs vs spaces, and trailing whitespace. Use read_file to see exact formatting."
  else
    let first_line_stripped := strip (default [] (head old_lines)) in
    let hint_lines := take 3 (matching_lines first_line_stripped lines) in
    if negb (bool_decide (first_line_stripped = [])) && negb (bool_decide (hint_lines = [])) then
      py "Error: Text to replace not found in " ++ file_path
      ++ py ". Found similar text on line(s) " ++ repr_int_list hint_lines
      ++ py " - check exact whitespace and indentation."
    else
      py "Error: Text to replace not found in " ++ file_path
      ++ py ". Ensure you copy the exact text including all whitespace from read_file output.".

Definition replace_in_file (args : arguments) (fs : filesystem)
  : filesystem * pystr :=
  let file_path := default [] (arg_file_path args) in
  let old_text := default [] (arg_old_text args) in
  let new_text := default [] (arg_new_text args) in
  if bool_decide (file_path = []) then (fs, py "Error: No file path provided")
  else if bool_decide (old_text = []) then
    (fs, py "Error: No old text to replace provided")
  else
    match read_text fs file_path with
    | Val content =>
        if negb (contains old_text content) then
          (fs, not_found_error file_path old_text content)
        else
          let new_content := replace old_text new_text content in
          match write_text fs file_path new_content with
          | (fs', Val _) =>
              (fs', py "Successfully replaced text in " ++ file_path)
          | (fs', Raise e) =>
              (fs', py "Error replacing text in file: " ++ exc_str e)
          end
    | Raise (Exc FileNotFoundError _) =>
        (fs, py "Error: File not found: " ++ file_path)
    | Raise e => (fs, py "Error replacing text in file: " ++ exc_str e)
    end.

End Executor.

Definition fs1 (path text : pystr) : filesystem := {[ path := File text ]}.

(** *** The specification's wording of the file tools

    These two definitions follow the specification's sentences, not the
    code; the code is compared with them below. *)

(** "literal search-and-replace of the first match": [s.replace(old, new, 1)]. *)
Fixpoint replace_first (old new s : pystr) : pystr :=
  if startswith old s then new ++ drop (length old) s
  else match s with
       | [] => []
       | c :: s' => c :: replace_first old new s'
       end.

(** A line without its terminator (LF, or CR LF). *)
Definition chomp (line : pystr) : pystr :=
  if endswith [CR; LF] line then take (length line - 2) line
  else if endswith [LF] line then take (length line - 1) line
  else line.

(** "[c] split by lines with line-number prefixes", "the line text
    otherwise unchanged": line [i] (from 1) of [c], without its
    terminator, after its number in a field of 6 and the arrow. *)
Definition numbered_verbatim (c : pystr) : pystr :=
  join [LF]
    (imap (fun i line => fmt_d 6 (Z.of_nat i + 1) ++ [ARROW] ++ chomp line)
          (readlines c)).

(** ** The conversation *)

(** The value under a message's ["content"] key: a [str], or anything else
    (for instance [None] on an assistant message that only carries tool
    calls), kept with the text [str()] gives for it. *)
Inductive content_val :=
  | CStr (s : pystr)
  | COther (shown : pystr).

(** A conversation message; a field is [None] when the key is absent. *)
Record message := Message {
  role : option pystr;
  content : option content_val
}.

#[global] Instance content_val_eq_dec : EqDecision content_val.
Proof. solve_decision. Defined.
#[global] Instance message_eq_dec : EqDecision message.
Proof. solve_decision. Defined.

(** [l[-n:]] for [n > 0]. *)
Definition last_n {A} (n : nat) (l : list A) : list A := drop (length l - n) l.

(** [l[i:-n]] for [n > 0]. *)
Definition slice_between {A} (i n : nat) (l : list A) : list A :=
  drop i (take (length l - n) l).

Definition estimate_tokens (text : pystr) : Z := len text / 4.

Fixpoint count_conversation_tokens (messages : list message) : Z :=
  match messages with
  | [] => 0
  | m :: rest =>
      (match content m with
       | Some (CStr s) => estimate_tokens s
       | _ => 0
       end + 10) + count_conversation_tokens rest
  end.

(** [should_compact], given the value of [self.get_token_limit()].  The
    source computes [current_tokens > limit * 0.8] with a float product;
    for an integer limit of realistic size that comparison has the same
    outcome as the exact one written here (see [float_limits] below for
    the limits the agent knows). *)
Definition should_compact (limit : Z) (messages : list message) : bool :=
  bool_decide (4 * limit < 5 * count_conversation_tokens messages).

(** The float product [limit * 0.8] of the source, and the limit's exact
    four fifths as a float. *)
Definition float_threshold (limit : Z) : float :=
  PrimFloat.mul (PrimFloat.of_uint63 (Uint63.of_Z limit)) 0x1.999999999999ap-1%float.

Definition exact_threshold (limit : Z) : float :=
  PrimFloat.of_uint63 (Uint63.of_Z (4 * limit / 5)).

(** [f"{msg.get('role', 'unknown')}: {msg.get('content', '')}"]. *)
Definition transcript_line (msg : message) : pystr :=
  default (py "unknown") (role msg) ++ py ": "
  ++ match content msg with
     | None => []
     | Some (CStr s) => s
     | Some (COther shown) => shown
     end.

Definition summary_prompt (conversation_text : pystr) : pystr :=
  py "Please create a concise summary of this conversation that preserves:" ++ [LF]
  ++ py "1. Key decisions and actions taken" ++ [LF]
  ++ py "2. Important file changes or tool usage" ++ [LF]
  ++ py "3. Current project state and context" ++ [LF]
  ++ py "4. Any pending tasks or next steps" ++ [LF] ++ [LF]
  ++ py "Conversation to summarize:" ++ [LF]
  ++ conversation_text ++ [LF] ++ [LF]
  ++ py "Provide a brief but comprehensive summary that maintains continuity for ongoing work.".

Definition summary_message (summary_response : pystr) : message :=
  Message (Some (py "system"))
          (Some (CStr (py "[CONVERSATION SUMMARY] " ++ summary_response))).

(** [messages[0] if messages[0].get('role') == 'system' else None]. *)
Definition system_message (messages : list message) : option message :=
  match messages with
  | m :: _ => if bool_decide (role m = Some (py "system")) then Some m else None
  | [] => None
  end.

(** [messages[start_idx:-2]], everything except the system prompt and the
    last two messages. *)
Definition messages_to_summarize (messages : list message) : list message :=
  let start_idx := if system_message messages is Some _ then 1%nat else 0%nat in
  slice_between start_idx 2 messages.

(** The one-message conversation sent to the model to get the summary. *)
Definition summary_messages (to_summarize : list message) : list message :=
  let conversation_text := join [LF] (transcript_line <$> to_summarize) in
  [Message (Some (py "user")) (Some (CStr (summary_prompt conversation_text)))].

(** [compact_conversation].  [generate_response] is the model backend: it
    answers a message list with the text of its response, or raises. *)
Definition compact_conversation
    (generate_response : list message -> res pystr)
    (messages : list message) : list message :=
  if bool_decide (length messages <= 3)%nat then messages
  else
    let recent_messages := last_n 2 messages in
    if bool_decide (messages_to_summarize messages = []) then messages
    else
      match generate_response (summary_messages (messages_to_summarize messages)) with
      | Val summary_response =>
          option_list (system_message messages)
          ++ [summary_message summary_response]
          ++ recent_messages
      | Raise _ =>
          option_list (system_message messages) ++ last_n 5 messages
      end.

(** Conversations used as test inputs. *)
Definition empty_user_message : message :=
  Message (Some (py "user")) (Some (CStr [])).

Definition four_empty_messages : list message :=
  [Message (Some (py "system")) (Some (CStr []));
   Message (Some (py "user")) (Some (CStr []));
   Message (Some (py "assistant")) (Some (CStr []));
   Message (Some (py "user")) (Some (CStr []))].

(** ** Streaming in the interactive loop

    What happens at one chunk of a streaming response: the chunk itself (a
    [str], or something else with its [str()]), the character waiting on
    stdin when the loop polls it, and whether the input handler's
    [interrupted] flag is up at that moment.  The iterator may also raise. *)
Inductive chunk_val :=
  | StrChunk (s : pystr)
  | OtherChunk (shown : pystr).

Inductive stream_item :=
  | Chunk (c : chunk_val) (key : option char) (flag : bool)
  | StreamRaises (e : exc).

Definition ESC : char := 27%N.

Definition chunk_text (c : chunk_val) : pystr :=
  match c with
  | StrChunk s => s
  | OtherChunk shown => shown
  end.

(** The [async for] loop: the text accumulated in [full_response], the
    local [interrupted], the items left in the iterator, and the exception
    if the iterator raised. *)
Record stream_end := StreamEnd {
  full_response : pystr;
  interrupted : bool;
  unconsumed : list stream_item;
  raised : option exc
}.

Fixpoint consume_stream (response : list stream_item) (full : pystr)
  : stream_end :=
  match response with
  | [] => StreamEnd full false [] None
  | StreamRaises e :: rest => StreamEnd full false rest (Some e)
  | Chunk c key flag :: rest =>
      if bool_decide (key = Some ESC) then StreamEnd full true rest None
      else if flag then StreamEnd full true rest None
      else consume_stream rest (full ++ chunk_text c)
  end.

Section Streaming.
(** The terminal attributes [termios] reads and writes, and [tty.setraw]. *)
Context {attrs : Type} (setraw : attrs -> attrs).

(** [termios.tcsetattr(fd, TCSADRAIN, settings)] on a terminal. *)
Definition tcsetattr (current settings : attrs) : attrs := settings.

Record chat_state := ChatState {
  messages : list message;
  terminal : attrs
}.

(** The streaming branch of [interactive_chat]: save the attributes, go
    raw, run the loop, restore in [finally], then append the assistant
    message [if full_response]. *)
Definition stream_response (st : chat_state) (response : list stream_item)
  : chat_state * stream_end :=
  let old_settings := terminal st in
  let during := setraw (terminal st) in
  let fin := consume_stream response [] in
  let restored := tcsetattr during old_settings in
  match raised fin with
  | Some _ => (ChatState (messages st) restored, fin)
  | None =>
      if bool_decide (full_response fin = []) then
        (ChatState (messages st) restored, fin)
      else
        (ChatState (messages st
                    ++ [Message (Some (py "assistant"))
                                (Some (CStr (full_response fin)))])
                   restored, fin)
  end.

End Streaming.

(** A streaming response of three chunks during which the user presses
    ESC while the second chunk arrives, and the conversation and terminal
    (attributes as a list of flags, raw mode clearing them) it meets. *)
Definition esc_at_second_chunk : list stream_item :=
  [Chunk (StrChunk (py "Hel")) None false;
   Chunk (StrChunk (py "lo")) (Some ESC) false;
   Chunk (StrChunk (py "!")) None false].

Definition cooked : list Z := [1; 1; 1].

Definition clear_flags (a : list Z) : list Z := (fun _ => 0) <$> a.

Definition greeting : chat_state :=
  ChatState [Message (Some (py "user")) (Some (CStr (py "hi")))] cooked.

(** ** The task supervisor

    Clock readings ([time.time()]) and durations are counted in tenths of
    a second, so that both formats the code prints them in are exact. *)

(** [f"{t:.1f}"] and [f"{t:.2f}"] for a time or duration. *)
Definition fmt_1f (t : Z) : pystr :=
  (if t <? 0 then py "-" else [])
  ++ str_int (Z.abs t / 10) ++ py "." ++ str_int (Z.abs t mod 10).

Definition fmt_2f (t : Z) : pystr := fmt_1f t ++ py "0".

(** U+2705, U+23F3, U+1F389, U+1F4CB and U+1F4CA, the emoji of the
    supervisor's messages. *)
Definition CHECK_MARK : char := 9989%N.
Definition HOURGLASS : char := 9203%N.
Definition PARTY : char := 127881%N.
Definition CLIPBOARD : char := 128203%N.
Definition BAR_CHART : char := 128202%N.

(** A subagent record, the value of [running_tasks[task_id]], and with
    the fields the two have in common a subagent of the manager.
    [end_time] is absent until the task completes; [result] is [None]
    until one is collected. *)
Record task_info := TaskInfo {
  description : pystr;
  start_time : Z;
  end_time : option Z;
  completed : bool;
  result : option pystr;
  batch_id : pystr;
  output_buffer : pystr;
  comm_port : Z
}.

#[global] Instance task_info_eq_dec : EqDecision task_info.
Proof. solve_decision. Defined.

(** [running_tasks]: a dict from task id to record, in insertion order. *)
Abbreviation tasks := (list (pystr * task_info)).

(** [d[k]] / [k in d] and [del d[k]] on a dict. *)
Fixpoint dict_get {V} (k : pystr) (d : list (pystr * V)) : option V :=
  match d with
  | [] => None
  | (k', v) :: rest => if bool_decide (k' = k) then Some v else dict_get k rest
  end.

Definition dict_del {V} (k : pystr) (d : list (pystr * V)) : list (pystr * V) :=
  filter (fun p => p.1 <> k) d.

(** [d[k].append(v)], creating [d[k] = []] first when [k] is new. *)
Fixpoint dict_append {V} (k : pystr) (v : V) (d : list (pystr * list V))
  : list (pystr * list V) :=
  match d with
  | [] => [(k, [v])]
  | (k', vs) :: rest =>
      if bool_decide (k' = k) then (k', vs ++ [v]) :: rest
      else (k', vs) :: dict_append k v rest
  end.

(** Python's order on [str]: by code point, a proper prefix first. *)
Fixpoint str_le (a b : pystr) : bool :=
  match a, b with
  | [], _ => true
  | _ :: _, [] => false
  | x :: a', y :: b' =>
      if (x <? y)%N then true
      else if (y <? x)%N then false
      else str_le a' b'
  end.

(** [sorted(d.items())]: by key, the keys of a dict being distinct. *)
Definition key_le {V} (p q : pystr * V) : Prop := str_le p.1 q.1 = true.

#[global] Instance key_le_dec {V} : RelDecision (@key_le V).
Proof. intros p q. unfold key_le. apply _. Defined.

Definition sorted_items {V} (d : list (pystr * V)) : list (pystr * V) :=
  merge_sort key_le d.

(** [task.get('end_time', time.time())]. *)
Definition end_time_or (now : Z) (task : task_info) : Z :=
  default now (end_time task).

(** Truthiness of a result: neither [None] nor empty. *)
Definition truthy (r : option pystr) : bool :=
  match r with
  | Some (_ :: _) => true
  | _ => false
  end.

(** *** [task_results] of builtin_tool_executor.py

    [manager] is [self.agent.subagent_manager], [None] when subagent
    management is not available, else its [subagents] dict. *)

Module ExecutorTasks.

Definition result_info_lines (entry : pystr * task_info) : list pystr :=
  let '(task_id, subagent) := entry in
  [[LF] ++ py "--- Task: " ++ task_id ++ py " ---";
   py "Description: " ++ description subagent;
   py "Status: " ++ (if completed subagent then py "completed" else py "running");
   py "Result: " ++ (if truthy (result subagent)
                     then default [] (result subagent)
                     else py "No result yet")].

Definition task_results (args : arguments) (manager : option tasks)
  : option tasks * pystr :=
  match manager with
  | None => (None, py "Subagent management not available")
  | Some subagents =>
      let include_running := default false (arg_include_running args) in
      let clear_after_retrieval := default true (arg_clear_after_retrieval args) in
      let results :=
        filter (fun p => completed p.2 || include_running = true) subagents in
      let tasks_to_remove :=
        if clear_after_retrieval
        then fst <$> filter (fun p => completed p.2 = true) results
        else [] in
      let subagents' :=
        if clear_after_retrieval
        then foldl (fun d tid => dict_del tid d) subagents tasks_to_remove
        else subagents in
      if bool_decide (results = []) then
        (Some subagents', py "No task results available")
      else
        let result_lines :=
          [py "Retrieved " ++ str_int (len results) ++ py " task result(s):"]
          ++ (results ≫= result_info_lines) in
        let result_lines :=
          if clear_after_retrieval && negb (bool_decide (tasks_to_remove = []))
          then result_lines
               ++ [[LF] ++ py "Cleared " ++ str_int (len tasks_to_remove)
                   ++ py " completed task(s)"]
          else result_lines in
        (Some subagents', join [LF] result_lines)
  end.

End ExecutorTasks.

(** *** Batch completion *)

(** [max(end_times)] and [min(start_times)] of a non-empty list. *)
Definition max_list (l : list Z) : Z :=
  match l with
  | [] => 0
  | x :: rest => foldl Z.max x rest
  end.

Definition min_list (l : list Z) : Z :=
  match l with
  | [] => 0
  | x :: rest => foldl Z.min x rest
  end.

(** The lines the summary has for one task, [i] counting from 1. *)
Definition task_section (now : Z) (i : nat) (entry : pystr * task_info)
  : list pystr :=
  let '(task_id, task) := entry in
  let runtime := end_time_or now task - start_time task in
  [[LF] ++ py "--- Task " ++ str_int (Z.of_nat i) ++ py ": " ++ task_id ++ py " ---";
   py "Description: " ++ description task;
   py "Runtime: " ++ fmt_2f runtime ++ py " seconds";
   py "Status: " ++ (if completed task
                     then [CHECK_MARK] ++ py " Completed"
                     else [HOURGLASS] ++ py " Running");
   []]
  ++ (if truthy (result task)
         && negb (bool_decide (result task = Some (py "No result available")))
      then [py "Result:"; default [] (result task); []]
      else []).

Definition summary_footer : list pystr :=
  [py "=== SUMMARY COMPLETE ===";
   [];
   py "All parallel subagent tasks have finished. The above results are now available";
   py "for your analysis and next steps."].

(** *** The name [list]

    agent.py ends with the program's command line, and there (3169-3170)
    a click command is defined under the name [list].  From then on the
    global [list] of the module is that command, also for the methods of
    the class above it: [list(x)] is [Command.__call__(x)], that is
    [main(args=x)] in standalone mode.  That call reads [x] as a command
    line and ends in [sys.exit]: it returns no value.

    [list(d.values())], the values being dicts: on its first argument the
    parser evaluates [arg[:1]], which a dict answers with [TypeError]
    ([KeyError] from Python 3.12 on), an [Exception] either way, and
    [main] lets it pass.  The one call of this kind comes after the test
    that there is a value. *)
Definition slice_error : exc :=
  Exc OtherException (py "unhashable type: 'slice'").

Definition list_of_dicts {A} (values : list A) : res (list A) :=
  Raise slice_error.

(** [_generate_consolidated_summary(batch_id)]; [batch] is the argument,
    [None] by default.  Start and end times are always numbers here, so
    the branches for invalid time data are not reached. *)
Definition _generate_consolidated_summary (now : Z) (running_tasks : tasks)
    (batch : option pystr) : res pystr :=
  if bool_decide (running_tasks = []) then
    Val (py "No completed tasks to summarize.")
  else
    let named := match batch with Some (_ :: _) => true | _ => false end in
    let batch_tasks :=
      if named
      then filter (fun p => batch_id p.2 = default [] batch /\ completed p.2 = true)
                  running_tasks
      else filter (fun p => completed p.2 = true) running_tasks in
    if bool_decide (batch_tasks = []) then
      Val (py "No completed tasks found for the specified batch.")
    else
      match list_of_dicts (snd <$> batch_tasks) with
      | Raise e => Raise e
      | Val completed_tasks =>
          let start_times := start_time <$> completed_tasks in
          let end_times := end_time_or now <$> completed_tasks in
          let total_runtime := max_list end_times - min_list start_times in
          let summary_parts :=
            [py "=== SUBAGENT TASK SUMMARY ("
             ++ (if named then default [] batch else py "All Tasks") ++ py ") ===";
             py "Completed Tasks: " ++ str_int (len completed_tasks);
             py "Total Runtime: " ++ fmt_2f total_runtime ++ py " seconds";
             [];
             py "=== INDIVIDUAL TASK RESULTS ==="]
            ++ concat (imap (fun i entry => task_section now (S i) entry)
                            (sorted_items batch_tasks))
            ++ summary_footer in
          Val (join [LF] summary_parts)
      end.

(** The grouping loop of [_check_all_tasks_completed]: batches in the order
    in which their first task appears. *)
Definition group_by_batch (running_tasks : tasks) : list (pystr * tasks) :=
  foldl (fun batches entry => dict_append (batch_id entry.2) entry batches)
        [] running_tasks.

(** What [_check_all_tasks_completed] prints for a finished batch before
    it asks for the summary, and once it has it. *)
Definition batch_announcement (batch : pystr) (n : Z) : list pystr :=
  [[LF; CR; PARTY] ++ py " [TASK MANAGER] All " ++ str_int n
   ++ py " subagent tasks in " ++ batch ++ py " have completed!" ++ [CR];
   [CLIPBOARD] ++ py " [TASK MANAGER] Generating consolidated summary..." ++ [CR]].

Definition batch_report (batch : pystr) (n : Z) (summary : pystr) : list pystr :=
  [[LF; CR; BAR_CHART] ++ py " [SUBAGENT SUMMARY] Consolidated Results from "
   ++ batch ++ py " (" ++ str_int n ++ py " tasks):" ++ [CR];
   summary ++ [CR]].

(** The supervisor's state the batch check works on, and what it printed. *)
Record supervisor := Supervisor {
  running_tasks : tasks;
  current_batch_id : option pystr;
  printed : list pystr
}.

(** One turn of the loop over the batches: the state it leaves, and the
    exception that ends the loop and the function, if one is raised. *)
Definition check_batch (now : Z) (st : supervisor) (batch : pystr * tasks)
  : supervisor * option exc :=
  let '(batch, batch_tasks) := batch in
  let completed_in_batch := filter (fun p => completed p.2 = true) batch_tasks in
  if bool_decide (length completed_in_batch = length batch_tasks)
     && bool_decide (1 < length completed_in_batch)%nat
     && bool_decide (Some batch = current_batch_id st)
  then
    let announced :=
      printed st ++ batch_announcement batch (len completed_in_batch) in
    match _generate_consolidated_summary now (running_tasks st) (Some batch) with
    | Raise e =>
        (Supervisor (running_tasks st) (current_batch_id st) announced, Some e)
    | Val summary =>
        (Supervisor
           (foldl (fun d tid => dict_del tid d) (running_tasks st)
                  (fst <$> batch_tasks))
           (current_batch_id st)
           (announced ++ batch_report batch (len completed_in_batch) summary),
         None)
    end
  else (st, None).

Fixpoint check_batches (now : Z) (st : supervisor)
    (batches : list (pystr * tasks)) : supervisor * option exc :=
  match batches with
  | [] => (st, None)
  | batch :: rest =>
      match check_batch now st batch with
      | (st', None) => check_batches now st' rest
      | (st', Some e) => (st', Some e)
      end
  end.

Definition _check_all_tasks_completed (now : Z) (st : supervisor)
  : supervisor * option exc :=
  if bool_decide (running_tasks st = []) then (st, None)
  else check_batches now st (group_by_batch (running_tasks st)).

(** Records and supervisor states used as test inputs: a batch of two
    finished tasks, the second of which answered with the text of the
    placeholder, and a finished task beside a running one. *)
Definition finished (desc batch : pystr) (start finish : Z) (answer : pystr)
  : task_info :=
  TaskInfo desc start (Some finish) true (Some answer) batch [] 50000.

Definition pending (desc batch : pystr) (start : Z) : task_info :=
  TaskInfo desc start None false None batch [] 50001.



Definition finished_and_pending : tasks :=
  [(py "task_1", finished (py "read docs") (py "batch_1") 0 25 (py "docs are fine"));
   (py "task_2", pending (py "run tests") (py "batch_1") 10)].

(** ** The other built-in tools of agent.py *)

(** What [subprocess.run] returns, with its output decoded. *)
Record completed_process := CompletedProcess {
  stdout : pystr;
  stderr : pystr;
  returncode : Z
}.

(** What a path is for [_list_directory]: nothing, something that is not
    a directory, or a directory with its entries. *)
Record dir_entry := DirEntry {
  entry_name : pystr;
  entry_is_dir : bool;
  entry_size : Z
}.

Inductive path_state :=
  | Missing
  | NotADirectory
  | Directory (entries : list dir_entry).

(** U+1F4C1, U+1F4C4 and U+1F916. *)
Definition FOLDER : char := 128193%N.
Definition PAGE : char := 128196%N.
Definition ROBOT : char := 129302%N.

Definition _bash_execute (args : arguments)
    (run : pystr -> Z -> res completed_process) : pystr :=
  let command := default [] (arg_command args) in
  let timeout := default 120 (arg_timeout args) in
  if bool_decide (command = []) then py "Error: No command provided"
  else
    match run command timeout with
    | Val result =>
        let output :=
          (if bool_decide (stdout result = []) then []
           else py "STDOUT:" ++ [LF] ++ stdout result)
          ++ (if bool_decide (stderr result = []) then []
              else [LF] ++ py "STDERR:" ++ [LF] ++ stderr result)
          ++ (if bool_decide (returncode result = 0) then []
              else [LF] ++ py "Return code: " ++ str_int (returncode result)) in
        if bool_decide (output = [])
        then py "Command executed successfully (no output)"
        else output
    | Raise (Exc TimeoutExpired _) =>
        py "Error: Command timed out after " ++ str_int timeout ++ py " seconds"
    | Raise e => py "Error executing command: " ++ exc_str e
    end.

Definition directory_line (item : dir_entry) : pystr :=
  if entry_is_dir item then [FOLDER] ++ py " " ++ entry_name item ++ py "/"
  else [PAGE] ++ py " " ++ entry_name item ++ py " ("
       ++ str_int (entry_size item) ++ py " bytes)".

Definition _list_directory (args : arguments)
    (look : pystr -> res path_state) : pystr :=
  let directory_path := default (py ".") (arg_directory_path args) in
  match look directory_path with
  | Val Missing => py "Error: Directory does not exist: " ++ directory_path
  | Val NotADirectory => py "Error: Path is not a directory: " ++ directory_path
  | Val (Directory entries) =>
      let items :=
        directory_line ∘ snd
        <$> sorted_items ((fun item => (entry_name item, item)) <$> entries) in
      if bool_decide (items = []) then py "Directory is empty"
      else join [LF] items
  | Raise e => py "Error listing directory: " ++ exc_str e
  end.

Definition _get_current_directory (getcwd : res pystr) : pystr :=
  match getcwd with
  | Val cwd => cwd
  | Raise e => py "Error getting current directory: " ++ exc_str e
  end.

Definition todo_file : pystr := py "todo.json".

Definition _todo_read (fs : filesystem) : pystr :=
  match fs !! todo_file with
  | None => py "[]"
  | Some _ =>
      match read_text fs todo_file with
      | Val text => text
      | Raise e => py "Error reading todo list: " ++ exc_str e
      end
  end.

(** [json_dump] is [json.dumps(todos, indent=2)]. *)
Definition _todo_write (json_dump : list todo -> pystr) (args : arguments)
    (fs : filesystem) : filesystem * pystr :=
  let todos := default [] (arg_todos args) in
  match write_text fs todo_file (json_dump todos) with
  | (fs', Val _) =>
      (fs', py "Successfully updated todo list with " ++ str_int (len todos)
            ++ py " items")
  | (fs', Raise e) => (fs', py "Error writing todo list: " ++ exc_str e)
  end.

(** [_webfetch] runs curl outside any [try]: what [subprocess.run] raises
    leaves the function. *)
Definition _webfetch (args : arguments)
    (curl : pystr -> res completed_process) : res pystr :=
  let url := default [] (arg_url args) in
  let limit := default 1000 (arg_limit args) in
  if bool_decide (url = []) then Val (py "Error: No URL provided")
  else
    match curl url with
    | Raise e => Raise e
    | Val result =>
        let content := stdout result in
        if negb (bool_decide (returncode result = 0)) then
          let error_msg :=
            py "Error fetching URL (curl return code "
            ++ str_int (returncode result) ++ py "): " ++ stderr result in
          if bool_decide (strip content = []) then Val error_msg
          else Val (error_msg ++ [LF; LF] ++ py "Content retrieved:" ++ [LF]
                    ++ content)
        else if 0 <? limit then
          let lines := split [LF] content in
          if limit <? len lines then
            Val (join [LF] (take (Z.to_nat limit) lines) ++ [LF; LF]
                 ++ py "[Content truncated at " ++ str_int limit
                 ++ py " lines. Original had " ++ str_int (len lines)
                 ++ py " lines.]")
          else Val content
        else Val content
    end.

(** [d[k] = v] on a dict. *)
Fixpoint dict_set {V} (k : pystr) (v : V) (d : list (pystr * V))
  : list (pystr * V) :=
  match d with
  | [] => [(k, v)]
  | (k', v') :: rest =>
      if bool_decide (k' = k) then (k, v) :: rest
      else (k', v') :: dict_set k v rest
  end.

(** *** The subagent manager

    [self.subagent_manager] is an object of a module that is not among
    these two files.  It is [None] in a subagent, and when that module
    cannot be imported.  Of a manager the tools use the [subagents] dict
    (of a subagent its [description], [start_time], [completed] and
    [result]), the number [get_active_count()] returns, and
    [spawn_subagent], which is the environment's. *)
Record manager := Manager {
  subagents : tasks;
  active_count : Z
}.

(** The agent's own state and the part of the world its tools change:
    the files, the supervisor's [running_tasks] with what was printed, the
    subagent manager, and how many values [uuid.uuid4()] has given. *)
Record agent := Agent {
  files : filesystem;
  tasks_state : supervisor;
  subagent_manager : option manager;
  uuids_drawn : nat
}.

Definition with_files (fs : filesystem) (a : agent) : agent :=
  Agent fs (tasks_state a) (subagent_manager a) (uuids_drawn a).

Definition with_manager (m : manager) (a : agent) : agent :=
  Agent (files a) (tasks_state a) (Some m) (uuids_drawn a).

(** U+1F504, beside a running task. *)
Definition CYCLE : char := 128260%N.

(** [_task], [_task_status] and [_task_results].  The class defines each
    of the three twice; the second definition replaces the first in the
    class, so these are what [self._task(args)] and the other two run.
    [spawn_subagent] gives the manager as it leaves it and the new task's
    id, or the exception it raises. *)
Definition _task (args : arguments)
    (spawn_subagent : manager -> pystr -> pystr -> manager * res pystr)
    (a : agent) : agent * pystr :=
  match subagent_manager a with
  | None => (a, py "Error: Subagent management not available")
  | Some m =>
      let description := default (py "Investigation task") (arg_description args) in
      let prompt := default [] (arg_prompt args) in
      let context := default [] (arg_context args) in
      if bool_decide (prompt = []) then (a, py "Error: prompt is required")
      else
        let full_prompt :=
          if bool_decide (context = []) then prompt
          else prompt ++ [LF; LF] ++ py "Additional context: " ++ context in
        match spawn_subagent m description full_prompt with
        | (m', Val task_id) =>
            (with_manager m' a,
             py "Spawned subagent task: " ++ task_id ++ [LF]
             ++ py "Description: " ++ description ++ [LF]
             ++ py "Task is running in the background - output will appear in the chat as it becomes available.")
        | (m', Raise e) =>
            (with_manager m' a, py "Error spawning subagent: " ++ exc_str e)
        end
  end.

Definition _task_status (args : arguments) (now : Z) (m : option manager)
  : pystr :=
  match m with
  | None => py "Error: Subagent management not available"
  | Some m =>
      let active_count := active_count m in
      let total_count := len (subagents m) in
      let completed_count := total_count - active_count in
      if bool_decide (total_count = 0) then
        py "No subagent tasks found. Use the 'task' tool to spawn subagents."
      else
        let status_lines :=
          [py "Subagent Status: " ++ str_int active_count ++ py " active, "
           ++ str_int completed_count ++ py " completed, "
           ++ str_int total_count ++ py " total"] in
        let specific_task_id := default [] (arg_task_id args) in
        let status_lines :=
          if negb (bool_decide (specific_task_id = [])) then
            match dict_get specific_task_id (subagents m) with
            | Some subagent =>
                let runtime := now - start_time subagent in
                let status :=
                  if completed subagent then py "completed" else py "running" in
                let result_info :=
                  if completed subagent && truthy (result subagent)
                  then py " | Result: "
                       ++ take 100 (default [] (result subagent)) ++ py "..."
                  else [] in
                status_lines
                ++ [py "Task " ++ specific_task_id ++ py ": " ++ status
                    ++ py " (runtime: " ++ fmt_1f runtime ++ py "s)"
                    ++ result_info]
            | None =>
                status_lines
                ++ [py "Task " ++ specific_task_id ++ py ": not found"]
            end
          else
            let task_line (entry : pystr * task_info) : pystr :=
              py "  " ++ entry.1 ++ py ": "
              ++ fmt_1f (now - start_time entry.2) ++ py "s - "
              ++ description entry.2 in
            let active_tasks :=
              (fun entry => task_line entry ++ py " " ++ [CYCLE])
              <$> filter (fun p => completed p.2 = false) (subagents m) in
            let completed_tasks :=
              (fun entry => task_line entry ++ py " " ++ [CHECK_MARK])
              <$> filter (fun p => completed p.2 = true) (subagents m) in
            status_lines
            ++ (if bool_decide (active_tasks = []) then []
                else ([LF] ++ py "Active Tasks:") :: active_tasks)
            ++ (if bool_decide (completed_tasks = []) then []
                else ([LF] ++ py "Completed Tasks:") :: completed_tasks) in
        join [LF] status_lines
  end.

Definition _task_results (args : arguments) (m : option manager) : pystr :=
  match m with
  | None => py "Error: Subagent management not available"
  | Some m =>
      let task_id := default [] (arg_task_id args) in
      if bool_decide (task_id = []) then py "Error: task_id is required"
      else
        match dict_get task_id (subagents m) with
        | None => py "Error: Task " ++ task_id ++ py " not found"
        | Some subagent =>
            if negb (completed subagent) then
              py "Task " ++ task_id ++ py " is still running"
            else if truthy (result subagent) then
              py "Task " ++ task_id ++ py " result:" ++ [LF]
              ++ default [] (result subagent)
            else py "Task " ++ task_id ++ py " completed but no result captured"
        end
  end.

(** ** The dispatcher *)

(** An entry of [available_tools]: the tool's name, its server
    ([builtin] for the tools above) and its client session, [None] for a
    built-in tool or a server without session. *)
Record tool_info := ToolInfo {
  tool_name : pystr;
  tool_server : pystr;
  tool_client : option pystr
}.

(** What a remote [call_tool] returns: an object with a [content] list,
    of which each part has [text], or [data], or neither; a [str]; a
    [dict], with its [json.dumps(indent=2)]; or something else.  Parts
    without [text] and results that are not text come with the text
    [str()] gives for them, results also with that of their type. *)
Inductive content_part :=
  | TextPart (text : pystr)
  | DataPart (shown : pystr)
  | OtherPart (shown : pystr).

Inductive call_result :=
  | ContentResult (parts : list content_part) (type_shown shown : pystr)
  | StrResult (s : pystr)
  | DictResult (dumped : pystr)
  | OtherResult (type_shown shown : pystr).

Definition part_text (part : content_part) : pystr :=
  match part with
  | TextPart text => text
  | DataPart shown => shown
  | OtherPart shown => shown
  end.

Definition format_call_result (r : call_result) : pystr :=
  match r with
  | ContentResult (part :: parts) _ _ => join [LF] (part_text <$> part :: parts)
  | StrResult s => s
  | DictResult dumped => dumped
  | ContentResult [] type_shown shown | OtherResult type_shown shown =>
      py "Tool executed successfully. Result type: " ++ type_shown
      ++ py ", Content: " ++ shown
  end.

(** The request a subagent sends to its parent. *)
Record tool_request := ToolRequest {
  req_type : pystr;
  req_request_id : pystr;
  req_tool_key : pystr;
  req_tool_name : pystr;
  req_tool_args : arguments;
  req_timestamp : Z
}.

(** A value of a decoded JSON object: a string, a boolean, or anything
    else with its truth value and the text [str()] gives for it. *)
Inductive jval :=
  | JStr (s : pystr)
  | JBool (b : bool)
  | JOther (truth : bool) (shown : pystr).

(** What [json.loads] makes of a line: [JSONDecodeError], a value that is
    not an object, or an object. *)
Inductive parsed :=
  | BadJson
  | NotObject
  | Object (fields : list (pystr * jval)).

Definition jval_truth (v : jval) : bool :=
  match v with
  | JStr s => negb (bool_decide (s = []))
  | JBool b => b
  | JOther truth _ => truth
  end.

Definition jval_text (v : jval) : pystr :=
  match v with
  | JStr s => s
  | JBool true => py "True"
  | JBool false => py "False"
  | JOther _ shown => shown
  end.

#[global] Instance jval_eq_dec : EqDecision jval.
Proof. solve_decision. Defined.

(** What a [recv] on the control socket gives: data (empty when the peer
    closed), or an exception, the timeout among them. *)
Inductive recv_event :=
  | Data (data : pystr)
  | RecvRaises (e : exc).

(** The control socket of a subagent: what was sent on it; what its next
    [recv] calls will find, each with the seconds after which it is there;
    the timeout set on it, in seconds; the exception its [send] raises, if
    it does; and the seconds its [recv] calls have blocked so far.  When
    nothing more is to come the next [recv] times out. *)
Record socket := Socket {
  sent : list pystr;
  incoming : list (Z * recv_event);
  timeout : option Z;
  send_raises : option exc;
  blocked : Z
}.

Record subagent_link := SubagentLink {
  is_subagent : bool;
  comm_socket : option socket
}.

(** What the tools find outside the agent: the subprocesses they start,
    the directory tree, the manager's [spawn_subagent], the remote tool
    servers, the values [uuid.uuid4()] gives in the order of the calls,
    the exit code of the command line library for the command lines the
    embedding leaves to it, and the clock. *)
Record environment := Environment {
  run_shell : pystr -> Z -> res completed_process;
  run_curl : pystr -> res completed_process;
  look_at : pystr -> res path_state;
  getcwd : res pystr;
  spawn_subagent : manager -> pystr -> pystr -> manager * res pystr;
  call_tool : pystr -> pystr -> arguments -> res call_result;
  uuid4 : nat -> pystr;
  click_exit : list pystr -> Z;
  clock : Z
}.

Section Dispatcher.
(** [json.dumps] of a request and of a todo list, and [json.loads] of a
    line. *)
Context (json_dumps : tool_request -> pystr)
        (json_dump_todos : list todo -> pystr)
        (json_loads : pystr -> parsed).

(** What the reading loop of [_forward_tool_to_parent] does with one
    complete line: nothing, return a result, or raise. *)
Inductive line_outcome :=
  | Skip
  | Return (result : pystr)
  | Crash.

Definition read_line (request_id line : pystr) : line_outcome :=
  if bool_decide (strip line = []) then Skip
  else
    match json_loads (strip line) with
    | BadJson => Skip
    | NotObject => Crash
    | Object response =>
        if bool_decide (dict_get (py "type") response
                        = Some (JStr (py "tool_execution_response")))
           && bool_decide (dict_get (py "request_id") response
                           = Some (JStr request_id))
        then
          if jval_truth (default (JBool false) (dict_get (py "success") response))
          then Return (jval_text
                         (default (JStr (py "Tool executed successfully"))
                                  (dict_get (py "result") response)))
          else Return (py "Error from parent: "
                       ++ jval_text (default (JStr (py "Unknown error"))
                                             (dict_get (py "error") response)))
        else Skip
    end.

(** [while '\n' in buffer]: the complete lines of the buffer in turn. *)
Fixpoint read_lines (request_id : pystr) (lines : list pystr) : line_outcome :=
  match lines with
  | [] => Skip
  | line :: rest =>
      match read_line request_id line with
      | Skip => read_lines request_id rest
      | out => out
      end
  end.

(** [head] and [rest] of a non-empty list's last element. *)
Definition complete_lines (buffer : pystr) : list pystr :=
  removelast (split [LF] buffer).

Definition incomplete_line (buffer : pystr) : pystr :=
  List.last (split [LF] buffer) [].

(** [while True]: the [recv] loop, on a socket with [response_timeout]
    set.  A [recv] returns what is there before the timeout, and raises
    the timeout otherwise, after which what was to come is that much
    nearer.  The loop gives the result, what it left on the socket, and
    the seconds it blocked. *)
Fixpoint await_response (request_id tool_name buffer : pystr)
    (response_timeout : Z) (events : list (Z * recv_event))
  : pystr * list (Z * recv_event) * Z :=
  let no_response :=
    py "Error: No response received from parent for tool " ++ tool_name in
  match events with
  | [] => (no_response, [], response_timeout)
  | (after, event) :: rest =>
      if response_timeout <=? after then
        (no_response, (after - response_timeout, event) :: rest,
         response_timeout)
      else
        match event with
        | RecvRaises _ => (no_response, rest, after)
        | Data data =>
            if bool_decide (data = []) then (no_response, rest, after)
            else
              let buffer := buffer ++ data in
              match read_lines request_id (complete_lines buffer) with
              | Return result => (result, rest, after)
              | Crash => (no_response, rest, after)
              | Skip =>
                  let '(result, rest, waited) :=
                    await_response request_id tool_name (incomplete_line buffer)
                                   response_timeout rest in
                  (result, rest, after + waited)
              end
        end
  end.

(** [_forward_tool_to_parent]; [drawn] counts the values [uuid4] has
    given before the call, and the function gives the count after it. *)
Definition _forward_tool_to_parent (env : environment) (drawn : nat)
    (sock : socket) (tool_key tool_name : pystr) (arguments : arguments)
  : nat * socket * pystr :=
  let request_id := uuid4 env drawn in
  let message :=
    ToolRequest (py "tool_execution_request") request_id tool_key tool_name
                arguments (clock env) in
  let message_json := json_dumps message ++ [LF] in
  match send_raises sock with
  | Some e => (S drawn, sock, py "Error forwarding tool to parent: " ++ exc_str e)
  | None =>
      let response_timeout := 300 in
      let '(result, rest, waited) :=
        await_response request_id tool_name [] response_timeout (incoming sock) in
      (S drawn,
       Socket (sent sock ++ [message_json]) rest (Some response_timeout) None
              (blocked sock + waited),
       result)
  end.

Definition _execute_builtin_tool (env : environment) (tool_name : pystr)
    (args : arguments) (a : agent) : agent * res pystr :=
  if bool_decide (tool_name = py "bash_execute") then
    (a, Val (_bash_execute args (run_shell env)))
  else if bool_decide (tool_name = py "read_file") then
    (a, Val (_read_file args (files a)))
  else if bool_decide (tool_name = py "write_file") then
    let '(fs, out) := _write_file args (files a) in (with_files fs a, Val out)
  else if bool_decide (tool_name = py "list_directory") then
    (a, Val (_list_directory args (look_at env)))
  else if bool_decide (tool_name = py "get_current_directory") then
    (a, Val (_get_current_directory (getcwd env)))
  else if bool_decide (tool_name = py "todo_read") then
    (a, Val (_todo_read (files a)))
  else if bool_decide (tool_name = py "todo_write") then
    let '(fs, out) := _todo_write json_dump_todos args (files a) in
    (with_files fs a, Val out)
  else if bool_decide (tool_name = py "replace_in_file") then
    let '(fs, out) := _replace_in_file args (files a) in
    (with_files fs a, Val out)
  else if bool_decide (tool_name = py "webfetch") then
    (a, _webfetch args (run_curl env))
  else if bool_decide (tool_name = py "task") then
    let '(a', out) := _task args (spawn_subagent env) a in (a', Val out)
  else if bool_decide (tool_name = py "task_status") then
    (a, Val (_task_status args (clock env) (subagent_manager a)))
  else if bool_decide (tool_name = py "task_results") then
    (a, Val (_task_results args (subagent_manager a)))
  else (a, Val (py "Unknown built-in tool: " ++ tool_name)).

Definition excluded_tools : list pystr :=
  [py "task"; py "task_status"; py "task_results"].

(** The work of [_execute_mcp_tool] after the forwarding gate: the built-in
    executor, or the remote client. *)
Definition execute_locally (env : environment) (tool_key : pystr)
    (tool : tool_info) (arguments : arguments) (a : agent) : agent * res pystr :=
  if bool_decide (tool_server tool = py "builtin") then
    _execute_builtin_tool env (tool_name tool) arguments a
  else
    match tool_client tool with
    | None => (a, Val (py "Error: No client session for tool " ++ tool_key))
    | Some client =>
        match call_tool env client (tool_name tool) arguments with
        | Val result => (a, Val (format_call_result result))
        | Raise e => (a, Raise e)
        end
    end.

(** [list(d.keys())], the keys being strings: a command line for a
    command that takes no argument.  When there is a key and no key
    begins with a dash, the parser is left with unexpected extra
    arguments, a usage error, which standalone mode answers with
    [sys.exit(2)].  Without any key the command itself runs before the
    exit, and a key that begins with a dash is read as an option; the exit
    code of those command lines is the environment's. *)
Definition list_of_keys (env : environment) (keys : list pystr) : Z :=
  if negb (bool_decide (keys = []))
     && forallb (fun key => negb (startswith (py "-") key)) keys
  then 2
  else click_exit env keys.

(** [_execute_mcp_tool]: the whole body is in a [try] whose handler turns
    any [Exception] into a result string.  For a key that is not
    registered the function calls [list] to show the tools there are, and
    the [SystemExit] of that call passes the handler. *)
Definition _execute_mcp_tool (env : environment)
    (available_tools : list (pystr * tool_info)) (link : subagent_link)
    (tool_key : pystr) (arguments : arguments) (a : agent)
  : agent * subagent_link * exec_result :=
  match dict_get tool_key available_tools with
  | None =>
      (a, link, SystemExit (Some (list_of_keys env (fst <$> available_tools))))
  | Some tool =>
      match is_subagent link, comm_socket link with
      | true, Some sock =>
          if bool_decide (tool_name tool ∉ excluded_tools) then
            let '(drawn, sock', out) :=
              _forward_tool_to_parent env (uuids_drawn a) sock tool_key
                                      (tool_name tool) arguments in
            (Agent (files a) (tasks_state a) (subagent_manager a) drawn,
             SubagentLink true (Some sock'), Returned out)
          else
            match execute_locally env tool_key tool arguments a with
            | (a', Val out) => (a', link, Returned out)
            | (a', Raise e) =>
                (a', link,
                 Returned (py "Error executing tool " ++ tool_key ++ py ": "
                           ++ exc_str e))
            end
      | _, _ =>
          match execute_locally env tool_key tool arguments a with
          | (a', Val out) => (a', link, Returned out)
          | (a', Raise e) =>
              (a', link,
               Returned (py "Error executing tool " ++ tool_key ++ py ": "
                         ++ exc_str e))
          end
      end
  end.

End Dispatcher.

(** Data that reaches the socket in pieces, each with the seconds it
    takes, and the sum of a list of durations. *)
Definition arrivals (pieces : list (Z * pystr)) : list (Z * recv_event) :=
  (fun piece => (piece.1, Data piece.2)) <$> pieces.

Definition total (durations : list Z) : Z := foldr Z.add 0 durations.


(** A subagent, its tools and its world used as test inputs; the JSON
    functions here decode one line, the parent's reply, and print a
    request as its id; [uuid4] counts.  The agent's file system holds one
    path that cannot be opened, and there is no subagent manager. *)
Definition sample_uuid4 (n : nat) : pystr := py "id-" ++ str_int (Z.of_nat n).

Definition sample_json_loads (line : pystr) : parsed :=
  if bool_decide (line = py "{reply}") then
    Object [(py "type", JStr (py "tool_execution_response"));
            (py "request_id", JStr (py "id-0"));
            (py "success", JBool true);
            (py "result", JStr (py "file contents"))]
  else BadJson.

Definition sample_json_dumps (r : tool_request) : pystr :=
  py "{request " ++ req_request_id r ++ py "}".

Definition sample_spawn_subagent (m : manager) (description prompt : pystr)
  : manager * res pystr :=
  (m, Raise (Exc OtherException (py "no subprocess"))).

Definition sample_environment : environment :=
  Environment (fun _ _ => Raise (Exc OtherException (py "no shell")))
              (fun _ => Raise (Exc TimeoutExpired (py "curl timed out")))
              (fun _ => Val Missing)
              (Val (py "/work"))
              sample_spawn_subagent
              (fun _ _ _ => Val (StrResult (py "remote")))
              sample_uuid4
              (fun _ => 0)
              0.

Definition sample_tools : list (pystr * tool_info) :=
  [(py "builtin:read_file", ToolInfo (py "read_file") (py "builtin") None);
   (py "builtin:webfetch", ToolInfo (py "webfetch") (py "builtin") None);
   (py "builtin:task_results", ToolInfo (py "task_results") (py "builtin") None)].

(** A socket on which the reply comes in two pieces, each a second after
    the [recv] that takes it, and one on which each piece takes 200
    seconds. *)
Definition sample_socket : socket :=
  Socket [] [(1, Data (py "{rep")); (1, Data (py "ly}" ++ [LF]))] None None 0.


Definition sample_link : subagent_link := SubagentLink true (Some sample_socket).


Definition no_link : subagent_link := SubagentLink false None.

Definition sample_agent : agent :=
  Agent {[ py "locked" := Locked (Exc PermissionError
                                      (py "[Errno 13] Permission denied: 'locked'")) ]}
        (Supervisor [] None []) None 0.

(** An agent whose manager and whose [running_tasks] hold a finished
    task beside a running one, and a [task_results] call for a task with
    [clear_after_retrieval] given. *)
Definition managing_agent : agent :=
  Agent ∅ (Supervisor finished_and_pending (Some (py "batch_1")) [])
        (Some (Manager finished_and_pending 1)) 0.

Definition results_args (task_id : pystr) (clear : bool) : arguments :=
  Arguments None None None None None None None None None None None None
            (Some task_id) None (Some clear) None None.

(** *** What can go wrong in a built-in tool

    This definition is the reading of "error outcome" the properties
    below use, not code of the agent: an argument the tool needs is
    missing or empty, the operation the tool performs raised, or the
    operation could not be done (nothing at the path, text to replace
    absent, curl ended with a non-zero code, no subagent manager, no such
    task). *)
Inductive failure :=
  | MissingArgument
  | OperationRaised (e : exc)
  | OperationFailed.

Definition raised_by {A} (r : res A) : option failure :=
  match r with
  | Val _ => None
  | Raise e => Some (OperationRaised e)
  end.

Definition missing (arg : option pystr) : bool :=
  bool_decide (default [] arg = []).

Definition tool_failure (json_dump_todos : list todo -> pystr)
    (env : environment) (a : agent) (tool_name : pystr) (args : arguments)
  : option failure :=
  if bool_decide (tool_name = py "bash_execute") then
    if missing (arg_command args) then Some MissingArgument
    else raised_by (run_shell env (default [] (arg_command args))
                              (default 120 (arg_timeout args)))
  else if bool_decide (tool_name = py "read_file") then
    if missing (arg_file_path args) then Some MissingArgument
    else raised_by (read_text (files a) (default [] (arg_file_path args)))
  else if bool_decide (tool_name = py "write_file") then
    if missing (arg_file_path args) then Some MissingArgument
    else raised_by (write_text (files a) (default [] (arg_file_path args))
                               (default [] (arg_content args))).2
  else if bool_decide (tool_name = py "list_directory") then
    match look_at env (default (py ".") (arg_directory_path args)) with
    | Val (Directory _) => None
    | Val _ => Some OperationFailed
    | Raise e => Some (OperationRaised e)
    end
  else if bool_decide (tool_name = py "get_current_directory") then
    raised_by (getcwd env)
  else if bool_decide (tool_name = py "todo_read") then
    match files a !! todo_file with
    | None => None
    | Some _ => raised_by (read_text (files a) todo_file)
    end
  else if bool_decide (tool_name = py "todo_write") then
    raised_by (write_text (files a) todo_file
                          (json_dump_todos (default [] (arg_todos args)))).2
  else if bool_decide (tool_name = py "replace_in_file") then
    if missing (arg_file_path args) || missing (arg_old_text args)
    then Some MissingArgument
    else
      match read_text (files a) (default [] (arg_file_path args)) with
      | Raise e => Some (OperationRaised e)
      | Val content =>
          if contains (default [] (arg_old_text args)) content then None
          else Some OperationFailed
      end
  else if bool_decide (tool_name = py "webfetch") then
    if missing (arg_url args) then Some MissingArgument
    else
      match run_curl env (default [] (arg_url args)) with
      | Raise e => Some (OperationRaised e)
      | Val result =>
          if bool_decide (returncode result = 0) then None
          else Some OperationFailed
      end
  else if bool_decide (tool_name = py "task") then
    match subagent_manager a with
    | None => Some OperationFailed
    | Some m =>
        if missing (arg_prompt args) then Some MissingArgument
        else
          let prompt := default [] (arg_prompt args) in
          let context := default [] (arg_context args) in
          raised_by
            (spawn_subagent env m
               (default (py "Investigation task") (arg_description args))
               (if bool_decide (context = []) then prompt
                else prompt ++ [LF; LF] ++ py "Additional context: " ++ context)).2
    end
  else if bool_decide (tool_name = py "task_status") then
    match subagent_manager a with
    | None => Some OperationFailed
    | Some _ => None
    end
  else if bool_decide (tool_name = py "task_results") then
    match subagent_manager a with
    | None => Some OperationFailed
    | Some m =>
        if missing (arg_task_id args) then Some MissingArgument
        else
          match dict_get (default [] (arg_task_id args)) (subagents m) with
          | None => Some OperationFailed
          | Some _ => None
          end
    end
  else None.

(** What a failed built-in tool gives its caller: a string that begins
    with "Error", with "Error: " when an argument is missing, or else the
    exception the tool's operation raised. *)
Definition reports (f : failure) (r : res pystr) : Prop :=
  match r with
  | Val out =>
      startswith (py "Error") out = true
      /\ (f = MissingArgument -> startswith (py "Error: ") out = true)
  | Raise e => f = OperationRaised e
  end.

(** ** More of the two files

    The definitions below embed functions that the properties above did
    not need, and name the inputs and invariants the further properties
    speak about. *)

(** A [read_file] call with [offset] and [limit] present or not. *)
Definition read_window_args (path : pystr) (offset limit : option Z) : arguments :=
  Arguments (Some path) None offset limit None None None None None
            None None None None None None None None.

(** [l[:n]] for an [int]: a negative [n] counts from the end. *)
Definition slice_to {A} (n : Z) (l : list A) : list A :=
  if n <? 0 then take (length l - Z.to_nat (- n)) l else take (Z.to_nat n) l.

(** [l[n:]] for an [int]. *)
Definition slice_from {A} (n : Z) (l : list A) : list A :=
  if n <? 0 then drop (length l - Z.to_nat (- n)) l else drop (Z.to_nat n) l.

Module ExecutorTools.

(** [read_file] of builtin_tool_executor.py: [offset] counts the lines to
    skip and defaults to 0. *)
Definition read_file (args : arguments) (fs : filesystem) : pystr :=
  let file_path := default [] (arg_file_path args) in
  let offset := default 0 (arg_offset args) in
  let limit := arg_limit args in
  if bool_decide (file_path = []) then py "Error: No file path provided"
  else
    match read_text fs file_path with
    | Val text =>
        let lines := readlines text in
        let lines := if 0 <? offset then slice_from offset lines else lines in
        let lines :=
          match limit with
          | None => lines
          | Some l => slice_to l lines
          end in
        let numbered_lines :=
          imap (fun i line =>
                  fmt_d 5 (offset + Z.of_nat i + 1) ++ [ARROW] ++ rstrip line)
               lines in
        join [LF] numbered_lines
    | Raise (Exc FileNotFoundError _) =>
        py "Error: File not found: " ++ file_path
    | Raise (Exc PermissionError _) =>
        py "Error: Permission denied reading file: " ++ file_path
    | Raise e => py "Error reading file: " ++ exc_str e
    end.

End ExecutorTools.

(** The lines [read_file] shows from 0-based index [start] on, at most
    [limit] of them, each after its 1-based number in a field of [w]. *)
Definition numbered_window (w : nat) (start : nat) (limit : option Z)
    (lines : list pystr) : pystr :=
  let shown :=
    match limit with
    | None => drop start lines
    | Some l => take (Z.to_nat l) (drop start lines)
    end in
  join [LF]
    (imap (fun i line =>
             fmt_d w (Z.of_nat (start + i) + 1) ++ [ARROW] ++ rstrip line)
          shown).

(** The characters [str()] of an [int] is made of. *)
Definition digit_or_sign (c : char) : Prop := (c = 45 \/ 48 <= c <= 57)%N.

(** A [webfetch] call with [limit] present or not. *)
Definition fetch_args (url : pystr) (limit : option Z) : arguments :=
  Arguments None None None limit None None None None (Some url) None None
            None None None None None None.

(** The note [_webfetch] puts after a truncated page. *)
Definition truncation_note (limit total : Z) : pystr :=
  py "[Content truncated at " ++ str_int limit
  ++ py " lines. Original had " ++ str_int total ++ py " lines.]".

(** A page of three lines, as curl gives it. *)
Definition three_line_page : completed_process :=
  CompletedProcess (py "a" ++ [LF] ++ py "b" ++ [LF] ++ py "c") [] 0.

(** A [todo_write] call. *)
Definition todo_args (todos : list todo) : arguments :=
  Arguments None None None None None None None None None None None None
            None None None None (Some todos).

(** A stand-in for [json.dumps(todos, indent=2)] on test inputs: one line
    per item, its id. *)
Definition sample_json_dump_todos (todos : list todo) : pystr :=
  py "[" ++ join [LF] (todo_id <$> todos) ++ py "]".

(** A supervisor whose current batch still has a running task. *)
Definition supervisor_one_pending : supervisor :=
  Supervisor finished_and_pending (Some (py "batch_1")) [].

(** *** The end of [_monitor_task]

    What [_monitor_task] finds when it collects a result: no result file,
    a file holding an object whose ["result"] key is a [str] (as the
    subagent writes it) or is absent, or an exception while reading. *)
Inductive result_file :=
  | NoResultFile
  | ResultFile (result_field : option pystr)
  | ResultRaises (e : exc).

Definition collected_result (file : result_file) : pystr :=
  match file with
  | NoResultFile => py "Result file not found"
  | ResultFile result_field => default (py "No result captured") result_field
  | ResultRaises e => py "Error collecting result: " ++ exc_str e
  end.

(** The record of a task once [_monitor_task] has marked it. *)
Definition completed_record (now : Z) (file : result_file) (task : task_info)
  : task_info :=
  TaskInfo (description task) (start_time task) (Some now) true
           (Some (collected_result file)) (batch_id task)
           (output_buffer task) (comm_port task).

(** [_monitor_task] from the point where the subprocess has ended and its
    last output has been read.  From there on the coroutine does not
    await, so no other code runs in between: it marks the record as
    completed, stamps [end_time] with the clock ([now]), collects the
    result, prints, and runs the batch check, which reads the clock again
    ([later]).  What the batch check raises is caught by the handler of
    the whole function, which prints it.  A task without record is not
    monitored at all. *)
Definition _monitor_task (task_id : pystr) (now later : Z) (file : result_file)
    (st : supervisor) : supervisor :=
  match dict_get task_id (running_tasks st) with
  | None => st
  | Some task_info =>
      let marked :=
        Supervisor
          (dict_set task_id (completed_record now file task_info) (running_tasks st))
          (current_batch_id st)
          (printed st
           ++ [[LF; CR; ROBOT] ++ py " [SUBAGENT] Task " ++ task_id
               ++ py " completed: " ++ description task_info ++ [CR]]) in
      match _check_all_tasks_completed later marked with
      | (st', None) => st'
      | (st', Some e) =>
          Supervisor
            (running_tasks st') (current_batch_id st')
            (printed st'
             ++ [[LF; CR; ROBOT] ++ py " [SUBAGENT ERROR " ++ task_id
                 ++ py "]: Monitoring failed: " ++ exc_str e ++ [CR]])
      end
  end.

(** A supervisor whose current batch is one running task. *)
Definition supervisor_single_pending : supervisor :=
  Supervisor [(py "task_1", pending (py "read docs") (py "batch_1") 0)]
             (Some (py "batch_1")) [].

(** ** The parent's side of tool forwarding *)

#[global] Instance todo_eq_dec : EqDecision todo.
Proof. solve_decision. Defined.
#[global] Instance arguments_eq_dec : EqDecision arguments.
Proof. solve_decision. Defined.

(** U+1F527, U+1F4DD and U+274C. *)
Definition WRENCH : char := 128295%N.
Definition MEMO : char := 128221%N.
Definition CROSS_MARK : char := 10060%N.

(** [s[:n] + "..." if len(s) > n else s]. *)
Definition preview (n : nat) (s : pystr) : pystr :=
  if Z.of_nat n <? len s then take n s ++ py "..." else s.

(** The request as the parent decodes it, read with [message.get]: a
    field is [None] when its key is absent. *)
Record request_message := RequestMessage {
  msg_request_id : option pystr;
  msg_tool_key : option pystr;
  msg_tool_name : option pystr;
  msg_tool_args : option arguments
}.

(** The reply the parent builds: [result] is there on success, [error]
    otherwise. *)
Record tool_response := ToolResponse {
  resp_type : pystr;
  resp_request_id : pystr;
  resp_success : bool;
  resp_result : option pystr;
  resp_error : option pystr
}.

(** [print(line)] by the parent. *)
Definition print_line (line : pystr) (a : agent) : agent :=
  Agent (files a)
        (Supervisor (running_tasks (tasks_state a))
                    (current_batch_id (tasks_state a))
                    (printed (tasks_state a) ++ [line]))
        (subagent_manager a) (uuids_drawn a).

Section ParentSide.
(** [json.dumps] of a reply, [str()] of an argument dict, and the call of
    [_execute_mcp_tool] the handler awaits. *)
Context (json_dumps_response : tool_response -> pystr)
        (str_args : arguments -> pystr)
        (execute : subagent_link -> pystr -> arguments -> agent
                   -> agent * subagent_link * exec_result).

(** The last step: the reply goes out on the client socket, if the task
    has one; what [send] raises is logged only. *)
Definition send_response (client_socket : option socket)
    (response : tool_response) : option socket :=
  match client_socket with
  | None => None
  | Some sock =>
      match send_raises sock with
      | Some _ => Some sock
      | None =>
          Some (Socket (sent sock ++ [json_dumps_response response ++ [LF]])
                       (incoming sock) (timeout sock) None (blocked sock))
      end
  end.

(** What the handler prints before it runs the tool. *)
Definition announce_tool_request (task_id tool_name : pystr)
    (tool_args : arguments) (a : agent) : agent :=
  let a :=
    print_line ([LF; WRENCH] ++ py " [SUBAGENT " ++ task_id
                ++ py "] Executing tool: " ++ tool_name) a in
  if bool_decide (tool_args = no_args) then a
  else print_line ([MEMO] ++ py " [SUBAGENT " ++ task_id ++ py "] Arguments: "
                   ++ preview 100 (str_args tool_args)) a.

(** [_handle_subagent_tool_request].  [client_socket] is
    [task_info.get("client_socket")]; the record's listening socket is
    always there.  The handler gives the agent, its subagent flag and the
    client socket as it leaves them. *)
Definition _handle_subagent_tool_request (task_id : pystr)
    (message : request_message) (client_socket : option socket)
    (link : subagent_link) (a : agent)
  : agent * subagent_link * option socket :=
  let request_id := default [] (msg_request_id message) in
  let tool_key := default [] (msg_tool_key message) in
  let tool_name := default [] (msg_tool_name message) in
  let tool_args := default no_args (msg_tool_args message) in
  if bool_decide (request_id = []) || bool_decide (tool_key = [])
     || bool_decide (tool_name = [])
  then (a, link, client_socket)
  else
    match dict_get task_id (running_tasks (tasks_state a)) with
    | None => (a, link, client_socket)
    | Some task_info =>
        let a := announce_tool_request task_id tool_name tool_args a in
        let original_is_subagent := is_subagent link in
        let '(a, link, outcome) :=
          execute (SubagentLink false (comm_socket link)) tool_key tool_args a in
        match outcome with
        | Returned result =>
            let link := SubagentLink original_is_subagent (comm_socket link) in
            let a :=
              print_line ([CHECK_MARK] ++ py " [SUBAGENT " ++ task_id
                          ++ py "] Result: " ++ preview 300 result) a in
            (a, link,
             send_response client_socket
               (ToolResponse (py "tool_execution_response") request_id true
                             (Some result) None))
        | SystemExit (Some 0) =>
            let result := py "Command completed successfully" in
            let a :=
              print_line ([CHECK_MARK] ++ py " [SUBAGENT " ++ task_id
                          ++ py "] Result: " ++ preview 300 result) a in
            (a, link,
             send_response client_socket
               (ToolResponse (py "tool_execution_response") request_id true
                             (Some result) None))
        | SystemExit code =>
            let error_msg :=
              py "Tool exited with code "
              ++ match code with
                 | Some n => str_int n
                 | None => py "None"
                 end in
            let a :=
              print_line ([CROSS_MARK] ++ py " [SUBAGENT " ++ task_id
                          ++ py "] Tool error: " ++ error_msg) a in
            (a, link,
             send_response client_socket
               (ToolResponse (py "tool_execution_response") request_id false
                             None (Some error_msg)))
        | Raised e =>
            let error_msg :=
              py "Error executing tool " ++ tool_name ++ py ": " ++ exc_str e in
            let a :=
              print_line ([CROSS_MARK] ++ py " [SUBAGENT " ++ task_id
                          ++ py "] Tool error: " ++ error_msg) a in
            (a, link,
             send_response client_socket
               (ToolResponse (py "tool_execution_response") request_id false
                             None (Some error_msg)))
        end
    end.

End ParentSide.

(** A parent, its tools and its JSON functions used as test inputs: one
    running task, one tool, a reply always printed as the same line and
    that line decoded. *)
Definition parent_tools : list (pystr * tool_info) :=
  [(py "builtin:get_current_directory",
    ToolInfo (py "get_current_directory") (py "builtin") None)].

Definition parent_agent : agent := Agent ∅ supervisor_single_pending None 0.

Definition idle_socket : socket := Socket [] [] None None 0.

Definition reply_json_dumps (r : tool_response) : pystr := py "{reply}".

Definition reply_json_loads (line : pystr) : parsed :=
  if bool_decide (line = py "{reply}") then
    Object [(py "type", JStr (py "tool_execution_response"));
            (py "request_id", JStr (py "id-0"));
            (py "success", JBool true);
            (py "result", JStr (py "/work"))]
  else BadJson.

(** A chunk that arrives while no ESC is waiting and the handler's flag
    is down, and the text of a run of chunks. *)
Definition undisturbed (item : stream_item) : Prop :=
  exists c key, item = Chunk c key false /\ key <> Some ESC.

Definition streamed_text (items : list stream_item) : pystr :=
  concat ((fun item => match item with
                       | Chunk c _ _ => chunk_text c
                       | StreamRaises _ => []
                       end) <$> items).

(** A backend that cannot be reached, and a conversation of five messages
    that opens with the system prompt. *)
Definition failing_backend (messages : list message) : res pystr :=
  Raise (Exc OtherException (py "connection refused")).

Definition five_messages : list message :=
  [Message (Some (py "system")) (Some (CStr (py "be brief")));
   Message (Some (py "user")) (Some (CStr (py "one")));
   Message (Some (py "assistant")) (Some (CStr (py "two")));
   Message (Some (py "user")) (Some (CStr (py "three")));
   Message (Some (py "assistant")) (Some (CStr (py "four")))].

(** ** Tool names, display and token limits *)

Definition COLON : char := 58%N.
Definition UNDERSCORE : char := 95%N.

Definition normalize_tool_name (tool_key : pystr) : pystr :=
  replace [COLON] [UNDERSCORE] tool_key.

(** [validate_tool_name], as a truth value. *)
Definition validate_tool_name (tool_name : pystr) : bool :=
  negb (bool_decide (tool_name = []))
  && (startswith (py "builtin_") tool_name || contains [UNDERSCORE] tool_name).

Definition display_tool_execution_result (result : pystr)
    (is_error is_subagent : bool) : pystr :=
  let prefix :=
    if is_error then
      if is_subagent then [CROSS_MARK] ++ py " [SUBAGENT] Error:"
      else [CROSS_MARK] ++ py " Error:"
    else
      if is_subagent then [CHECK_MARK] ++ py " [SUBAGENT] Result:"
      else [CHECK_MARK] ++ py " Result:" in
  let result_preview :=
    if 200 <? len result then take 200 result ++ py "..." else result in
  prefix ++ py " " ++ result_preview.

Definition _get_model_token_limits : list (pystr * Z) :=
  [(py "deepseek-reasoner", 128000);
   (py "deepseek-chat", 64000);
   (py "gemini-pro", 128000);
   (py "pro", 128000);
   (py "gemini-flash", 64000);
   (py "flash", 64000);
   (py "gpt-4", 128000);
   (py "gpt-3.5", 16000);
   (py "claude", 200000)].

(** [get_token_limit]; [model_name] is what [_get_current_model_name]
    gives, [None] without a configuration, and [lower] is [str.lower]. *)
Definition get_token_limit (lower : pystr -> pystr) (model_name : option pystr)
  : Z :=
  let model_limits := _get_model_token_limits in
  match model_name with
  | Some (c :: name) =>
      let model_name := c :: name in
      match dict_get model_name model_limits with
      | Some limit => limit
      | None =>
          match find (fun entry => contains entry.1 (lower model_name))
                     model_limits with
          | Some (pattern, limit) => limit
          | None => 32000
          end
      end
  | _ => 32000
  end.

(** The code point a colon becomes in a normalised name. *)
Definition normalize_char (c : char) : char :=
  if bool_decide (c = COLON) then UNDERSCORE else c.

(** A [bash_execute] call, and a command that ends quietly. *)
Definition command_args (command : pystr) : arguments :=
  Arguments None None None None None None (Some command) None None None None
            None None None None None None.

Definition quiet_shell (command : pystr) (timeout : Z) : res completed_process :=
  Val (CompletedProcess [] [] 0).

(** ** Applying a unified diff *)

(** [s.rstrip(chars)]. *)
Fixpoint lstrip_chars (chars : list char) (s : pystr) : pystr :=
  match s with
  | c :: s' => if bool_decide (c ∈ chars) then lstrip_chars chars s' else s
  | [] => []
  end.

Definition rstrip_chars (chars : list char) (s : pystr) : pystr :=
  reverse (lstrip_chars chars (reverse s)).

(** Where a slice index points in a list of [n] elements. *)
Definition slice_bound (n i : Z) : nat :=
  Z.to_nat (if i <? 0 then Z.max (i + n) 0 else Z.min i n).

(** [l[a:b]] and [l[a:b] = new]. *)
Definition list_slice {A} (a b : Z) (l : list A) : list A :=
  let start := slice_bound (len l) a in
  let stop := slice_bound (len l) b in
  take (stop - start) (drop start l).

Definition list_slice_assign {A} (a b : Z) (new l : list A) : list A :=
  let start := slice_bound (len l) a in
  let stop := slice_bound (len l) b in
  take start l ++ new ++ drop (Nat.max start stop) l.

Inductive diff_action :=
  | ContextLine
  | RemoveLine
  | AddLine.

#[global] Instance diff_action_eq_dec : EqDecision diff_action.
Proof. solve_decision. Defined.

(** A hunk as [_apply_diff] collects it. *)
Record hunk := Hunk {
  old_start : Z;
  old_count : Z;
  new_start : Z;
  new_count : Z;
  hunk_lines : list (diff_action * pystr)
}.

(** What a line of a hunk's body stands for; a line that opens with a
    backslash, or with anything else, stands for nothing. *)
Definition diff_line (line : pystr) : option (diff_action * pystr) :=
  if startswith (py " ") line then Some (ContextLine, drop 1 line ++ [LF])
  else if startswith (py "-") line then Some (RemoveLine, drop 1 line ++ [LF])
  else if startswith (py "+") line then Some (AddLine, drop 1 line ++ [LF])
  else None.

Section ApplyDiff.
(** [re.match] of the hunk header pattern on a line: the four groups when
    it matches, the first and third as numbers, the second and fourth
    also when they are there. *)
Context (hunk_header : pystr -> option (Z * option Z * Z * option Z)).

(** One turn of the parsing loop, on the hunks closed so far and the
    current one. *)
Definition parse_diff_line (state : list hunk * option hunk) (line : pystr)
  : list hunk * option hunk :=
  let '(hunks, current_hunk) := state in
  let line := rstrip_chars [CR; LF] line in
  match hunk_header line with
  | Some (g1, g2, g3, g4) =>
      (hunks ++ option_list current_hunk,
       Some (Hunk (g1 - 1) (default 1 g2) (g3 - 1) (default 1 g4) []))
  | None =>
      match current_hunk with
      | None => (hunks, None)
      | Some h =>
          match diff_line line with
          | Some entry =>
              (hunks,
               Some (Hunk (old_start h) (old_count h) (new_start h) (new_count h)
                          (hunk_lines h ++ [entry])))
          | None => (hunks, Some h)
          end
      end
  end.

Definition parse_diff (diff_content : pystr) : list hunk :=
  let '(hunks, current_hunk) :=
    foldl parse_diff_line ([], None) (split [LF] diff_content) in
  hunks ++ option_list current_hunk.

(** The loop that compares the hunk's context and removed lines with the
    section of the file, [context_index] counting them. *)
Fixpoint check_section (original_section : list pystr) (context_index : nat)
    (lines : list (diff_action * pystr)) : bool :=
  match lines with
  | [] => true
  | (AddLine, _) :: rest => check_section original_section context_index rest
  | (_, content) :: rest =>
      match original_section !! context_index with
      | None => false
      | Some found =>
          if bool_decide (found = content)
          then check_section original_section (S context_index) rest
          else false
      end
  end.

Definition apply_hunk (result_lines : list pystr) (h : hunk)
  : option (list pystr) :=
  let original_section :=
    list_slice (old_start h) (old_start h + old_count h) result_lines in
  if check_section original_section 0 (hunk_lines h) then
    let new_section :=
      snd <$> filter (fun entry => entry.1 <> RemoveLine) (hunk_lines h) in
    Some (list_slice_assign (old_start h) (old_start h + old_count h)
                            new_section result_lines)
  else None.

(** [_apply_diff]: [None] without hunks or when a hunk does not match,
    else the lines with the hunks applied from the last to the first. *)
Definition _apply_diff (original_lines : list pystr) (diff_content : pystr)
  : option (list pystr) :=
  let hunks := parse_diff diff_content in
  if bool_decide (hunks = []) then None
  else
    foldl (fun result_lines h =>
             match result_lines with
             | Some lines => apply_hunk lines h
             | None => None
             end)
          (Some original_lines) (reverse hunks).

End ApplyDiff.

(** What a hunk expects to find and what it puts in its place. *)
Definition expected_lines (entries : list (diff_action * pystr)) : list pystr :=
  snd <$> filter (fun entry => entry.1 <> AddLine) entries.

Definition replacement_lines (entries : list (diff_action * pystr)) : list pystr :=
  snd <$> filter (fun entry => entry.1 <> RemoveLine) entries.

(** The entries of a hunk's body as [_apply_diff] reads it. *)
Definition body_entries (body : list pystr) : list (diff_action * pystr) :=
  omap (fun line => diff_line (rstrip_chars [CR; LF] line)) body.

(** A header matcher for test inputs: it knows one header. *)
Definition sample_hunk_header (line : pystr)
  : option (Z * option Z * Z * option Z) :=
  if bool_decide (line = py "@@ -2,2 +2,1 @@") then Some (2, Some 2, 2, Some 1)
  else None.

(** A file of four lines, and the body of a hunk that lists the second
    of them as context. *)
Definition four_lines : list pystr :=
  [py "a" ++ [LF]; py "b" ++ [LF]; py "c" ++ [LF]; py "d" ++ [LF]].

Definition one_context_line : list pystr := [py " b"].

(** A [list_directory] call, and a directory of two entries as the
    system may list it, in either order. *)
Definition directory_args (path : pystr) : arguments :=
  Arguments None None None None None None None None None None None None
            None None None (Some path) None.

Definition two_entries : list dir_entry :=
  [DirEntry (py "src") true 0; DirEntry (py "README") false 12].

Definition look_forward (path : pystr) : res path_state :=
  Val (Directory two_entries).

Definition look_backward (path : pystr) : res path_state :=
  Val (Directory (reverse two_entries)).

(** The order of [sorted(path.iterdir())]. *)
Definition name_le (x y : dir_entry) : Prop :=
  str_le (entry_name x) (entry_name y) = true.

(** * Properties *)

(** ** Sanity checks of the text primitives *)

Example py_ex : py "ab" = [97; 98]%N.
Proof. reflexivity. Qed.
Example fmt_ex : fmt_d 6 12 = py "    12".
Proof. vm_compute. reflexivity. Qed.
Example replace_ex : replace (py "a") (py "bb") (py "aXa") = py "bbXbb".
Proof. vm_compute. reflexivity. Qed.
Example count_ex : count (py "aa") (py "aaaaa") = 2%nat.
Proof. vm_compute. reflexivity. Qed.
Example split_ex : split (py ",") (py "a,,b") = [py "a"; []; py "b"].
Proof. vm_compute. reflexivity. Qed.
Example readlines_ex : readlines (py "a" ++ [LF] ++ py "b") = [py "a" ++ [LF]; py "b"].
Proof. vm_compute. reflexivity. Qed.
Example read_ex :
  _read_file (read_args (py "f") 1) (fs1 (py "f") (py "ab" ++ [LF] ++ py "c "))
  = py "     1" ++ [ARROW] ++ py "ab" ++ [LF] ++ py "     2" ++ [ARROW] ++ py "c".
Proof. vm_compute. reflexivity. Qed.
Example replace_all_ex :
  (_replace_in_file (replace_args (py "f") (py "a") (py "b")) (fs1 (py "f") (py "aa"))).1
    !! py "f" = Some (File (py "bb")).
Proof. vm_compute. reflexivity. Qed.
(** ** Lemmas on the text primitives *)

(** Keeps [simpl] from unfolding string literals. *)
Opaque py.

Lemma startswith_spec p s : startswith p s = true <-> exists t, s = p ++ t.
Proof.
  revert s. induction p as [|a p IH]; intros s; simpl.
  - split; eauto.
  - destruct s as [|b s]; simpl.
    + split; [done | intros [t Ht]; done].
    + rewrite andb_true_iff, bool_decide_eq_true, IH. split.
      * intros [-> [t ->]]. eauto.
      * intros [t Ht]. simplify_eq. eauto.
Qed.

Lemma startswith_drop p s : startswith p s = true -> s = p ++ drop (length p) s.
Proof.
  intros [t ->]%startswith_spec. by rewrite drop_app_length.
Qed.

Lemma startswith_cons o p c s :
  startswith (o :: p) (c :: s) = bool_decide (o = c) && startswith p s.
Proof. reflexivity. Qed.

Section unfold.
Context (o : char) (old : pystr) (c : char) (s : pystr).
Let hit := startswith (o :: old) (c :: s) = true.
Let miss := startswith (o :: old) (c :: s) = false.

Lemma replace_hit new :
  hit -> replace (o :: old) new (c :: s)
         = new ++ replace (o :: old) new (drop (length old) s).
Proof. intros H. simp replace. by rewrite H. Qed.

Lemma replace_miss new :
  miss -> replace (o :: old) new (c :: s) = c :: replace (o :: old) new s.
Proof. intros H. simp replace. by rewrite H. Qed.

Lemma count_hit :
  hit -> count (o :: old) (c :: s) = S (count (o :: old) (drop (length old) s)).
Proof. intros H. simp count. by rewrite H. Qed.

Lemma count_miss : miss -> count (o :: old) (c :: s) = count (o :: old) s.
Proof. intros H. simp count. by rewrite H. Qed.

Lemma split_hit :
  hit -> split (o :: old) (c :: s) = [] :: split (o :: old) (drop (length old) s).
Proof. intros H. simp split. by rewrite H. Qed.

Lemma split_miss :
  miss -> split (o :: old) (c :: s)
          = match split (o :: old) s with
            | [] => [[c]]
            | seg :: segs => (c :: seg) :: segs
            end.
Proof. intros H. simp split. rewrite H. simpl. by destruct (split (o :: old) s). Qed.
End unfold.

Lemma split_nonempty sep s : split sep s <> [].
Proof. funelim (split sep s); simp split; try done. Qed.

Lemma join_cons sep p rest :
  rest <> [] -> join sep (p :: rest) = p ++ sep ++ join sep rest.
Proof. by destruct rest. Qed.

Lemma join_split sep s : join sep (split sep s) = s.
Proof.
  funelim (split sep s); simp split; try done.
  - rewrite join_cons by apply split_nonempty.
    apply startswith_drop in Heq. simpl in *. congruence.
  - by destruct (split_nonempty (o :: sep) s).
  - rewrite Heq in Hind. destruct segs; simpl in *; congruence.
Qed.

Lemma replace_join_split old new s :
  old <> [] -> replace old new s = join new (split old s).
Proof.
  intros Hold. funelim (split old s); try done.
  - rewrite replace_hit, join_cons by (done || apply split_nonempty).
    rewrite app_nil_l. f_equal. auto.
  - by destruct (split_nonempty (o :: sep) s).
  - rewrite replace_miss, Hind by done. rewrite Heq. by destruct segs.
Qed.

Lemma length_split old s :
  old <> [] -> length (split old s) = S (count old s).
Proof.
  intros Hold. funelim (split old s); try done.
  - rewrite count_hit by done. simpl. f_equal. auto.
  - by destruct (split_nonempty (o :: sep) s).
  - rewrite count_miss, <- Hind, Heq by done. done.
Qed.

Lemma replace_same old s : replace old old s = s.
Proof.
  destruct old as [|o old].
  - simp replace. simpl. induction s; simpl; congruence.
  - rewrite replace_join_split by done. apply join_split.
Qed.

Lemma count_contains old s :
  old <> [] -> contains old s = true <-> (0 < count old s)%nat.
Proof.
  intros Hold. funelim (count old s); try done.
  - simpl. split; [done | lia].
  - split; [lia|]. intros _. simpl. rewrite startswith_cons in Heq. by rewrite Heq.
  - rewrite <- H by done. simpl. rewrite startswith_cons in Heq. by rewrite Heq.
Qed.

Lemma replace_absent old new s :
  old <> [] -> contains old s = false -> replace old new s = s.
Proof.
  intros Hold Hc. funelim (replace old new s); try done.
  - simpl in Hc. rewrite startswith_cons in Heq. rewrite Heq in Hc. done.
  - f_equal. simpl in Hc. apply orb_false_iff in Hc as [_ Hc]. auto.
Qed.

Lemma startswith_app old s t :
  startswith old s = true -> startswith old (s ++ t) = true.
Proof.
  rewrite !startswith_spec. intros [u ->]. exists (u ++ t). by rewrite app_assoc.
Qed.

Lemma join_head sep p rest : exists t, join sep (p :: rest) = p ++ t.
Proof.
  destruct rest; simpl; [exists []; by rewrite app_nil_r | eauto].
Qed.

Lemma split_segments_free old s :
  old <> [] -> Forall (fun seg => contains old seg = false) (split old s).
Proof.
  intros Hold. funelim (split old s); try done.
  - by repeat constructor.
  - constructor; [reflexivity | auto].
  - by destruct (split_nonempty (o :: sep) s).
  - specialize (Hind Hold). rewrite Heq in Hind.
    apply Forall_cons in Hind as [Hseg Hsegs]. constructor; [|done].
    change (contains (o :: sep) (c :: seg))
      with (startswith (o :: sep) (c :: seg) || contains (o :: sep) seg).
    rewrite Hseg, orb_false_r.
    destruct (startswith (o :: sep) (c :: seg)) eqn:Hs; [|done].
    destruct (join_head (o :: sep) seg segs) as [t Ht].
    rewrite <- Heq, join_split in Ht. subst s.
    apply (startswith_app _ _ t) in Hs. simpl in *. congruence.
Qed.

Lemma universal_newlines_no_cr n s :
  (length s <= n)%nat -> Forall (fun c => c <> CR) (universal_newlines s).
Proof.
  revert s. induction n as [|n IH]; intros [|c s] Hn; simpl in *; try done; try lia.
  case_bool_decide as Hc.
  - destruct s as [|c' s]; [by repeat constructor|].
    case_bool_decide; constructor; try done; apply IH; simpl in *; lia.
  - constructor; [done|]. apply IH. lia.
Qed.

Lemma universal_newlines_id s :
  Forall (fun c => c <> CR) s -> universal_newlines s = s.
Proof.
  induction 1 as [|c s Hc Hs IH]; simpl; [done|].
  rewrite bool_decide_eq_false_2 by done. by rewrite IH.
Qed.

Lemma universal_newlines_idem s :
  universal_newlines (universal_newlines s) = universal_newlines s.
Proof.
  apply universal_newlines_id, (universal_newlines_no_cr (length s)). done.
Qed.

(** ** The file tools *)

Lemma read_text_file fs path content :
  read_text fs path = Val content ->
  exists text, fs !! path = Some (File text) /\ content = universal_newlines text.
Proof.
  unfold read_text. destruct (fs !! path) as [[text|e]|]; intros; simplify_eq. eauto.
Qed.

Lemma write_text_file (fs : filesystem) path text content :
  fs !! path = Some (File text) ->
  write_text fs path content = (<[path := File content]> fs, Val ()).
Proof. unfold write_text. by intros ->. Qed.

Lemma write_text_succeeds (fs : filesystem) path content :
  (write_text fs path content).2 = Val () ->
  write_text fs path content = (<[path := File content]> fs, Val ()).
Proof. unfold write_text. by destruct (fs !! path) as [[text|e]|]. Qed.

Lemma read_text_written (fs : filesystem) path content :
  read_text (<[path := File content]> fs) path = Val (universal_newlines content).
Proof. unfold read_text. by rewrite lookup_insert_eq. Qed.

(** The two messages of the executor's "not found" error that are not
    the whitespace message differ from it at their thirteenth character. *)
Lemma not_found_error_whitespace path old content :
  Executor.not_found_error path old content
  = py "Error: Text found but whitespace doesn't match in " ++ path
    ++ py ". Check for exact indentation, tabs vs spaces, and trailing whitespace. Use read_file to see exact formatting."
  <-> strip old <> [] /\ contains (strip old) content = true.
Proof.
  unfold Executor.not_found_error.
  destruct (bool_decide (strip old = [])) eqn:Hs; simpl.
  - apply bool_decide_eq_true in Hs. split; [|by intros [? _]].
    intros Heq. apply (f_equal (take 13)) in Heq.
    destruct (_ && _); vm_compute in Heq; discriminate.
  - apply bool_decide_eq_false in Hs.
    destruct (contains (strip old) content); simpl; [done|].
    split; [|by intros [_ ?]].
    intros Heq. apply (f_equal (take 13)) in Heq.
    destruct (_ && _); vm_compute in Heq; discriminate.
Qed.

Lemma not_found_error_prefix path old content :
  startswith (py "Error: Text ") (Executor.not_found_error path old content) = true.
Proof.
  unfold Executor.not_found_error.
  repeat match goal with |- context [if ?b then _ else _] => destruct b end;
    reflexivity.
Qed.

(** C3, as the code has it: where [old_text] occurs in a file that can
    be read, and the file can be written, both [_replace_in_file]
    (agent.py) and [replace_in_file] (the executor) replace every
    occurrence, not only the first: the content is the segments between
    the occurrences joined by [old_text], none of the segments contains
    [old_text], and the file becomes the same segments joined by
    [new_text].  The agent's tool reports the number of occurrences
    replaced, the executor's reports none.  Where [old_text] is absent the
    file is untouched; the agent's tool answers "Text not found" and only
    the executor's tells "text found but whitespace doesn't match" (the
    trimmed [old_text] is not empty and occurs) from "text to replace not
    found". *)
Theorem replace_in_file_replaces_all (fs : filesystem) path old new content :
  path <> [] -> old <> [] -> read_text fs path = Val content ->
  let args := replace_args path old new in
  let segs := split old content in
  content = join old segs
  /\ length segs = S (count old content)
  /\ Forall (fun seg => contains old seg = false) segs
  /\ (contains old content = true ->
      (write_text fs path (replace old new content)).2 = Val () ->
        _replace_in_file args fs
        = (<[path := File (join new segs)]> fs,
           py "Successfully replaced " ++ str_int (Z.of_nat (count old content))
           ++ py " occurrence(s) of text in " ++ path)
        /\ Executor.replace_in_file args fs
           = (<[path := File (join new segs)]> fs,
              py "Successfully replaced text in " ++ path))
  /\ (contains old content = false ->
        _replace_in_file args fs = (fs, py "Error: Text not found in file: " ++ old)
        /\ Executor.replace_in_file args fs
           = (fs, Executor.not_found_error path old content)
        /\ startswith (py "Error: Text ") (Executor.not_found_error path old content) = true
        /\ (Executor.not_found_error path old content
            = py "Error: Text found but whitespace doesn't match in " ++ path
              ++ py ". Check for exact indentation, tabs vs spaces, and trailing whitespace. Use read_file to see exact formatting."
            <-> strip old <> [] /\ contains (strip old) content = true)).
Proof.
  intros Hpath Hold Hread args segs. subst args segs.
  split; [by rewrite join_split|].
  split; [by apply length_split|].
  split; [by apply split_segments_free|].
  unfold _replace_in_file, Executor.replace_in_file; simpl.
  rewrite !bool_decide_eq_false_2, Hread by done.
  split; intros Hc; rewrite Hc; simpl.
  - intros Hwrite. rewrite (write_text_succeeds _ _ _ Hwrite).
    by rewrite replace_join_split.
  - split; [done|]. split; [done|].
    split; [apply not_found_error_prefix | apply not_found_error_whitespace].
Qed.

Lemma replace_in_file_replaces_all_witness :
  py "f" <> [] /\ py "a" <> []
  /\ read_text (fs1 (py "f") (py "aXa")) (py "f") = Val (py "aXa")
  /\ (write_text (fs1 (py "f") (py "aXa")) (py "f")
                  (replace (py "a") (py "b") (py "aXa"))).2 = Val ()
  /\ _replace_in_file (replace_args (py "f") (py "a") (py "b")) (fs1 (py "f") (py "aXa"))
     = (<[py "f" := File (py "bXb")]> (fs1 (py "f") (py "aXa")),
        py "Successfully replaced 2 occurrence(s) of text in f").
Proof.
  assert (H1 : py "f" <> []) by discriminate.
  assert (H2 : py "a" <> []) by discriminate.
  assert (H3 : read_text (fs1 (py "f") (py "aXa")) (py "f") = Val (py "aXa"))
    by reflexivity.
  assert (H4 : (write_text (fs1 (py "f") (py "aXa")) (py "f")
                           (replace (py "a") (py "b") (py "aXa"))).2 = Val ())
    by reflexivity.
  refine (conj H1 (conj H2 (conj H3 (conj H4 _)))).
  destruct (replace_in_file_replaces_all _ _ _ (py "b") _ H1 H2 H3)
    as (_ & _ & _ & Hin & _).
  destruct (Hin eq_refl H4) as [Hagent _]. exact Hagent.
Defined.

(** C3 as stated fails: with two occurrences of [old_text] in the file,
    both are replaced, where a replacement of the first match only would
    leave the second; the executor's tool reports no count; the agent's
    tool has one "not found" error, also where the trimmed text occurs. *)
Lemma replace_in_file_not_first_only :
  let fs := fs1 (py "f") (py "aa") in
  let args := replace_args (py "f") (py "a") (py "b") in
  let padded := replace_args (py "f") (py " a") (py "b") in
  contains (py "a") (py "aa") = true
  /\ replace_first (py "a") (py "b") (py "aa") = py "ba"
  /\ (_replace_in_file args fs).1 !! py "f" = Some (File (py "bb"))
  /\ (Executor.replace_in_file args fs).1 !! py "f" = Some (File (py "bb"))
  /\ (Executor.replace_in_file args fs).2 = py "Successfully replaced text in f"
  /\ contains (strip (py " a")) (py "aa") = true
  /\ (_replace_in_file padded fs).2 = py "Error: Text not found in file:  a".
Proof. vm_compute. repeat split; reflexivity. Qed.

(** C4, as the code has it: after a successful call, the file read back is
    the replaced content.  With [old_text = new_text] that is the content
    before, and the second call succeeds again and leaves the file as it
    is.  Otherwise the second call answers "Text not found" exactly when
    [old_text] does not occur in the replaced content; when it does occur
    (for instance because [new_text] contains [old_text]) the second call
    replaces again. *)
Theorem replace_in_file_twice (fs : filesystem) path old new content :
  path <> [] -> old <> [] -> read_text fs path = Val content ->
  contains old content = true ->
  let args := replace_args path old new in
  let fs' := (_replace_in_file args fs).1 in
  let content' := universal_newlines (replace old new content) in
  read_text fs' path = Val content'
  /\ (old = new ->
        content' = content /\ _replace_in_file args fs' = (fs', (_replace_in_file args fs).2))
  /\ (contains old content' = false ->
        _replace_in_file args fs' = (fs', py "Error: Text not found in file: " ++ old))
  /\ (contains old content' = true ->
        _replace_in_file args fs'
        = (<[path := File (replace old new content')]> fs',
           py "Successfully replaced " ++ str_int (Z.of_nat (count old content'))
           ++ py " occurrence(s) of text in " ++ path)).
Proof.
  intros Hpath Hold Hread Hc args fs' content'.
  destruct (read_text_file _ _ _ Hread) as (text & Hfile & Hcontent).
  assert (Hfs' : fs' = <[path := File (replace old new content)]> fs).
  { subst fs' args. unfold _replace_in_file; simpl.
    rewrite !bool_decide_eq_false_2, Hread, Hc by done. simpl.
    by rewrite (write_text_file _ _ text). }
  assert (Hread' : read_text fs' path = Val content').
  { rewrite Hfs'. apply read_text_written. }
  assert (Hstep : forall b, contains old content' = b ->
    _replace_in_file args fs'
    = if b then (<[path := File (replace old new content')]> fs',
                 py "Successfully replaced " ++ str_int (Z.of_nat (count old content'))
                 ++ py " occurrence(s) of text in " ++ path)
      else (fs', py "Error: Text not found in file: " ++ old)).
  { intros b Hb. subst args. unfold _replace_in_file; simpl.
    rewrite !bool_decide_eq_false_2, Hread', Hb by done.
    destruct b; simpl; [|done].
    rewrite (write_text_file _ _ (replace old new content)); [done|].
    rewrite Hfs'. apply lookup_insert_eq. }
  split; [done|]. split; [|split; intros Hb; by rewrite (Hstep _ Hb)].
  intros <-.
  assert (Hsame : content' = content).
  { subst content'. rewrite replace_same, Hcontent. apply universal_newlines_idem. }
  split; [done|].
  rewrite (Hstep true) by (by rewrite Hsame).
  rewrite Hsame, replace_same.
  subst args. unfold _replace_in_file at 1; simpl.
  rewrite !bool_decide_eq_false_2, Hread, Hc by done. simpl.
  rewrite (write_text_file _ _ text) by done. simpl.
  f_equal. rewrite Hfs', replace_same. apply insert_insert_eq.
Qed.

Lemma replace_in_file_twice_witness :
  py "f" <> [] /\ py "a" <> []
  /\ read_text (fs1 (py "f") (py "ab")) (py "f") = Val (py "ab")
  /\ contains (py "a") (py "ab") = true
  /\ read_text (_replace_in_file (replace_args (py "f") (py "a") (py "c"))
                  (fs1 (py "f") (py "ab"))).1 (py "f")
     = Val (universal_newlines (replace (py "a") (py "c") (py "ab"))).
Proof.
  assert (H1 : py "f" <> []) by discriminate.
  assert (H2 : py "a" <> []) by discriminate.
  assert (H3 : read_text (fs1 (py "f") (py "ab")) (py "f") = Val (py "ab"))
    by reflexivity.
  assert (H4 : contains (py "a") (py "ab") = true) by reflexivity.
  refine (conj H1 (conj H2 (conj H3 (conj H4 _)))).
  exact (proj1 (replace_in_file_twice _ _ _ (py "c") _ H1 H2 H3 H4)).
Defined.

(** C4 as stated fails: with [new_text] containing [old_text], the second
    call with the same arguments finds [old_text] again and replaces it
    again instead of answering "Text not found". *)
Lemma replace_in_file_second_call_replaces_again :
  let args := replace_args (py "f") (py "a") (py "aa") in
  let fs := fs1 (py "f") (py "a") in
  let first := _replace_in_file args fs in
  let second := _replace_in_file args first.1 in
  py "a" <> py "aa"
  /\ contains (py "a") (py "a") = true
  /\ first.2 = py "Successfully replaced 1 occurrence(s) of text in f"
  /\ first.1 !! py "f" = Some (File (py "aa"))
  /\ second.2 = py "Successfully replaced 2 occurrence(s) of text in f"
  /\ second.1 !! py "f" = Some (File (py "aaaa")).
Proof. vm_compute. repeat split; (reflexivity || discriminate). Qed.

Lemma numbered_lines_imap (lines : list pystr) :
  numbered_line lines <$> seqZ 0 (len lines)
  = imap (fun i line => fmt_d 6 (Z.of_nat i + 1) ++ [ARROW] ++ rstrip line) lines.
Proof.
  apply list_eq; intros i.
  rewrite list_lookup_fmap, list_lookup_imap.
  destruct (lines !! i) as [line|] eqn:Hi; simpl.
  - rewrite lookup_seqZ_lt by (apply lookup_lt_Some in Hi; unfold len; lia).
    simpl. unfold numbered_line.
    rewrite Z.add_0_l, Nat2Z.id, (list_lookup_total_correct _ _ _ Hi). done.
  - rewrite lookup_seqZ_ge by (apply lookup_ge_None in Hi; unfold len; lia). done.
Qed.

Lemma rstrip_snoc_space s c : isspace c = true -> rstrip (s ++ [c]) = rstrip s.
Proof. intros Hc. unfold rstrip. rewrite reverse_snoc. simpl. by rewrite Hc. Qed.

Lemma endswith_spec p s : endswith p s = true <-> exists t, s = t ++ p.
Proof.
  unfold endswith. rewrite startswith_spec. split.
  - intros [t Ht]. exists (reverse t).
    apply (f_equal reverse) in Ht. by rewrite reverse_involutive, reverse_app, reverse_involutive in Ht.
  - intros [t ->]. exists (reverse t). by rewrite reverse_app.
Qed.

(** What [rstrip] removes from a line includes its terminator. *)
Lemma rstrip_chomp line : rstrip line = rstrip (chomp line).
Proof.
  unfold chomp.
  destruct (endswith [CR; LF] line) eqn:H1.
  - apply endswith_spec in H1 as [t ->].
    rewrite length_app, take_app_length' by (simpl; lia).
    change [CR; LF] with ([CR] ++ [LF]). rewrite app_assoc.
    by rewrite !rstrip_snoc_space.
  - destruct (endswith [LF] line) eqn:H2; [|done].
    apply endswith_spec in H2 as [t ->].
    rewrite length_app, take_app_length' by (simpl; lia).
    by rewrite rstrip_snoc_space.
Qed.

Lemma write_text_ok (fs : filesystem) path c :
  (forall e, fs !! path <> Some (Locked e)) ->
  write_text fs path c = (<[path := File c]> fs, Val ()).
Proof.
  intros Hw. unfold write_text.
  destruct (fs !! path) as [[t|e]|]; [done | by destruct (Hw e) | done].
Qed.

(** C5, as the code has it: after a successful [_write_file] of [c] to a
    non-empty path, [_read_file] with [offset=1] returns the lines of [c]
    (cut after LF, CR LF or CR) joined by LF, each as its 1-based number in
    a field of 6 characters, the arrow, and the line with its trailing
    whitespace removed, which takes the line terminator and any blanks
    before it. *)
Theorem write_file_read_file (fs : filesystem) path c :
  path <> [] -> (forall e, fs !! path <> Some (Locked e)) ->
  let written := _write_file (write_args path c) fs in
  let lines := readlines (universal_newlines c) in
  written.2 = py "Successfully wrote " ++ str_int (len c) ++ py " characters to " ++ path
  /\ _read_file (read_args path 1) written.1
     = join [LF] (imap (fun i line =>
                          fmt_d 6 (Z.of_nat i + 1) ++ [ARROW] ++ rstrip (chomp line))
                       lines).
Proof.
  intros Hpath Hw written lines.
  assert (Hwr : written
                = (<[path := File c]> fs,
                   py "Successfully wrote " ++ str_int (len c)
                   ++ py " characters to " ++ path)).
  { subst written. unfold _write_file; simpl.
    by rewrite bool_decide_eq_false_2, write_text_ok. }
  rewrite Hwr; simpl. split; [done|].
  unfold _read_file; simpl.
  rewrite bool_decide_eq_false_2, read_text_written by done.
  fold lines. rewrite Z.sub_0_r, numbered_lines_imap.
  f_equal. apply imap_ext. intros i line _. simpl. by rewrite <- rstrip_chomp.
Qed.

Lemma write_file_read_file_witness :
  py "f" <> [] /\ (forall e, (∅ : filesystem) !! py "f" <> Some (Locked e))
  /\ _read_file (read_args (py "f") 1)
       (_write_file (write_args (py "f") (py "ab" ++ [LF] ++ py "c")) ∅).1
     = py "     1" ++ [ARROW] ++ py "ab" ++ [LF] ++ py "     2" ++ [ARROW] ++ py "c".
Proof.
  assert (H1 : py "f" <> []) by discriminate.
  assert (H2 : forall e, (∅ : filesystem) !! py "f" <> Some (Locked e)) by done.
  refine (conj H1 (conj H2 _)).
  rewrite (proj2 (write_file_read_file ∅ _ (py "ab" ++ [LF] ++ py "c") H1 H2)).
  reflexivity.
Defined.

(** C5 as stated fails: a line that ends in a blank comes back without
    it, so the line text is not unchanged. *)
Lemma read_file_drops_trailing_blank :
  let written := _write_file (write_args (py "f") (py "a ")) ∅ in
  written.2 = py "Successfully wrote 2 characters to f"
  /\ _read_file (read_args (py "f") 1) written.1 = py "     1" ++ [ARROW] ++ py "a"
  /\ numbered_verbatim (py "a ") = py "     1" ++ [ARROW] ++ py "a "
  /\ _read_file (read_args (py "f") 1) written.1 <> numbered_verbatim (py "a ").
Proof. vm_compute. repeat split; (reflexivity || discriminate). Qed.

(** ** Token accounting and compaction *)

Lemma count_conversation_tokens_app l1 l2 :
  count_conversation_tokens (l1 ++ l2)
  = count_conversation_tokens l1 + count_conversation_tokens l2.
Proof. induction l1 as [|m l1 IH]; simpl; lia. Qed.

Lemma last_n_app_length {A} n (l1 l2 : list A) :
  length l2 = n -> last_n n (l1 ++ l2) = l2.
Proof.
  intros <-. unfold last_n. rewrite length_app.
  replace (length l1 + length l2 - length l2)%nat with (length l1) by lia.
  apply drop_app_length.
Qed.

Lemma length_last_n {A} n (l : list A) :
  (n <= length l)%nat -> length (last_n n l) = n.
Proof. intros. unfold last_n. rewrite length_drop. lia. Qed.

Lemma last_n_app_r {A} n (l1 l2 : list A) :
  (n <= length l2)%nat -> last_n n (l1 ++ l2) = last_n n l2.
Proof.
  intros Hn. unfold last_n. rewrite length_app, drop_app.
  replace (length l1 + length l2 - n - length l1)%nat with (length l2 - n)%nat by lia.
  rewrite drop_ge by lia. done.
Qed.

(** A conversation of more than three messages is its system prompt (if
    it opens with one), the messages to summarise (not empty), and its
    last two messages. *)
Lemma conversation_parts messages :
  (3 < length messages)%nat ->
  messages = option_list (system_message messages)
             ++ messages_to_summarize messages ++ last_n 2 messages
  /\ messages_to_summarize messages <> [].
Proof.
  intros Hlen. unfold messages_to_summarize, slice_between, last_n.
  destruct messages as [|m rest]; [simpl in Hlen; lia|].
  assert (Hsplit : m :: rest = take (length (m :: rest) - 2) (m :: rest)
                               ++ drop (length (m :: rest) - 2) (m :: rest))
    by (by rewrite take_drop).
  destruct (take (length (m :: rest) - 2) (m :: rest)) as [|m' mid] eqn:Htake.
  { apply (f_equal length) in Htake. rewrite length_take in Htake. simpl in *. lia. }
  assert (m' = m) as -> by (simpl in Hsplit; congruence).
  assert (Hmid : (1 <= length mid)%nat).
  { apply (f_equal length) in Htake. rewrite length_take in Htake. simpl in *. lia. }
  unfold system_message. case_bool_decide; simpl.
  - rewrite drop_0. split; [done|]. destruct mid; simpl in *; [lia | done].
  - split; done.
Qed.

Lemma last_n_last_n {A} n m (l : list A) :
  (n <= m)%nat -> last_n n (last_n m l) = last_n n l.
Proof.
  intros Hnm. unfold last_n. rewrite length_drop, drop_drop. f_equal. lia.
Qed.

(** C2, as the code has it: on a conversation of more than three messages
    compaction always runs, and on both of its paths (summary and
    fallback) the result opens with the first message when that one had
    role system and ends with the last two messages unchanged.  On the
    summary path the result is the system prompt, the summary message and
    the last two messages, so the estimated total changes by the estimate
    of the summary message minus that of the summarised messages: it
    decreases exactly when the summary message is estimated smaller than
    what it replaces, which the code does not ensure. *)
Theorem compact_conversation_keeps_ends
    (generate_response : list message -> res pystr) (messages : list message) :
  (3 < length messages)%nat ->
  let out := compact_conversation generate_response messages in
  let summarised := messages_to_summarize messages in
  (forall m, head messages = Some m -> role m = Some (py "system") ->
             head out = Some m)
  /\ last_n 2 out = last_n 2 messages
  /\ (forall summary,
        generate_response (summary_messages summarised) = Val summary ->
        out = option_list (system_message messages)
              ++ [summary_message summary] ++ last_n 2 messages
        /\ count_conversation_tokens out
           = count_conversation_tokens messages
             - count_conversation_tokens summarised
             + (estimate_tokens (py "[CONVERSATION SUMMARY] " ++ summary) + 10)
        /\ (count_conversation_tokens out < count_conversation_tokens messages
            <-> estimate_tokens (py "[CONVERSATION SUMMARY] " ++ summary) + 10
                < count_conversation_tokens summarised)).
Proof.
  intros Hlen out summarised.
  destruct (conversation_parts messages Hlen) as [Hparts Hmid].
  assert (Hrecent : length (last_n 2 messages) = 2%nat)
    by (apply length_last_n; lia).
  assert (Hout : out = match generate_response (summary_messages summarised) with
                       | Val summary_response =>
                           option_list (system_message messages)
                           ++ [summary_message summary_response]
                           ++ last_n 2 messages
                       | Raise _ =>
                           option_list (system_message messages)
                           ++ last_n 5 messages
                       end).
  { subst out summarised. unfold compact_conversation.
    rewrite (bool_decide_eq_false_2 (length messages <= 3)%nat) by lia.
    by rewrite (bool_decide_eq_false_2 (messages_to_summarize messages = [])). }
  split; [|split].
  - intros m Hhead Hrole. rewrite Hout.
    assert (Hsys : system_message messages = Some m).
    { destruct messages as [|m0 rest]; simplify_eq/=.
      by rewrite bool_decide_eq_true_2. }
    rewrite Hsys. by destruct (generate_response _).
  - rewrite Hout. destruct (generate_response _) as [summary|e].
    + rewrite app_assoc. by apply last_n_app_length.
    + rewrite last_n_app_r by (unfold last_n; rewrite length_drop; lia).
      apply last_n_last_n. lia.
  - intros summary Hgen. rewrite Hout, Hgen. split; [done|].
    assert (Hcount : count_conversation_tokens
                       (option_list (system_message messages)
                        ++ [summary_message summary] ++ last_n 2 messages)
                     = count_conversation_tokens messages
                       - count_conversation_tokens summarised
                       + (estimate_tokens (py "[CONVERSATION SUMMARY] " ++ summary) + 10)).
    { pose proof (f_equal count_conversation_tokens Hparts) as Htot.
      rewrite !count_conversation_tokens_app in Htot |- *. simpl.
      fold summarised in Htot. lia. }
    rewrite Hcount. split; [done | lia].
Qed.

Lemma compact_conversation_keeps_ends_witness :
  (3 < length four_empty_messages)%nat
  /\ last_n 2 (compact_conversation (fun _ => Val (py "ok")) four_empty_messages)
     = last_n 2 four_empty_messages.
Proof.
  assert (H : (3 < length four_empty_messages)%nat) by (vm_compute; lia).
  refine (conj H _).
  exact (proj1 (proj2 (compact_conversation_keeps_ends _ _ H))).
Defined.

(** C2 as stated fails: compacting four messages whose contents are empty
    replaces one message of an estimated 10 tokens by a summary message of
    15, so the estimated total grows from 40 to 45. *)
Lemma compaction_can_grow_token_count :
  let out := compact_conversation (fun _ => Val []) four_empty_messages in
  (3 < length four_empty_messages)%nat
  /\ out = [Message (Some (py "system")) (Some (CStr []));
            summary_message [];
            Message (Some (py "assistant")) (Some (CStr []));
            Message (Some (py "user")) (Some (CStr []))]
  /\ count_conversation_tokens four_empty_messages = 40
  /\ count_conversation_tokens out = 45
  /\ ~ count_conversation_tokens out < count_conversation_tokens four_empty_messages.
Proof. vm_compute. split; [lia|]. repeat split; try reflexivity. discriminate. Qed.

(** For each limit of [_get_model_token_limits] and for the default, the
    float product is exactly four fifths of the limit, an integer: between
    an [int] and that float, [>] is the comparison of [should_compact]. *)
Example float_limits :
  forallb (fun limit => PrimFloat.eqb (float_threshold limit) (exact_threshold limit)
                        && (4 * limit mod 5 =? 0))
          [128000; 64000; 16000; 200000; 32000] = true.
Proof. vm_compute. reflexivity. Qed.

(** C8, as the code has it: compaction is triggered exactly when the
    estimated token count is greater than 0.8 times the limit.  At a count
    of exactly 80% of the limit it is not triggered, nor at 79%; the first
    count that triggers it is the one above four fifths of the limit. *)
Theorem should_compact_threshold (limit : Z) (messages : list message) :
  let tokens := count_conversation_tokens messages in
  (should_compact limit messages = true <-> 4 * limit < 5 * tokens)
  /\ (5 * tokens = 4 * limit -> should_compact limit messages = false)
  /\ (0 <= limit -> 100 * tokens = 79 * limit ->
      should_compact limit messages = false)
  /\ (should_compact limit messages = true <-> 4 * limit / 5 < tokens).
Proof.
  intros tokens. unfold should_compact. fold tokens.
  rewrite bool_decide_eq_true.
  split; [done|]. split; [|split].
  - intros H. apply bool_decide_eq_false. lia.
  - intros H0 H. apply bool_decide_eq_false. lia.
  - pose proof (Z.div_mod (4 * limit) 5 ltac:(lia)) as Hdiv.
    pose proof (Z.mod_pos_bound (4 * limit) 5 ltac:(lia)) as Hmod.
    lia.
Qed.

Lemma should_compact_threshold_witness :
  5 * count_conversation_tokens (replicate 4 empty_user_message) = 4 * 50
  /\ should_compact 50 (replicate 4 empty_user_message) = false.
Proof.
  assert (H : 5 * count_conversation_tokens (replicate 4 empty_user_message) = 4 * 50)
    by reflexivity.
  refine (conj H _).
  exact (proj1 (proj2 (should_compact_threshold 50 _)) H).
Defined.

(** C8 as stated fails: 2560 messages of empty content are estimated at
    25600 tokens, exactly 80% of a limit of 32000, and compaction is not
    triggered. *)
Lemma should_compact_not_at_80_percent :
  let messages := replicate 2560 empty_user_message in
  count_conversation_tokens messages = 25600
  /\ 100 * count_conversation_tokens messages = 80 * 32000
  /\ should_compact 32000 messages = false.
Proof. vm_compute. repeat split; reflexivity. Qed.

(** ** Interrupting a streaming response *)

Section StreamingProperties.
Context {attrs : Type} (setraw : attrs -> attrs).

(** The [finally] clause: whatever the stream does, and also when the
    iterator raises, the terminal has its saved attributes afterwards. *)
Lemma stream_response_restores_terminal (st : chat_state) response :
  terminal (stream_response setraw st response).1 = terminal st.
Proof.
  unfold stream_response.
  destruct (raised _); [done|]. by case_bool_decide.
Qed.

Lemma consume_stream_esc pre c flag post full :
  Forall (fun item => exists c', item = Chunk c' None false
                      \/ exists k, item = Chunk c' (Some k) false /\ k <> ESC) pre ->
  consume_stream (pre ++ Chunk c (Some ESC) flag :: post) full
  = StreamEnd (full ++ concat ((fun item => match item with
                                            | Chunk c' _ _ => chunk_text c'
                                            | StreamRaises _ => []
                                            end) <$> pre))
              true post None.
Proof.
  intros Hpre. revert full.
  induction Hpre as [|item pre Hitem _ IH]; intros full; simpl.
  - by rewrite app_nil_r.
  - destruct Hitem as [c' [-> | [k [-> Hk]]]]; simpl.
    + by rewrite IH, app_assoc.
    + rewrite (bool_decide_eq_false_2 (Some k = Some ESC)) by congruence.
      by rewrite IH, app_assoc.
Qed.

(** The controller stops at the chunk at which ESC is read: the chunks
    after it stay in the iterator, and the assistant message is appended
    whenever some text arrived before, whether or not the user
    interrupted. *)
Lemma stream_response_esc (st : chat_state) pre c flag post :
  Forall (fun item => exists c', item = Chunk c' None false
                      \/ exists k, item = Chunk c' (Some k) false /\ k <> ESC) pre ->
  let text := concat ((fun item => match item with
                                   | Chunk c' _ _ => chunk_text c'
                                   | StreamRaises _ => []
                                   end) <$> pre) in
  let out := stream_response setraw st (pre ++ Chunk c (Some ESC) flag :: post) in
  interrupted out.2 = true
  /\ unconsumed out.2 = post
  /\ terminal out.1 = terminal st
  /\ messages out.1
     = if bool_decide (text = []) then messages st
       else messages st ++ [Message (Some (py "assistant")) (Some (CStr text))].
Proof.
  intros Hpre text out. subst out. unfold stream_response.
  rewrite (consume_stream_esc _ _ _ _ _ Hpre). simpl. fold text.
  clearbody text.
  case_bool_decide; simpl;
    rewrite ?bool_decide_eq_true_2, ?bool_decide_eq_false_2 by done;
    repeat split; reflexivity.
Qed.

End StreamingProperties.

(** C1 fails on the code: ESC pressed while the second chunk arrives stops
    the loop (the third chunk is never taken) and the terminal attributes
    are restored, but the text of the first chunk is appended to the
    conversation as an assistant message. *)
Theorem streaming_esc_appends_partial_message :
  let out := stream_response clear_flags greeting esc_at_second_chunk in
  interrupted out.2 = true
  /\ unconsumed out.2 = [Chunk (StrChunk (py "!")) None false]
  /\ terminal out.1 = cooked
  /\ messages out.1
     = [Message (Some (py "user")) (Some (CStr (py "hi")));
        Message (Some (py "assistant")) (Some (CStr (py "Hel")))].
Proof. vm_compute. repeat split; reflexivity. Qed.

(** ** The live task map *)

Lemma filter_ext_in {A} (P Q : A -> Prop) `{!forall x, Decision (P x)}
    `{!forall x, Decision (Q x)} (l : list A) :
  (forall x, x ∈ l -> P x <-> Q x) -> filter P l = filter Q l.
Proof.
  induction l as [|x l IH]; intros Hext; [done|].
  rewrite !filter_cons.
  destruct (decide (P x)) as [HP|HP], (decide (Q x)) as [HQ|HQ].
  - f_equal. apply IH. intros y Hy. apply Hext. by right.
  - destruct HQ. apply Hext; [by left | done].
  - destruct HP. apply Hext; [by left | done].
  - apply IH. intros y Hy. apply Hext. by right.
Qed.

Lemma filter_all {A} (P : A -> Prop) `{!forall x, Decision (P x)} (l : list A) :
  (forall x, x ∈ l -> P x) -> filter P l = l.
Proof.
  induction l as [|x l IH]; intros Hall; [done|].
  rewrite filter_cons_True by (apply Hall; by left).
  f_equal. apply IH. intros y Hy. apply Hall. by right.
Qed.

(** Deleting keys one after the other leaves the entries whose key is none
    of them. *)
Lemma foldl_dict_del {V} (ks : list pystr) (d : list (pystr * V)) :
  foldl (fun d tid => dict_del tid d) d ks = filter (fun p => p.1 ∉ ks) d.
Proof.
  revert d. induction ks as [|k ks IH]; intros d; simpl.
  - symmetry. apply filter_all. intros p _. apply not_elem_of_nil.
  - rewrite IH. unfold dict_del. rewrite list_filter_filter.
    apply filter_ext_in. intros p _. rewrite not_elem_of_cons. tauto.
Qed.

(** In a dict, deleting the keys of the entries that satisfy [P] leaves
    exactly the entries that do not. *)
Lemma dict_del_selected {V} (P : pystr * V -> Prop) `{!forall p, Decision (P p)}
    (d : list (pystr * V)) :
  NoDup (fst <$> d) ->
  foldl (fun d tid => dict_del tid d) d (fst <$> filter P d)
  = filter (fun p => ~ P p) d.
Proof.
  intros Hnd. rewrite foldl_dict_del. apply filter_ext_in. intros p Hp.
  assert (Hkey : p.1 ∈ fst <$> filter P d <-> P p).
  { rewrite list_elem_of_fmap. split.
    - intros (q & Hpq & Hq). apply list_elem_of_filter in Hq as [HPq Hq].
      assert (p = q) as ->; [|done].
      apply list_elem_of_lookup in Hp as [i Hi].
      apply list_elem_of_lookup in Hq as [j Hj].
      assert (i = j) as ->; [|congruence].
      apply (NoDup_lookup _ _ _ p.1 Hnd); rewrite list_lookup_fmap.
      + by rewrite Hi.
      + rewrite Hj. simpl. by rewrite Hpq.
    - intros HP. exists p. split; [done|]. by apply list_elem_of_filter. }
  by rewrite Hkey.
Qed.

Lemma filter_completed_complement (d : tasks) :
  filter (fun p => ~ completed p.2 = true) d
  = filter (fun p => completed p.2 = false) d.
Proof. apply filter_ext_in. intros p _. by destruct (completed p.2). Qed.

(** With [clear_after_retrieval] true or absent, [task_results] of the
    executor leaves in the manager's map exactly the records whose
    [completed] flag is false, in their order and each identical to what
    it was: the completed records are removed and nothing else changes. *)
Lemma executor_task_results_clears_completed (args : arguments) (live : tasks) :
  NoDup (fst <$> live) ->
  default true (arg_clear_after_retrieval args) = true ->
  (ExecutorTasks.task_results args (Some live)).1
  = Some (filter (fun p => completed p.2 = false) live).
Proof.
  intros Hnd Hclear.
  unfold ExecutorTasks.task_results. rewrite Hclear.
  assert (Hsame :
    filter (fun p => completed p.2 = true)
      (filter (fun p => completed p.2 || default false (arg_include_running args) = true) live)
    = filter (fun p => completed p.2 = true) live).
  { rewrite list_filter_filter. apply filter_ext_in. intros p _.
    destruct (completed p.2); simpl; split;
      try (by intros [? _]); try (by intros ?); intros HP; by split. }
  rewrite Hsame.
  case_bool_decide; simpl; f_equal;
    (rewrite dict_del_selected by done; apply filter_completed_complement).
Qed.

(** The tool of agent.py changes nothing, whatever it is called with. *)
Lemma task_results_keeps_agent (json_dump_todos : list todo -> pystr)
    (env : environment) (args : arguments) (a : agent) :
  (_execute_builtin_tool json_dump_todos env (py "task_results") args a).1 = a.
Proof. reflexivity. Qed.

(** C10, where the code fails: the [task_results] tool of agent.py,
    called for a finished task with [clear_after_retrieval] true, returns
    the task's result and removes nothing: the finished record is still in
    the manager's map, and in [running_tasks], after the call.  The method
    the tool runs is the second [_task_results] of the class, which never
    reads [clear_after_retrieval]; the executor's [task_results], given
    the same map, removes the finished record. *)
Theorem task_results_clears_nothing :
  let call :=
    _execute_builtin_tool (fun _ => []) sample_environment (py "task_results")
                          (results_args (py "task_1") true) managing_agent in
  let record := finished (py "read docs") (py "batch_1") 0 25 (py "docs are fine") in
  arg_clear_after_retrieval (results_args (py "task_1") true) = Some true
  /\ completed record = true
  /\ subagent_manager managing_agent = Some (Manager finished_and_pending 1)
  /\ dict_get (py "task_1") finished_and_pending = Some record
  /\ call.2 = Val (py "Task task_1 result:" ++ [LF] ++ py "docs are fine")
  /\ subagent_manager call.1 = Some (Manager finished_and_pending 1)
  /\ running_tasks (tasks_state call.1) = finished_and_pending
  /\ (ExecutorTasks.task_results (results_args (py "task_1") true)
                                 (Some finished_and_pending)).1
     = Some [(py "task_2", pending (py "run tests") (py "batch_1") 10)].
Proof. vm_compute. repeat split; reflexivity. Qed.

(** ** Batch completion *)

Lemma str_le_total a b : str_le a b = true \/ str_le b a = true.
Proof.
  revert b. induction a as [|x a IH]; intros [|y b]; simpl; auto.
  destruct (N.ltb_spec x y), (N.ltb_spec y x); auto; lia.
Qed.

Lemma str_le_trans a b c :
  str_le a b = true -> str_le b c = true -> str_le a c = true.
Proof.
  revert b c. induction a as [|x a IH]; intros [|y b] [|z c]; simpl; try done.
  destruct (N.ltb_spec x y), (N.ltb_spec y x), (N.ltb_spec y z), (N.ltb_spec z y),
    (N.ltb_spec x z), (N.ltb_spec z x); try done; try lia.
  apply IH.
Qed.

#[global] Instance key_le_total {V} : Total (@key_le V).
Proof. intros p q. apply str_le_total. Qed.

#[global] Instance key_le_trans {V} : Transitive (@key_le V).
Proof. intros p q r. apply str_le_trans. Qed.

Lemma sorted_items_spec {V} (d : list (pystr * V)) :
  sorted_items d ≡ₚ d /\ StronglySorted key_le (sorted_items d).
Proof.
  split; [apply merge_sort_Permutation | apply StronglySorted_merge_sort; apply _].
Qed.

(** [dict_append] on a key the dict has, and on one it has not. *)
Lemma dict_append_keys {V} k (v : V) d :
  fst <$> dict_append k v d
  = if bool_decide (k ∈ fst <$> d) then fst <$> d else (fst <$> d) ++ [k].
Proof.
  induction d as [|[k' vs] d IH]; [done|]. csimpl.
  destruct (decide (k' = k)) as [->|Hne].
  - rewrite (bool_decide_eq_true_2 (k = k)) by done.
    by rewrite bool_decide_eq_true_2 by apply list_elem_of_here.
  - rewrite (bool_decide_eq_false_2 (k' = k)) by done. csimpl. rewrite IH.
    destruct (decide (k ∈ fst <$> d)) as [Hin|Hin].
    + rewrite (bool_decide_eq_true_2 _ Hin).
      by rewrite bool_decide_eq_true_2 by (by apply list_elem_of_further).
    + rewrite (bool_decide_eq_false_2 _ Hin).
      rewrite bool_decide_eq_false_2; [done|].
      apply not_elem_of_cons. naive_solver.
Qed.

Lemma dict_append_NoDup {V} k (v : V) d :
  NoDup (fst <$> d) -> NoDup (fst <$> dict_append k v d).
Proof.
  intros Hnd. rewrite dict_append_keys. case_bool_decide as Hin; [done|].
  apply NoDup_app. split; [done|]. split; [|apply NoDup_singleton].
  intros x Hx ->%list_elem_of_singleton. done.
Qed.

Lemma dict_get_append {V} k (v : V) d k' :
  dict_get k' (dict_append k v d)
  = if bool_decide (k' = k) then Some (default [] (dict_get k d) ++ [v])
    else dict_get k' d.
Proof.
  induction d as [|[k0 vs] d IH]; simpl.
  - repeat case_bool_decide; naive_solver.
  - repeat (case_bool_decide; simpl; simplify_eq); try done; rewrite IH;
      repeat (case_bool_decide; simpl; simplify_eq); done.
Qed.

Lemma dict_get_None {V} k (d : list (pystr * V)) :
  dict_get k d = None <-> k ∉ fst <$> d.
Proof.
  induction d as [|[k0 v] d IH]; csimpl.
  - split; [intros _; apply not_elem_of_nil | done].
  - rewrite not_elem_of_cons. case_bool_decide as Hk.
    + split; [done | by intros [? _]].
    + rewrite IH. split; [by intros ? | by intros [_ ?]].
Qed.

Lemma dict_get_split {V} k (v : V) d :
  dict_get k d = Some v ->
  exists d1 d2, d = d1 ++ (k, v) :: d2 /\ k ∉ fst <$> d1.
Proof.
  induction d as [|[k0 v0] d IH]; simpl; [done|].
  case_bool_decide as Hk.
  - intros [= ->]. subst. exists [], d. split; [done | apply not_elem_of_nil].
  - intros (d1 & d2 & -> & Hd1)%IH. exists ((k0, v0) :: d1), d2.
    split; [done|]. simpl. rewrite not_elem_of_cons. done.
Qed.

(** The groups of [_check_all_tasks_completed]: one per batch id, holding
    the tasks of that batch in their order. *)
Lemma group_by_batch_get (live : tasks) k :
  dict_get k (group_by_batch live)
  = match filter (fun p => batch_id p.2 = k) live with
    | [] => None
    | es => Some es
    end.
Proof.
  unfold group_by_batch.
  induction live as [|p live IH] using rev_ind; [done|].
  rewrite foldl_app, filter_app. simpl. rewrite dict_get_append.
  rewrite filter_cons, filter_nil.
  case_bool_decide as Hk.
  - subst k. rewrite IH at 1.
    destruct (decide (batch_id p.2 = batch_id p.2)) as [_|]; [|done].
    destruct (filter _ live) as [|e0 es]; simpl; done.
  - rewrite IH. destruct (decide (batch_id p.2 = k)) as [|_]; [congruence|].
    by rewrite app_nil_r.
Qed.

Lemma group_by_batch_NoDup (live : tasks) : NoDup (fst <$> group_by_batch live).
Proof.
  unfold group_by_batch.
  induction live as [|p live IH] using rev_ind; [constructor|].
  rewrite foldl_app. simpl. by apply dict_append_NoDup.
Qed.

Lemma check_batch_other now st b k es :
  current_batch_id st = Some b -> k <> b -> check_batch now st (k, es) = (st, None).
Proof.
  intros Hcur Hk. unfold check_batch. rewrite Hcur.
  rewrite (bool_decide_eq_false_2 (Some k = Some b)) by congruence.
  by rewrite andb_false_r.
Qed.

Lemma check_batches_other now st b (groups : list (pystr * tasks)) :
  current_batch_id st = Some b -> b ∉ fst <$> groups ->
  check_batches now st groups = (st, None).
Proof.
  induction groups as [|[k es] groups IH]; intros Hcur Hb; [done|].
  rewrite fmap_cons in Hb. apply not_elem_of_cons in Hb as [Hk Hb].
  cbn [check_batches]. rewrite (check_batch_other _ _ b) by done. by apply IH.
Qed.

Lemma check_batches_app now st (g1 g2 : list (pystr * tasks)) :
  check_batches now st (g1 ++ g2)
  = match check_batches now st g1 with
    | (st', None) => check_batches now st' g2
    | (st', Some e) => (st', Some e)
    end.
Proof.
  revert st. induction g1 as [|g g1 IH]; intros st; [done|].
  cbn [app check_batches]. destruct (check_batch now st g) as [st' [e|]]; [done|].
  apply IH.
Qed.

(** Where there is a finished task to report, the summary is not built:
    the call of [list] raises. *)
Lemma consolidated_summary_raises now (live : tasks) b p :
  p ∈ live -> batch_id p.2 = b -> completed p.2 = true ->
  _generate_consolidated_summary now live (Some b) = Raise slice_error.
Proof.
  intros Hin Hb Hdone. unfold _generate_consolidated_summary.
  rewrite (bool_decide_eq_false_2 (live = []))
    by (intros ->; by apply elem_of_nil in Hin).
  destruct b as [|c b]; cbn [default from_option id].
  - rewrite bool_decide_eq_false_2; [done|]. intros Hnone.
    assert (Hp : p ∈ filter (fun p => completed p.2 = true) live)
      by (by apply list_elem_of_filter).
    rewrite Hnone in Hp. by apply elem_of_nil in Hp.
  - rewrite bool_decide_eq_false_2; [done|]. intros Hnone.
    assert (Hp : p ∈ filter (fun p => batch_id p.2 = c :: b /\ completed p.2 = true)
                            live)
      by (by apply list_elem_of_filter).
    rewrite Hnone in Hp. by apply elem_of_nil in Hp.
Qed.

(** The check of a finished current batch of two or more: it announces
    the batch, asks for the summary, and ends there with the exception;
    no record is removed. *)
Lemma check_raises_on_finished_batch now (st : supervisor) b :
  current_batch_id st = Some b ->
  let batch := filter (fun p => batch_id p.2 = b) (running_tasks st) in
  (2 <= length batch)%nat ->
  Forall (fun p => completed p.2 = true) batch ->
  _check_all_tasks_completed now st
  = (Supervisor (running_tasks st) (Some b)
                (printed st ++ batch_announcement b (len batch)),
     Some slice_error).
Proof.
  intros Hcur batch Hlen Hall.
  assert (Hbatch : batch <> []) by (intros Heq; rewrite Heq in Hlen; simpl in Hlen; lia).
  assert (Hlive : running_tasks st <> []).
  { intros Heq. apply Hbatch. subst batch. by rewrite Heq. }
  assert (Hget : dict_get b (group_by_batch (running_tasks st)) = Some batch).
  { rewrite group_by_batch_get. fold batch. by destruct batch. }
  destruct (dict_get_split _ _ _ Hget) as (g1 & g2 & Hg & Hg1).
  unfold _check_all_tasks_completed.
  rewrite (bool_decide_eq_false_2 (running_tasks st = [])) by done.
  rewrite Hg, check_batches_app, (check_batches_other _ _ b g1) by done.
  cbn [check_batches]. unfold check_batch.
  rewrite (filter_all _ batch) by (by apply Forall_forall).
  rewrite Hcur, !bool_decide_eq_true_2 by (done || lia). cbn [andb].
  destruct batch as [|p batch'] eqn:E; [done|].
  assert (Hp : p ∈ filter (fun p => batch_id p.2 = b) (running_tasks st))
    by (fold batch; rewrite E; by left).
  apply list_elem_of_filter in Hp as [Hpb Hp].
  rewrite (consolidated_summary_raises now _ b p Hp Hpb)
    by (by apply Forall_cons_1 in Hall as [? _]).
  done.
Qed.


(** ** Reading the control socket line by line *)

Lemma split_char_nil c : split [c] [] = [[]].
Proof. by simp split. Qed.

Lemma split_char_hit c s : split [c] (c :: s) = [] :: split [c] s.
Proof.
  rewrite split_hit; [done|]. simpl. by rewrite bool_decide_eq_true_2.
Qed.

Lemma split_char_miss c x s :
  x <> c ->
  split [c] (x :: s) = match split [c] s with
                       | [] => [[x]]
                       | seg :: segs => (x :: seg) :: segs
                       end.
Proof.
  intros Hx. rewrite split_miss; [done|]. simpl.
  rewrite bool_decide_eq_false_2; [done | congruence].
Qed.

(** Splitting a text that arrives in two pieces: the complete lines of
    the first piece, then the lines of what the first piece left
    unfinished followed by the second piece. *)
Lemma split_char_app c s t :
  split [c] (s ++ t)
  = removelast (split [c] s) ++ split [c] (List.last (split [c] s) [] ++ t).
Proof.
  induction s as [|x s IH]; [by rewrite split_char_nil|].
  pose proof (split_nonempty [c] s) as Hne.
  destruct (decide (x = c)) as [->|Hx].
  - rewrite <- app_comm_cons, !split_char_hit, IH.
    destruct (split [c] s) as [|seg segs]; [done|]. done.
  - rewrite <- app_comm_cons, !split_char_miss, IH by done.
    destruct (split [c] s) as [|seg segs]; [done|].
    destruct segs as [|seg' segs].
    + simpl. rewrite split_char_miss by done.
      pose proof (split_nonempty [c] (seg ++ t)).
      by destruct (split [c] (seg ++ t)).
    + done.
Qed.

Lemma list_last_app {A} (l1 l2 : list A) d :
  l2 <> [] -> List.last (l1 ++ l2) d = List.last l2 d.
Proof.
  intros Hne. induction l1 as [|x l1 IH]; [done|].
  simpl. rewrite IH. destruct (l1 ++ l2) eqn:Happ; [|done].
  by apply app_eq_nil in Happ as [_ ?].
Qed.

Lemma complete_lines_app s t :
  complete_lines (s ++ t)
  = complete_lines s ++ complete_lines (incomplete_line s ++ t).
Proof.
  unfold complete_lines, incomplete_line. rewrite split_char_app.
  apply removelast_app, split_nonempty.
Qed.

Lemma incomplete_line_app s t :
  incomplete_line (s ++ t) = incomplete_line (incomplete_line s ++ t).
Proof.
  unfold incomplete_line. rewrite split_char_app.
  apply list_last_app, split_nonempty.
Qed.

Lemma split_char_no_sep c s : c ∉ s -> split [c] s = [s].
Proof.
  induction s as [|x s IH]; intros Hc; [by rewrite split_char_nil|].
  apply not_elem_of_cons in Hc as [Hx Hc].
  rewrite split_char_miss, IH by done. done.
Qed.

Lemma incomplete_line_no_LF s : LF ∉ incomplete_line s.
Proof.
  unfold incomplete_line.
  induction s as [|x s IH]; [rewrite split_char_nil; apply not_elem_of_nil|].
  pose proof (split_nonempty [LF] s) as Hne.
  destruct (decide (x = LF)) as [->|Hx].
  - rewrite split_char_hit. by destruct (split [LF] s).
  - rewrite split_char_miss by done.
    destruct (split [LF] s) as [|seg [|seg' segs]]; [done| |done].
    simpl in *. apply not_elem_of_cons. done.
Qed.

Lemma incomplete_line_id s : LF ∉ s -> incomplete_line s = s.
Proof. intros H. unfold incomplete_line. by rewrite split_char_no_sep. Qed.

(** ** Forwarding a tool call to the parent *)

Section DispatcherProperties.
Context (json_dumps : tool_request -> pystr)
        (json_dump_todos : list todo -> pystr)
        (json_loads : pystr -> parsed).

Local Abbreviation line_outcome_of := (read_line json_loads).
Local Abbreviation lines_outcome_of := (read_lines json_loads).
Local Abbreviation awaited := (await_response json_loads).

Lemma read_lines_app request_id l1 l2 :
  lines_outcome_of request_id (l1 ++ l2)
  = match lines_outcome_of request_id l1 with
    | Skip => lines_outcome_of request_id l2
    | out => out
    end.
Proof.
  induction l1 as [|line l1 IH]; simpl; [done|].
  by destruct (line_outcome_of request_id line).
Qed.


(** The answer a line carries for a request. *)
Lemma read_line_response request_id line response :
  strip line <> [] ->
  json_loads (strip line) = Object response ->
  dict_get (py "type") response = Some (JStr (py "tool_execution_response")) ->
  dict_get (py "request_id") response = Some (JStr request_id) ->
  line_outcome_of request_id line
  = Return (if jval_truth (default (JBool false) (dict_get (py "success") response))
            then jval_text (default (JStr (py "Tool executed successfully"))
                                    (dict_get (py "result") response))
            else py "Error from parent: "
                 ++ jval_text (default (JStr (py "Unknown error"))
                                       (dict_get (py "error") response))).
Proof.
  intros Hline Hjson Htype Hid. unfold read_line.
  rewrite (bool_decide_eq_false_2 (strip line = [])) by done.
  rewrite Hjson, Htype, Hid.
  rewrite !bool_decide_eq_true_2 by done. simpl.
  by destruct (jval_truth _).
Qed.

(** Pieces that come before the timeout and whose complete lines carry no
    answer only fill the buffer, and their delays add up. *)
Lemma await_response_skips request_id tool_name t pieces buffer rest :
  Forall (fun piece => piece.1 < t /\ piece.2 <> []) pieces -> LF ∉ buffer ->
  lines_outcome_of request_id (complete_lines (buffer ++ concat (snd <$> pieces)))
  = Skip ->
  awaited request_id tool_name buffer t (arrivals pieces ++ rest)
  = let '(result, remaining, waited) :=
      awaited request_id tool_name
              (incomplete_line (buffer ++ concat (snd <$> pieces))) t rest in
    (result, remaining, total (fst <$> pieces) + waited).
Proof.
  intros Hne. revert buffer.
  induction Hne as [|[after d] pieces [Hafter Hd] _ IH]; intros buffer Hbuf Hskip.
  - cbn. rewrite app_nil_r, incomplete_line_id by done.
    by destruct (awaited _ _ _ _ _) as [[result remaining] waited].
  - cbn [arrivals fmap list_fmap app fst snd concat total foldr] in *.
    cbn [await_response].
    rewrite (proj2 (Z.leb_gt t after)) by done.
    rewrite (bool_decide_eq_false_2 (d = [])) by done.
    rewrite app_assoc, complete_lines_app, read_lines_app in Hskip.
    destruct (lines_outcome_of request_id (complete_lines (buffer ++ d))); try done.
    fold (arrivals pieces).
    rewrite IH by (done || apply incomplete_line_no_LF).
    rewrite app_assoc, <- incomplete_line_app.
    destruct (awaited _ _ _ _ rest) as [[result remaining] waited].
    f_equal. unfold total. lia.
Qed.

(** The answer is returned at the piece that completes its line, after
    the delays of the pieces read. *)
Lemma await_response_returns request_id tool_name t earlier final rest result :
  Forall (fun piece => piece.1 < t /\ piece.2 <> []) (earlier ++ [final]) ->
  lines_outcome_of request_id (complete_lines (concat (snd <$> earlier))) = Skip ->
  lines_outcome_of request_id
    (complete_lines (concat (snd <$> earlier) ++ final.2)) = Return result ->
  awaited request_id tool_name [] t (arrivals (earlier ++ [final]) ++ rest)
  = (result, rest, total (fst <$> earlier ++ [final])).
Proof.
  intros [Hearlier Hfinal]%Forall_app Hskip Hret.
  rewrite Forall_singleton in Hfinal. destruct Hfinal as [Hafter Hfinal].
  unfold arrivals. rewrite fmap_app, <- app_assoc. fold (arrivals earlier).
  rewrite (await_response_skips _ _ _ earlier [] _ Hearlier (not_elem_of_nil _) Hskip).
  destruct final as [after d]. cbn [fmap list_fmap app fst snd] in *.
  cbn [await_response].
  rewrite (proj2 (Z.leb_gt t after)) by done.
  rewrite (bool_decide_eq_false_2 (d = []) Hfinal).
  rewrite complete_lines_app, read_lines_app, Hskip in Hret.
  rewrite Hret. f_equal. rewrite fmap_app. unfold total.
  rewrite foldr_app. cbn [fmap list_fmap foldr fst].
  generalize (fst <$> earlier). intros l. induction l as [|x l IHl]; cbn; lia.
Qed.



End DispatcherProperties.

Section ForwardingGate.
Context (json_dumps : tool_request -> pystr)
        (json_dump_todos : list todo -> pystr)
        (json_loads : pystr -> parsed).

Local Abbreviation dispatch :=
  (_execute_mcp_tool json_dumps json_dump_todos json_loads).



End ForwardingGate.



(** A tool call forwarded while the reply arrives in two pieces, a second
    call, which draws the next id, and a call of [task_results], which
    stays in the subagent. *)
Example forwarding_ex :
  let forwarded :=
    _execute_mcp_tool sample_json_dumps (fun _ => []) sample_json_loads
      sample_environment sample_tools sample_link
      (py "builtin:read_file") (file_args (py "notes.txt")) sample_agent in
  let again :=
    _execute_mcp_tool sample_json_dumps (fun _ => []) sample_json_loads
      sample_environment sample_tools forwarded.1.2
      (py "builtin:read_file") (file_args (py "notes.txt")) forwarded.1.1 in
  let kept :=
    _execute_mcp_tool sample_json_dumps (fun _ => []) sample_json_loads
      sample_environment sample_tools sample_link
      (py "builtin:task_results") no_args sample_agent in
  forwarded.2 = Returned (py "file contents")
  /\ forwarded.1.2
     = SubagentLink true
         (Some (Socket [py "{request id-0}" ++ [LF]] [] (Some 300) None 2))
  /\ again.2 = Returned (py "Error: No response received from parent for tool read_file")
  /\ again.1.2
     = SubagentLink true
         (Some (Socket [py "{request id-0}" ++ [LF]; py "{request id-1}" ++ [LF]]
                       [] (Some 300) None 302))
  /\ kept.2 = Returned (py "Error: Subagent management not available")
  /\ kept.1.2 = sample_link.
Proof. vm_compute. repeat split; reflexivity. Qed.
(** ** Errors of the tool layer *)

(** Closes a goal [startswith (py "...") (py "..." ++ _) = true]. *)
Ltac error_prefix :=
  first [ apply startswith_app; vm_compute; reflexivity
        | vm_compute; reflexivity ].

Ltac reported := split; [error_prefix | first [done | intros _; error_prefix]].

Section ToolErrors.
Context (json_dumps : tool_request -> pystr)
        (json_dump_todos : list todo -> pystr)
        (json_loads : pystr -> parsed).

Local Abbreviation dispatch :=
  (_execute_mcp_tool json_dumps json_dump_todos json_loads).
Local Abbreviation run_locally := (execute_locally json_dump_todos).
Local Abbreviation run_builtin := (_execute_builtin_tool json_dump_todos).
Local Abbreviation failure_of := (tool_failure json_dump_todos).

Lemma bash_execute_reports env a args f :
  failure_of env a (py "bash_execute") args = Some f ->
  reports f (run_builtin env (py "bash_execute") args a).2.
Proof.
  change (failure_of env a (py "bash_execute") args)
    with (if missing (arg_command args) then Some MissingArgument
          else raised_by (run_shell env (default [] (arg_command args))
                                    (default 120 (arg_timeout args)))).
  change (run_builtin env (py "bash_execute") args a).2
    with (Val (_bash_execute args (run_shell env))).
  unfold missing, _bash_execute, reports.
  case_bool_decide as Hcmd; [intros _; reported|].
  destruct (run_shell env _ _) as [r|[[] msg]]; simpl; intros [= <-]; reported.
Qed.

Lemma read_file_reports env a args f :
  failure_of env a (py "read_file") args = Some f ->
  reports f (run_builtin env (py "read_file") args a).2.
Proof.
  change (failure_of env a (py "read_file") args)
    with (if missing (arg_file_path args) then Some MissingArgument
          else raised_by (read_text (files a) (default [] (arg_file_path args)))).
  change (run_builtin env (py "read_file") args a).2
    with (Val (_read_file args (files a))).
  unfold missing, _read_file, reports.
  case_bool_decide as Hpath; [intros _; reported|].
  destruct (read_text _ _) as [r|[[] msg]]; simpl; intros [= <-]; reported.
Qed.

Lemma write_file_reports env a args f :
  failure_of env a (py "write_file") args = Some f ->
  reports f (run_builtin env (py "write_file") args a).2.
Proof.
  change (failure_of env a (py "write_file") args)
    with (if missing (arg_file_path args) then Some MissingArgument
          else raised_by (write_text (files a) (default [] (arg_file_path args))
                                     (default [] (arg_content args))).2).
  change (run_builtin env (py "write_file") args a).2
    with (let '(fs, out) := _write_file args (files a) in
          (with_files fs a, @Val pystr out)).2.
  unfold missing, _write_file, reports.
  case_bool_decide as Hpath; [intros _; reported|].
  destruct (write_text _ _ _) as [fs' [r|e]]; simpl; intros [= <-]; reported.
Qed.

Lemma list_directory_reports env a args f :
  failure_of env a (py "list_directory") args = Some f ->
  reports f (run_builtin env (py "list_directory") args a).2.
Proof.
  change (failure_of env a (py "list_directory") args)
    with (match look_at env (default (py ".") (arg_directory_path args)) with
          | Val (Directory _) => None
          | Val _ => Some OperationFailed
          | Raise e => Some (OperationRaised e)
          end).
  change (run_builtin env (py "list_directory") args a).2
    with (Val (_list_directory args (look_at env))).
  unfold _list_directory, reports.
  destruct (look_at env _) as [[| |entries]|e]; simpl; intros [= <-]; reported.
Qed.

Lemma get_current_directory_reports env a args f :
  failure_of env a (py "get_current_directory") args = Some f ->
  reports f (run_builtin env (py "get_current_directory") args a).2.
Proof.
  change (failure_of env a (py "get_current_directory") args)
    with (raised_by (getcwd env)).
  change (run_builtin env (py "get_current_directory") args a).2
    with (Val (_get_current_directory (getcwd env))).
  unfold _get_current_directory, reports.
  destruct (getcwd env) as [cwd|e]; simpl; intros [= <-]; reported.
Qed.

Lemma todo_read_reports env a args f :
  failure_of env a (py "todo_read") args = Some f ->
  reports f (run_builtin env (py "todo_read") args a).2.
Proof.
  change (failure_of env a (py "todo_read") args)
    with (match files a !! todo_file with
          | None => None
          | Some _ => raised_by (read_text (files a) todo_file)
          end).
  change (run_builtin env (py "todo_read") args a).2
    with (Val (_todo_read (files a))).
  unfold _todo_read, reports.
  destruct (files a !! todo_file); [|done].
  destruct (read_text _ _) as [text|e]; simpl; intros [= <-]; reported.
Qed.

Lemma todo_write_reports env a args f :
  failure_of env a (py "todo_write") args = Some f ->
  reports f (run_builtin env (py "todo_write") args a).2.
Proof.
  change (failure_of env a (py "todo_write") args)
    with (raised_by (write_text (files a) todo_file
                       (json_dump_todos (default [] (arg_todos args)))).2).
  change (run_builtin env (py "todo_write") args a).2
    with (let '(fs, out) := _todo_write json_dump_todos args (files a) in
          (with_files fs a, @Val pystr out)).2.
  unfold _todo_write, reports.
  destruct (write_text _ _ _) as [fs' [r|e]]; simpl; intros [= <-]; reported.
Qed.

Lemma replace_in_file_reports env a args f :
  failure_of env a (py "replace_in_file") args = Some f ->
  reports f (run_builtin env (py "replace_in_file") args a).2.
Proof.
  change (failure_of env a (py "replace_in_file") args)
    with (if missing (arg_file_path args) || missing (arg_old_text args)
          then Some MissingArgument
          else
            match read_text (files a) (default [] (arg_file_path args)) with
            | Raise e => Some (OperationRaised e)
            | Val content =>
                if contains (default [] (arg_old_text args)) content then None
                else Some OperationFailed
            end).
  change (run_builtin env (py "replace_in_file") args a).2
    with (let '(fs, out) := _replace_in_file args (files a) in
          (with_files fs a, @Val pystr out)).2.
  unfold missing, _replace_in_file, reports.
  case_bool_decide as Hpath; [intros _; reported|].
  case_bool_decide as Hold; [intros _; reported|]. simpl.
  destruct (read_text _ _) as [content|[[] msg]]; simpl;
    try (intros [= <-]; reported).
  destruct (contains _ content); simpl; [done|]. intros [= <-]. reported.
Qed.

Lemma webfetch_reports env a args f :
  failure_of env a (py "webfetch") args = Some f ->
  reports f (run_builtin env (py "webfetch") args a).2.
Proof.
  change (failure_of env a (py "webfetch") args)
    with (if missing (arg_url args) then Some MissingArgument
          else
            match run_curl env (default [] (arg_url args)) with
            | Raise e => Some (OperationRaised e)
            | Val result =>
                if bool_decide (returncode result = 0) then None
                else Some OperationFailed
            end).
  change (run_builtin env (py "webfetch") args a).2
    with (_webfetch args (run_curl env)).
  unfold missing, _webfetch, reports.
  case_bool_decide as Hurl; [intros _; reported|].
  destruct (run_curl env _) as [result|e]; simpl; [|by intros [= <-]].
  case_bool_decide as Hcode; simpl; [done|]. intros [= <-].
  case_bool_decide; reported.
Qed.

Lemma task_reports env a args f :
  failure_of env a (py "task") args = Some f ->
  reports f (run_builtin env (py "task") args a).2.
Proof.
  change (failure_of env a (py "task") args)
    with (match subagent_manager a with
          | None => Some OperationFailed
          | Some m =>
              if missing (arg_prompt args) then Some MissingArgument
              else
                let prompt := default [] (arg_prompt args) in
                let context := default [] (arg_context args) in
                raised_by
                  (spawn_subagent env m
                     (default (py "Investigation task") (arg_description args))
                     (if bool_decide (context = []) then prompt
                      else prompt ++ [LF; LF] ++ py "Additional context: "
                           ++ context)).2
          end).
  change (run_builtin env (py "task") args a).2
    with (let '(a', out) := _task args (spawn_subagent env) a in
          (a', @Val pystr out)).2.
  unfold missing, _task, reports.
  destruct (subagent_manager a) as [m|]; [|intros [= <-]; reported].
  case_bool_decide as Hprompt; [intros _; reported|]. cbv zeta.
  destruct (spawn_subagent env _ _ _) as [m' [task_id|e]]; simpl;
    intros [= <-]; reported.
Qed.

Lemma task_status_reports env a args f :
  failure_of env a (py "task_status") args = Some f ->
  reports f (run_builtin env (py "task_status") args a).2.
Proof.
  change (failure_of env a (py "task_status") args)
    with (match subagent_manager a with
          | None => Some OperationFailed
          | Some _ => @None failure
          end).
  change (run_builtin env (py "task_status") args a).2
    with (Val (_task_status args (clock env) (subagent_manager a))).
  unfold _task_status, reports.
  destruct (subagent_manager a) as [m|]; [done|]. intros [= <-]. reported.
Qed.

Lemma task_results_reports env a args f :
  failure_of env a (py "task_results") args = Some f ->
  reports f (run_builtin env (py "task_results") args a).2.
Proof.
  change (failure_of env a (py "task_results") args)
    with (match subagent_manager a with
          | None => Some OperationFailed
          | Some m =>
              if missing (arg_task_id args) then Some MissingArgument
              else
                match dict_get (default [] (arg_task_id args)) (subagents m) with
                | None => Some OperationFailed
                | Some _ => None
                end
          end).
  change (run_builtin env (py "task_results") args a).2
    with (Val (_task_results args (subagent_manager a))).
  unfold missing, _task_results, reports.
  destruct (subagent_manager a) as [m|]; [|intros [= <-]; reported].
  case_bool_decide as Hid; [intros _; reported|].
  destruct (dict_get _ _) as [subagent|]; [done|]. intros [= <-]. reported.
Qed.

(** Every failure of a built-in tool is reported. *)
Lemma builtin_failure_reports env a name args f :
  failure_of env a name args = Some f ->
  reports f (run_builtin env name args a).2.
Proof.
  destruct (decide (name = py "bash_execute")) as [->|?];
    [apply bash_execute_reports|].
  destruct (decide (name = py "read_file")) as [->|?];
    [apply read_file_reports|].
  destruct (decide (name = py "write_file")) as [->|?];
    [apply write_file_reports|].
  destruct (decide (name = py "list_directory")) as [->|?];
    [apply list_directory_reports|].
  destruct (decide (name = py "get_current_directory")) as [->|?];
    [apply get_current_directory_reports|].
  destruct (decide (name = py "todo_read")) as [->|?];
    [apply todo_read_reports|].
  destruct (decide (name = py "todo_write")) as [->|?];
    [apply todo_write_reports|].
  destruct (decide (name = py "replace_in_file")) as [->|?];
    [apply replace_in_file_reports|].
  destruct (decide (name = py "webfetch")) as [->|?];
    [apply webfetch_reports|].
  destruct (decide (name = py "task")) as [->|?];
    [apply task_reports|].
  destruct (decide (name = py "task_status")) as [->|?];
    [apply task_status_reports|].
  destruct (decide (name = py "task_results")) as [->|?];
    [apply task_results_reports|].
  unfold tool_failure. by rewrite !bool_decide_eq_false_2 by done.
Qed.

End ToolErrors.

Section DispatcherErrors.
Context (json_dumps : tool_request -> pystr)
        (json_dump_todos : list todo -> pystr)
        (json_loads : pystr -> parsed).

Local Abbreviation dispatch :=
  (_execute_mcp_tool json_dumps json_dump_todos json_loads).
Local Abbreviation run_locally := (execute_locally json_dump_todos).
Local Abbreviation failure_of := (tool_failure json_dump_todos).

(** For a registered tool run in this process, the dispatcher returns a
    string whatever the tool layer does: the tool's own result, or, when
    a built-in executor or the remote client raises, "Error executing
    tool <key>: <detail>".  When a built-in tool fails (an argument it
    needs is missing, its operation raises, or its operation cannot be
    done) the string the caller gets begins with "Error"; it begins with
    "Error: " when the argument is missing, and not in general
    otherwise. *)
Lemma registered_tool_errors_are_strings (env : environment)
    (available_tools : list (pystr * tool_info)) (link : subagent_link)
    (tool_key : pystr) (tool : tool_info) (arguments : arguments) (a : agent) :
  dict_get tool_key available_tools = Some tool ->
  is_subagent link = false ->
  let out := dispatch env available_tools link tool_key arguments a in
  out.1.2 = link
  /\ (out.1.1, out.2)
     = match run_locally env tool_key tool arguments a with
       | (a', Val result) => (a', Returned result)
       | (a', Raise e) =>
           (a', Returned (py "Error executing tool " ++ tool_key ++ py ": "
                          ++ exc_str e))
       end
  /\ (tool_server tool = py "builtin" ->
      forall f, failure_of env a (tool_name tool) arguments = Some f ->
                exists text,
                  out.2 = Returned text
                  /\ startswith (py "Error") text = true
                  /\ (f = MissingArgument -> startswith (py "Error: ") text = true)).
Proof.
  intros Htool Hsub out.
  assert (Hout : out = match run_locally env tool_key tool arguments a with
                       | (a', Val result) => (a', link, Returned result)
                       | (a', Raise e) =>
                           (a', link,
                            Returned (py "Error executing tool " ++ tool_key
                                      ++ py ": " ++ exc_str e))
                       end).
  { subst out. unfold _execute_mcp_tool. by rewrite Htool, Hsub. }
  split; [|split].
  - rewrite Hout. by destruct (run_locally _ _ _ _ _) as [a' [result|e]].
  - rewrite Hout. by destruct (run_locally _ _ _ _ _) as [a' [result|e]].
  - intros Hserver f Hf.
    pose proof (builtin_failure_reports json_dump_todos _ _ _ _ _ Hf) as Hrep.
    rewrite Hout. unfold execute_locally.
    rewrite (bool_decide_eq_true_2 _ Hserver).
    destruct (_execute_builtin_tool _ _ _ _ _) as [a' [result|e]];
      simpl in *; [by exists result|].
    subst f. eexists. split; [done|]. split; [error_prefix | done].
Qed.

(** For a key that is not registered the dispatcher does not return: it
    leaves by [SystemExit], whatever the tools there are. *)
Lemma unregistered_tool_never_returns (env : environment)
    (available_tools : list (pystr * tool_info)) (link : subagent_link)
    (tool_key : pystr) (arguments : arguments) (a : agent) :
  dict_get tool_key available_tools = None ->
  exists code,
    dispatch env available_tools link tool_key arguments a
    = (a, link, SystemExit (Some code))
    /\ (available_tools <> [] ->
        Forall (fun key => startswith (py "-") key = false)
               (fst <$> available_tools) ->
        code = 2).
Proof.
  intros Hnone. unfold _execute_mcp_tool. rewrite Hnone.
  eexists. split; [done|]. intros Hsome Hkeys. unfold list_of_keys.
  rewrite (bool_decide_eq_false_2 (fst <$> available_tools = []))
    by (by destruct available_tools).
  cbn [negb andb].
  assert (Hall : forallb (fun key => negb (startswith (py "-") key))
                         (fst <$> available_tools) = true).
  { induction Hkeys as [|key keys Hkey _ IH]; [done|]. cbn. by rewrite Hkey. }
  by rewrite Hall.
Qed.

End DispatcherErrors.

(** C9, where the code fails: a call of a tool that is not registered,
    in an agent with its built-in tools.  The dispatcher means to return
    "Error: Tool <key> not found. Available tools: ..." and calls [list]
    on the keys for it; that name is the command the module defines at
    its end, which takes the keys for a command line, and the call ends
    in [sys.exit(2)].  [SystemExit] is no [Exception], the dispatcher's
    handler does not catch it: the failure leaves the dispatcher as a
    control-flow exception instead of a result string. *)
Theorem unregistered_tool_exits :
  let out :=
    _execute_mcp_tool sample_json_dumps (fun _ => []) sample_json_loads
      sample_environment sample_tools no_link
      (py "builtin:no_such_tool") no_args sample_agent in
  dict_get (py "builtin:no_such_tool") sample_tools = None
  /\ fst <$> sample_tools
     = [py "builtin:read_file"; py "builtin:webfetch"; py "builtin:task_results"]
  /\ out = (sample_agent, no_link, SystemExit (Some 2))
  /\ (forall text, out.2 <> Returned text).
Proof.
  cbv zeta. split; [reflexivity|]. split; [reflexivity|].
  assert (Hout : _execute_mcp_tool sample_json_dumps (fun _ => []) sample_json_loads
                   sample_environment sample_tools no_link
                   (py "builtin:no_such_tool") no_args sample_agent
                 = (sample_agent, no_link, SystemExit (Some 2)))
    by (vm_compute; reflexivity).
  rewrite Hout. split; [reflexivity | discriminate].
Qed.

(** Reading a file that cannot be opened fails with a string that does
    not begin with "Error: ", and [_webfetch] lets the exception of its
    subprocess out (the dispatcher above it turns it into a string). *)
Lemma read_file_error_has_no_colon_prefix :
  let out :=
    _execute_mcp_tool sample_json_dumps (fun _ => []) sample_json_loads
      sample_environment sample_tools no_link
      (py "builtin:read_file") (file_args (py "locked")) sample_agent in
  let fetched :=
    _execute_mcp_tool sample_json_dumps (fun _ => []) sample_json_loads
      sample_environment sample_tools no_link
      (py "builtin:webfetch") (url_args (py "http://example.org")) sample_agent in
  tool_failure (fun _ => []) sample_environment sample_agent (py "read_file")
               (file_args (py "locked"))
  = Some (OperationRaised
            (Exc PermissionError (py "[Errno 13] Permission denied: 'locked'")))
  /\ out.2
     = Returned (py "Error reading file: [Errno 13] Permission denied: 'locked'")
  /\ startswith (py "Error: ")
                (py "Error reading file: [Errno 13] Permission denied: 'locked'")
     = false
  /\ _webfetch (url_args (py "http://example.org")) (run_curl sample_environment)
     = Raise (Exc TimeoutExpired (py "curl timed out"))
  /\ fetched.2
     = Returned (py "Error executing tool builtin:webfetch: curl timed out").
Proof. vm_compute. repeat split; reflexivity. Qed.

(** * Further properties

    Properties of the code beyond the specification's testable ones, first
    the lemmas on text they share. *)

Lemma contains_char c s : contains [c] s = true <-> c ∈ s.
Proof.
  induction s as [|x s IH].
  - split; [discriminate | by intros ?%elem_of_nil].
  - change (contains [c] (x :: s))
      with ((bool_decide (c = x) && true) || contains [c] s).
    rewrite orb_true_iff, andb_true_r, bool_decide_eq_true, IH, elem_of_cons.
    done.
Qed.

Lemma join_app sep (l1 l2 : list pystr) :
  l1 <> [] -> l2 <> [] -> join sep (l1 ++ l2) = join sep l1 ++ sep ++ join sep l2.
Proof.
  intros H1 H2. induction l1 as [|p l1 IH]; [done|].
  destruct l1 as [|q l1].
  - simpl app. by apply join_cons.
  - rewrite <- app_comm_cons, !join_cons by done. rewrite IH by done.
    by rewrite <- !app_assoc.
Qed.

Lemma split_char_prefix c p s :
  c ∉ p -> split [c] (p ++ c :: s) = p :: split [c] s.
Proof.
  induction p as [|x p IH]; intros Hp.
  - apply split_char_hit.
  - rewrite not_elem_of_cons in Hp. destruct Hp as [Hx Hp].
    rewrite <- app_comm_cons, split_char_miss by done. by rewrite IH.
Qed.

Lemma split_char_join c (parts : list pystr) :
  parts <> [] -> Forall (fun p => c ∉ p) parts -> split [c] (join [c] parts) = parts.
Proof.
  intros Hne Hfree. induction Hfree as [|p parts Hp Hfree IH]; [done|].
  destruct parts as [|q parts].
  - by apply split_char_no_sep.
  - rewrite join_cons by done. 
    change (p ++ [c] ++ join [c] (q :: parts)) with (p ++ c :: join [c] (q :: parts)).
    rewrite split_char_prefix by done. by rewrite IH.
Qed.

Lemma split_char_segments c s : Forall (fun seg => c ∉ seg) (split [c] s).
Proof.
  eapply Forall_impl; [apply (split_segments_free [c] s); done|].
  intros seg Hseg Hin. apply contains_char in Hin. congruence.
Qed.

Lemma py_inj s t : py s = py t -> s = t.
Proof.
  Transparent py. unfold py. Opaque py.
  intros H. apply (f_equal (fmap ascii_of_N)) in H.
  rewrite <- !list_fmap_compose in H.
  rewrite !(list_fmap_ext (ascii_of_N ∘ N_of_ascii) id) in H
    by (intros; apply ascii_N_embedding).
  rewrite !list_fmap_id in H.
  by rewrite <- (string_of_list_ascii_of_string s), H, string_of_list_ascii_of_string.
Qed.

Lemma to_int_proper n : Z.to_int n <> Decimal.Pos Decimal.Nil /\ Z.to_int n <> Decimal.Neg Decimal.Nil.
Proof.
  pose proof (DecimalZ.to_of (Z.to_int n)) as H. rewrite DecimalZ.of_to in H.
  split; intros E; rewrite E in H; discriminate H.
Qed.

Lemma str_int_inj a b : str_int a = str_int b -> a = b.
Proof.
  unfold str_int. intros H%py_inj.
  apply (f_equal NilZero.int_of_string) in H.
  destruct (to_int_proper a), (to_int_proper b).
  rewrite !NilZero.isi in H by done.
  apply DecimalZ.to_int_inj. congruence.
Qed.

Lemma py_cons a s : py (String a s) = N_of_ascii a :: py s.
Proof. Transparent py. reflexivity. Qed.
Opaque py.



Lemma string_of_uint_digits u :
  Forall digit_or_sign (py (NilEmpty.string_of_uint u)).
Proof.
  Transparent py.
  induction u; simpl; [constructor|..];
    (constructor; [right; vm_compute; split; discriminate | exact IHu]).
Qed.
Opaque py.

Lemma str_int_digits n : Forall digit_or_sign (str_int n).
Proof.
  unfold str_int. destruct (Z.to_int n) as [u|u]; simpl.
  - destruct u; try apply string_of_uint_digits.
    vm_compute. constructor; [right; split; discriminate | constructor].
  - rewrite py_cons. constructor; [by left|].
    destruct u; try apply string_of_uint_digits.
    vm_compute. constructor; [right; split; discriminate | constructor].
Qed.

Lemma str_int_no_LF n : LF ∉ str_int n.
Proof.
  intros Hin. pose proof (str_int_digits n) as H.
  rewrite Forall_forall in H. specialize (H _ Hin).
  unfold digit_or_sign, LF in H. lia.
Qed.

Lemma numbered_line_window lines (s n : nat) :
  (s + n <= length lines)%nat ->
  numbered_line lines <$> seqZ (Z.of_nat s) (Z.of_nat n)
  = imap (fun i line => fmt_d 6 (Z.of_nat (s + i) + 1) ++ [ARROW] ++ rstrip line)
         (take n (drop s lines)).
Proof.
  revert s. induction n as [|n IH]; intros s Hs.
  - by rewrite take_0.
  - replace (Z.of_nat (S n)) with (Z.succ (Z.of_nat n)) by lia.
    rewrite seqZ_cons by lia. rewrite Z.pred_succ.
    destruct (lookup_lt_is_Some_2 lines s) as [x Hx]; [lia|].
    rewrite (drop_S _ _ _ Hx). rewrite firstn_cons. cbn [fmap list_fmap imap].
    f_equal.
    + unfold numbered_line. rewrite Nat2Z.id, Nat.add_0_r.
      by rewrite (list_lookup_total_correct _ _ _ Hx).
    + replace (Z.succ (Z.of_nat s)) with (Z.of_nat (S s)) by lia.
      rewrite IH by lia. apply imap_ext. intros i y _. simpl.
      by replace (s + S i)%nat with (S (s + i))%nat by lia.
Qed.

Lemma read_file_window_agent (fs : filesystem) path text offset limit :
  path <> [] -> read_text fs path = Val text ->
  _read_file (read_window_args path offset limit) fs
  = numbered_window 6 (Z.to_nat (default 1 offset - 1)) limit (readlines text).
Proof.
  intros Hp Hr. unfold _read_file, read_window_args, numbered_window. cbn [arg_file_path arg_offset arg_limit default from_option id].
  rewrite bool_decide_eq_false_2 by done. rewrite Hr.
  set (lines := readlines text). set (o := default 1 offset).
  set (s := Z.to_nat (o - 1)).
  assert (Hs : Z.max 0 (o - 1) = Z.of_nat s) by (unfold s; lia).
  rewrite Hs. f_equal.
  destruct limit as [l|].
  - destruct (decide (Z.min (len lines) (Z.of_nat s + l) - Z.of_nat s <= 0)) as [Hle|Hgt].
    + rewrite seqZ_nil by lia. 
      assert (Hnil : take (Z.to_nat l) (drop s lines) = []).
      { apply length_zero_iff_nil. rewrite length_take, length_drop. unfold len in Hle. lia. }
      by rewrite Hnil.
    + set (n := Z.to_nat (Z.min (len lines) (Z.of_nat s + l) - Z.of_nat s)).
      replace (Z.min (len lines) (Z.of_nat s + l) - Z.of_nat s) with (Z.of_nat n) by (unfold n; lia).
      unfold len in *. rewrite numbered_line_window by (unfold n; lia).
      f_equal.
      assert (Hn : n = Nat.min (Z.to_nat l) (length (drop s lines))).
      { rewrite length_drop. unfold n. lia. }
      by rewrite Hn, <- take_take, firstn_all.
  - destruct (decide (len lines - Z.of_nat s <= 0)) as [Hle|Hgt].
    + rewrite seqZ_nil by lia. rewrite drop_ge; [done | unfold len in Hle; lia].
    + set (n := Z.to_nat (len lines - Z.of_nat s)).
      replace (len lines - Z.of_nat s) with (Z.of_nat n) by (unfold n; lia).
      unfold len in *. rewrite numbered_line_window by (unfold n; lia).
      f_equal. apply take_ge. rewrite length_drop. unfold n. lia.
Qed.

Lemma read_file_window_executor (fs : filesystem) path text n limit :
  path <> [] -> read_text fs path = Val text ->
  0 <= n -> (forall l, limit = Some l -> 0 <= l) ->
  ExecutorTools.read_file (read_window_args path (Some n) limit) fs
  = numbered_window 5 (Z.to_nat n) limit (readlines text).
Proof.
  intros Hp Hr Hn Hl. unfold ExecutorTools.read_file, read_window_args, numbered_window.
  cbn [arg_file_path arg_offset arg_limit default from_option id].
  rewrite bool_decide_eq_false_2 by done. rewrite Hr.
  set (lines := readlines text).
  assert (Hdrop : (if 0 <? n then slice_from n lines else lines)
                  = drop (Z.to_nat n) lines).
  { destruct (Z.ltb_spec 0 n) as [Hpos|Hzero].
    - unfold slice_from. by rewrite (proj2 (Z.ltb_ge n 0)) by lia.
    - by replace n with 0 by lia. }
  rewrite Hdrop. f_equal.
  assert (Hnum : forall shown : list pystr,
    imap (fun i line => fmt_d 5 (n + Z.of_nat i + 1) ++ [ARROW] ++ rstrip line) shown
    = imap (fun i line => fmt_d 5 (Z.of_nat (Z.to_nat n + i) + 1) ++ [ARROW] ++ rstrip line) shown).
  { intros shown. apply imap_ext. intros i x _. simpl.
    by replace (Z.of_nat (Z.to_nat n + i)) with (n + Z.of_nat i) by lia. }
  destruct limit as [l|]; [|apply Hnum].
  unfold slice_to. rewrite (proj2 (Z.ltb_ge l 0)) by (specialize (Hl l eq_refl); lia).
  apply Hnum.
Qed.

(** X1: [_read_file] with [offset] and [limit] returns the lines of the
    file from line [offset] on (counting from 1; an offset below 1 counts
    as 1), at most [limit] of them, each behind its own line number.  An
    offset past the last line and a limit of 0 or less give the empty
    string, not an error; an offset of 1 or less without limit gives the
    whole file. *)
Theorem read_file_offset_limit (fs : filesystem) path text offset limit :
  path <> [] -> read_text fs path = Val text ->
  let lines := readlines text in
  let first := default 1 offset in
  let out := _read_file (read_window_args path offset limit) fs in
  out = numbered_window 6 (Z.to_nat (first - 1)) limit lines
  /\ (len lines < first -> out = [])
  /\ (forall l, limit = Some l -> l <= 0 -> out = [])
  /\ (first <= 1 -> limit = None -> out = _read_file (file_args path) fs).
Proof.
  intros Hp Hr lines first out.
  assert (Hout : out = numbered_window 6 (Z.to_nat (first - 1)) limit lines)
    by by apply read_file_window_agent.
  split; [done|]. rewrite Hout. unfold numbered_window. repeat split.
  - intros Hpast. rewrite drop_ge by (unfold len in Hpast; lia).
    destruct limit; by rewrite ?take_nil.
  - intros l -> Hl. by replace (Z.to_nat l) with 0%nat by lia.
  - intros Hfirst ->.
    change (file_args path) with (read_window_args path None None).
    rewrite (read_file_window_agent _ _ text) by done.
    unfold numbered_window. cbn [default from_option id].
    by replace (Z.to_nat (first - 1)) with (Z.to_nat (1 - 1)) by lia.
Qed.

Lemma read_file_offset_limit_witness :
  py "f" <> []
  /\ read_text (fs1 (py "f") (py "a" ++ [LF] ++ py "b" ++ [LF] ++ py "c")) (py "f")
     = Val (py "a" ++ [LF] ++ py "b" ++ [LF] ++ py "c")
  /\ _read_file (read_window_args (py "f") (Some 2) (Some 1))
       (fs1 (py "f") (py "a" ++ [LF] ++ py "b" ++ [LF] ++ py "c"))
     = numbered_window 6 1 (Some 1)
         (readlines (py "a" ++ [LF] ++ py "b" ++ [LF] ++ py "c")).
Proof.
  assert (H1 : py "f" <> []) by (vm_compute; discriminate).
  assert (H2 : read_text (fs1 (py "f") (py "a" ++ [LF] ++ py "b" ++ [LF] ++ py "c")) (py "f")
               = Val (py "a" ++ [LF] ++ py "b" ++ [LF] ++ py "c"))
    by (vm_compute; reflexivity).
  refine (conj H1 (conj H2 _)).
  exact (proj1 (read_file_offset_limit _ _ _ (Some 2) (Some 1) H1 H2)).
Defined.

(** X2: the two [read_file] implementations count [offset] differently.
    For [n >= 0] and a limit that is absent or not negative, the executor's
    [read_file] with offset [n] skips [n] lines and so shows, in a field of
    5, the lines that [_read_file] shows for offset [n + 1] in a field of
    6, with the same line numbers. *)
Theorem executor_read_file_offset (fs : filesystem) path text n limit :
  path <> [] -> read_text fs path = Val text ->
  0 <= n -> (forall l, limit = Some l -> 0 <= l) ->
  let lines := readlines text in
  ExecutorTools.read_file (read_window_args path (Some n) limit) fs
  = numbered_window 5 (Z.to_nat n) limit lines
  /\ _read_file (read_window_args path (Some (n + 1)) limit) fs
     = numbered_window 6 (Z.to_nat n) limit lines.
Proof.
  intros Hp Hr Hn Hl lines. split.
  - by apply read_file_window_executor.
  - rewrite (read_file_window_agent _ _ text) by done.
    cbn [default from_option id]. by replace (n + 1 - 1) with n by lia.
Qed.

Lemma executor_read_file_offset_witness :
  py "f" <> []
  /\ read_text (fs1 (py "f") (py "a" ++ [LF] ++ py "b")) (py "f")
     = Val (py "a" ++ [LF] ++ py "b")
  /\ 0 <= 1 /\ (forall l, (None : option Z) = Some l -> 0 <= l)
  /\ ExecutorTools.read_file (read_window_args (py "f") (Some 1) None)
       (fs1 (py "f") (py "a" ++ [LF] ++ py "b"))
     = numbered_window 5 1 None (readlines (py "a" ++ [LF] ++ py "b")).
Proof.
  assert (H1 : py "f" <> []) by (vm_compute; discriminate).
  assert (H2 : read_text (fs1 (py "f") (py "a" ++ [LF] ++ py "b")) (py "f")
               = Val (py "a" ++ [LF] ++ py "b"))
    by (vm_compute; reflexivity).
  assert (H3 : 0 <= 1) by lia.
  assert (H4 : forall l, (None : option Z) = Some l -> 0 <= l) by (intros l H; discriminate H).
  refine (conj H1 (conj H2 (conj H3 (conj H4 _)))).
  exact (proj1 (executor_read_file_offset _ _ _ 1 None H1 H2 H3 H4)).
Defined.

Lemma truncation_note_no_LF limit total : LF ∉ truncation_note limit total.
Proof.
  unfold truncation_note. rewrite !not_elem_of_app.
  repeat split; try apply str_int_no_LF;
    apply (bool_decide_unpack _); vm_compute; exact I.
Qed.

(** X3: when curl succeeds, [_webfetch] with a limit [l > 0] on a page of
    more than [l] lines returns text whose lines are the first [l] lines of
    the page, one empty line and the truncation note naming [l] and the
    number of lines of the page; a page of at most [l] lines, and any page
    when [l <= 0], comes back unchanged. *)
Theorem webfetch_truncates (curl : pystr -> res completed_process) url limit r :
  url <> [] -> curl url = Val r -> returncode r = 0 ->
  let lines := split [LF] (stdout r) in
  let l := default 1000 limit in
  let out := _webfetch (fetch_args url limit) curl in
  (0 < l < len lines ->
   exists text, out = Val text
     /\ split [LF] text
        = take (Z.to_nat l) lines ++ [[]; truncation_note l (len lines)])
  /\ (l <= 0 \/ len lines <= l -> out = Val (stdout r)).
Proof.
  intros Hurl Hcurl Hcode lines l out. subst out.
  unfold _webfetch, fetch_args. cbn [arg_url arg_limit default from_option id].
  rewrite bool_decide_eq_false_2 by done. rewrite Hcurl.
  rewrite (bool_decide_eq_true_2 _ Hcode). cbn [negb].
  fold lines. fold l. split.
  - intros [Hpos Hlt].
    rewrite (proj2 (Z.ltb_lt 0 l)) by done.
    rewrite (proj2 (Z.ltb_lt l (len lines))) by done.
    eexists. split; [reflexivity|].
    fold (truncation_note l (len lines)).
    assert (Hshown : take (Z.to_nat l) lines <> []).
    { intros E. apply (f_equal length) in E. rewrite length_take in E.
      unfold len in Hlt. simpl in E. lia. }
    change (join [LF] (take (Z.to_nat l) lines) ++ [LF; LF] ++ truncation_note l (len lines))
      with (join [LF] (take (Z.to_nat l) lines) ++ [LF]
            ++ join [LF] [[]; truncation_note l (len lines)]).
    rewrite <- join_app by done.
    apply split_char_join.
    + by destruct (take (Z.to_nat l) lines).
    + apply Forall_app. split.
      * apply Forall_take, split_char_segments.
      * repeat constructor; [by intros ?%elem_of_nil | apply truncation_note_no_LF].
  - intros Hno. destruct (Z.ltb_spec 0 l) as [Hpos|Hneg]; [|done].
    rewrite (proj2 (Z.ltb_ge l (len lines))) by lia. done.
Qed.

Lemma webfetch_truncates_witness :
  py "u" <> [] /\ (fun _ => Val three_line_page) (py "u") = Val three_line_page
  /\ returncode three_line_page = 0
  /\ 0 < 2 < len (split [LF] (stdout three_line_page))
  /\ exists text,
       _webfetch (fetch_args (py "u") (Some 2)) (fun _ => Val three_line_page) = Val text
       /\ split [LF] text
          = take 2 (split [LF] (stdout three_line_page))
            ++ [[]; truncation_note 2 (len (split [LF] (stdout three_line_page)))].
Proof.
  assert (H1 : py "u" <> []) by (vm_compute; discriminate).
  assert (H2 : (fun _ : pystr => Val three_line_page) (py "u") = Val three_line_page)
    by reflexivity.
  assert (H3 : returncode three_line_page = 0) by reflexivity.
  assert (H4 : 0 < 2 < len (split [LF] (stdout three_line_page)))
    by (vm_compute; split; reflexivity).
  refine (conj H1 (conj H2 (conj H3 (conj H4 _)))).
  exact (proj1 (webfetch_truncates _ _ (Some 2) _ H1 H2 H3) H4).
Defined.

(** X4: after a [_todo_write] that can write [todo.json], [_todo_read]
    returns what [json.dump] wrote (read back with universal newlines, so
    unchanged when it has no carriage return), the message counts the
    items, and no other file changes. *)
Theorem todo_write_then_read (json_dump : list todo -> pystr) (todos : list todo)
    (fs : filesystem) :
  (forall e, fs !! todo_file <> Some (Locked e)) ->
  let written := _todo_write json_dump (todo_args todos) fs in
  written.2 = py "Successfully updated todo list with " ++ str_int (len todos)
              ++ py " items"
  /\ _todo_read written.1 = universal_newlines (json_dump todos)
  /\ (Forall (fun c => c <> CR) (json_dump todos) ->
      _todo_read written.1 = json_dump todos)
  /\ (forall path, path <> todo_file -> written.1 !! path = fs !! path).
Proof.
  intros Hfree written. subst written.
  unfold _todo_write, todo_args. cbn [arg_todos default from_option id].
  rewrite write_text_ok by done. cbn [fst snd].
  assert (Hread : _todo_read (<[todo_file := File (json_dump todos)]> fs)
                  = universal_newlines (json_dump todos)).
  { unfold _todo_read. rewrite lookup_insert_eq.
    by rewrite read_text_written. }
  repeat split.
  - done.
  - intros Hcr. by rewrite Hread, universal_newlines_id.
  - intros path Hpath. by rewrite lookup_insert_ne.
Qed.

Lemma todo_write_then_read_witness :
  (forall e, (∅ : filesystem) !! todo_file <> Some (Locked e))
  /\ _todo_read (_todo_write sample_json_dump_todos
                   (todo_args [Todo (py "1") (py "ship") (py "pending") (py "high")]) ∅).1
     = universal_newlines
         (sample_json_dump_todos [Todo (py "1") (py "ship") (py "pending") (py "high")]).
Proof.
  assert (H1 : forall e, (∅ : filesystem) !! todo_file <> Some (Locked e))
    by (intros e; rewrite lookup_empty; discriminate).
  refine (conj H1 _).
  exact (proj1 (proj2 (todo_write_then_read sample_json_dump_todos _ ∅ H1))).
Defined.

Lemma dict_get_elem {V} k (v : V) (d : list (pystr * V)) :
  NoDup (fst <$> d) -> (k, v) ∈ d -> dict_get k d = Some v.
Proof.
  induction d as [|[k' v'] d IH]; [by intros _ ?%elem_of_nil|].
  rewrite fmap_cons, NoDup_cons, elem_of_cons. intros [Hk' Hnd] [E|Hin].
  - injection E as -> ->. cbn. by rewrite bool_decide_eq_true_2.
  - cbn. rewrite bool_decide_eq_false_2; [by apply IH|].
    intros ->. apply Hk'. apply list_elem_of_fmap. by exists (k, v).
Qed.

Lemma filter_length_all {A} (P : A -> Prop) `{!forall x, Decision (P x)} (l : list A) :
  length (filter P l) = length l -> Forall P l.
Proof.
  induction l as [|x l IH]; [constructor|]. rewrite filter_cons.
  pose proof (length_filter P l) as Hle.
  destruct (decide (P x)); cbn; intros E.
  - constructor; [done|]. apply IH. lia.
  - lia.
Qed.

Lemma check_batches_fixed now st (groups : list (pystr * tasks)) :
  Forall (fun group => check_batch now st group = (st, None)) groups ->
  check_batches now st groups = (st, None).
Proof. induction 1 as [|g l Hg _ IH]; [done|]. cbn [check_batches]. by rewrite Hg. Qed.

Lemma check_batch_unfinished (now : Z) (st : supervisor) k es :
  (forall b, current_batch_id st = Some b ->
     let batch := filter (fun p => batch_id p.2 = b) (running_tasks st) in
     (length batch < 2)%nat \/ Exists (fun p => completed p.2 = false) batch) ->
  (k, es) ∈ group_by_batch (running_tasks st) ->
  check_batch now st (k, es) = (st, None).
Proof.
  intros Hcur Hin. unfold check_batch.
  destruct (decide (Some k = current_batch_id st)) as [Hk|Hk];
    [|by rewrite (bool_decide_eq_false_2 _ Hk), andb_false_r].
  apply dict_get_elem in Hin; [|apply group_by_batch_NoDup].
  rewrite group_by_batch_get in Hin.
  assert (Hes : es = filter (fun p => batch_id p.2 = k) (running_tasks st)).
  { destruct (filter _ _); [done | congruence]. }
  destruct (Hcur k (eq_sym Hk)) as [Hshort|Hopen]; rewrite <- Hes in *.
  - pose proof (length_filter (fun p : pystr * task_info => completed p.2 = true) es).
    rewrite (bool_decide_eq_false_2 (1 < _)%nat) by lia.
    by rewrite andb_false_r.
  - rewrite (bool_decide_eq_false_2 (_ = _)); [done|].
    intros Hall%filter_length_all. apply Exists_exists in Hopen as (p & Hp & Hopen).
    rewrite Forall_forall in Hall. specialize (Hall p Hp). simpl in Hall. congruence.
Qed.

(** X8: [_check_all_tasks_completed] changes nothing, prints nothing
    and raises nothing unless the current batch has at least two records
    and all of them have completed: not when there is no current batch,
    not for a batch of one task, not while a task of the current batch
    runs, and so never for a finished batch that is no longer the current
    one. *)
Theorem check_leaves_unfinished_batch (now : Z) (st : supervisor) :
  (forall b, current_batch_id st = Some b ->
     let batch := filter (fun p => batch_id p.2 = b) (running_tasks st) in
     (length batch < 2)%nat \/ Exists (fun p => completed p.2 = false) batch) ->
  _check_all_tasks_completed now st = (st, None).
Proof.
  intros Hcur. unfold _check_all_tasks_completed.
  destruct (decide (running_tasks st = [])) as [Hnone|Hsome].
  - by rewrite (bool_decide_eq_true_2 _ Hnone).
  - rewrite (bool_decide_eq_false_2 _ Hsome).
    apply check_batches_fixed, Forall_forall. intros [k es] Hin.
    by apply check_batch_unfinished.
Qed.

Lemma check_leaves_unfinished_batch_witness :
  (forall b, current_batch_id supervisor_one_pending = Some b ->
     let batch := filter (fun p => batch_id p.2 = b)
                         (running_tasks supervisor_one_pending) in
     (length batch < 2)%nat \/ Exists (fun p => completed p.2 = false) batch)
  /\ _check_all_tasks_completed 50 supervisor_one_pending
     = (supervisor_one_pending, None).
Proof.
  assert (H1 : forall b, current_batch_id supervisor_one_pending = Some b ->
     let batch := filter (fun p => batch_id p.2 = b)
                         (running_tasks supervisor_one_pending) in
     (length batch < 2)%nat \/ Exists (fun p => completed p.2 = false) batch).
  { intros b [= <-]. right. vm_compute. apply Exists_cons_tl, Exists_cons_hd.
    reflexivity. }
  refine (conj H1 _).
  exact (check_leaves_unfinished_batch 50 supervisor_one_pending H1).
Defined.

Lemma dict_get_set_eq {V} k (v : V) d : dict_get k (dict_set k v d) = Some v.
Proof.
  induction d as [|[k' v'] d IH]; cbn.
  - by rewrite bool_decide_eq_true_2.
  - case_bool_decide as Hk; cbn.
    + by rewrite bool_decide_eq_true_2.
    + by rewrite bool_decide_eq_false_2.
Qed.

Lemma dict_get_set_ne {V} k k' (v : V) d :
  k' <> k -> dict_get k' (dict_set k v d) = dict_get k' d.
Proof.
  intros Hne. induction d as [|[k0 v0] d IH]; cbn.
  - by rewrite bool_decide_eq_false_2.
  - case_bool_decide as Hk; cbn.
    + subst k0. by rewrite !bool_decide_eq_false_2 by done.
    + by rewrite IH.
Qed.

Lemma dict_get_Some_key {V} k (v : V) d : dict_get k d = Some v -> k ∈ fst <$> d.
Proof.
  intros Hget. destruct (decide (k ∈ fst <$> d)) as [|Hno]; [done|].
  apply dict_get_None in Hno. congruence.
Qed.

Lemma dict_set_keys {V} k (v : V) d :
  k ∈ fst <$> d -> fst <$> dict_set k v d = fst <$> d.
Proof.
  induction d as [|[k' v'] d IH]; [by intros ?%elem_of_nil|].
  rewrite fmap_cons, elem_of_cons. intros Hin. cbn [dict_set].
  case_bool_decide as Hk; [by subst|].
  rewrite !fmap_cons, IH; [done|]. destruct Hin as [->|Hin]; [done|exact Hin].
Qed.

Lemma dict_set_present {V} k (v : V) (d : list (pystr * V)) :
  NoDup (fst <$> d) -> k ∈ fst <$> d ->
  dict_set k v d = (fun p => if bool_decide (p.1 = k) then (k, v) else p) <$> d.
Proof.
  induction d as [|[k' v'] d IH]; [by intros _ ?%elem_of_nil|].
  rewrite fmap_cons, NoDup_cons, elem_of_cons. intros [Hk' Hnd] Hin.
  cbn [dict_set fmap list_fmap fst]. case_bool_decide as Hk.
  - subst k'. f_equal. symmetry. rewrite <- (list_fmap_id d) at 2.
    apply Forall_fmap_ext_1.
    apply Forall_forall. intros p Hp. rewrite bool_decide_eq_false_2; [done|].
    intros E. apply Hk'. apply list_elem_of_fmap. exists p. by rewrite E.
  - f_equal. apply IH; [done|]. destruct Hin as [->|Hin]; [done|exact Hin].
Qed.

Lemma filter_fmap {A B} (P : B -> Prop) `{!forall x, Decision (P x)}
    (f : A -> B) (l : list A) :
  filter P (f <$> l) = f <$> filter (fun x => P (f x)) l.
Proof.
  induction l as [|x l IH]; [done|].
  rewrite fmap_cons, !filter_cons. destruct (decide (P (f x))); by rewrite IH.
Qed.

Section MonitorTask.
Context (task_id : pystr) (now later : Z) (file : result_file)
        (st : supervisor) (info : task_info).
Hypothesis Hnd : NoDup (fst <$> running_tasks st).
Hypothesis Hget : dict_get task_id (running_tasks st) = Some info.

Let mark (p : pystr * task_info) : pystr * task_info :=
  if bool_decide (p.1 = task_id) then (task_id, completed_record now file info) else p.

Lemma monitor_task_marks :
  dict_set task_id (completed_record now file info) (running_tasks st)
  = mark <$> running_tasks st.
Proof.
  apply dict_set_present; [done|].
  destruct (decide (task_id ∈ fst <$> running_tasks st)) as [|Hno]; [done|].
  apply dict_get_None in Hno. congruence.
Qed.

Lemma monitor_task_entry p :
  p ∈ running_tasks st -> p.1 = task_id -> p = (task_id, info).
Proof.
  intros Hin Hp. destruct p as [k v]. simpl in Hp. subst k.
  apply (dict_get_elem _ _ _ Hnd) in Hin. congruence.
Qed.

Lemma mark_batch p : p ∈ running_tasks st -> batch_id (mark p).2 = batch_id p.2.
Proof.
  intros Hin. unfold mark. case_bool_decide as Hp; [|done].
  by rewrite (monitor_task_entry p Hin Hp).
Qed.

Lemma monitor_task_batch b :
  filter (fun p => batch_id p.2 = b) (mark <$> running_tasks st)
  = mark <$> filter (fun p => batch_id p.2 = b) (running_tasks st).
Proof.
  rewrite filter_fmap. f_equal. apply filter_ext_in.
  intros p Hp. by rewrite mark_batch.
Qed.

Lemma monitor_task_unfolds :
  _monitor_task task_id now later file st
  = match _check_all_tasks_completed later
            (Supervisor (mark <$> running_tasks st) (current_batch_id st)
               (printed st
                ++ [[LF; CR; ROBOT] ++ py " [SUBAGENT] Task " ++ task_id
                    ++ py " completed: " ++ description info ++ [CR]])) with
    | (st', None) => st'
    | (st', Some e) =>
        Supervisor
          (running_tasks st') (current_batch_id st')
          (printed st'
           ++ [[LF; CR; ROBOT] ++ py " [SUBAGENT ERROR " ++ task_id
               ++ py "]: Monitoring failed: " ++ exc_str e ++ [CR]])
    end.
Proof. unfold _monitor_task. by rewrite Hget, monitor_task_marks. Qed.

End MonitorTask.

(** X9: when the task that [_monitor_task] sees end was the last
    unfinished one of the current batch, and that batch has at least two
    records, the record is marked as completed, and then the batch check
    fails: what is printed is the completion line of the task, the two
    lines that announce the summary, and "Monitoring failed" with the
    exception of the [list] call; there is no summary, and every record,
    the ended task's included, is still in [running_tasks]. *)
Theorem monitor_task_last_of_batch_fails (task_id : pystr) (now later : Z)
    (file : result_file) (st : supervisor) (info : task_info) (b : pystr) :
  let batch := filter (fun p => batch_id p.2 = b) (running_tasks st) in
  let record := completed_record now file info in
  let st' := _monitor_task task_id now later file st in
  NoDup (fst <$> running_tasks st) ->
  dict_get task_id (running_tasks st) = Some info ->
  current_batch_id st = Some b -> batch_id info = b ->
  (2 <= length batch)%nat ->
  (forall p, p ∈ batch -> p.1 <> task_id -> completed p.2 = true) ->
  running_tasks st' = dict_set task_id record (running_tasks st)
  /\ dict_get task_id (running_tasks st') = Some record
  /\ fst <$> running_tasks st' = fst <$> running_tasks st
  /\ current_batch_id st' = Some b
  /\ printed st'
     = printed st
       ++ [[LF; CR; ROBOT] ++ py " [SUBAGENT] Task " ++ task_id
           ++ py " completed: " ++ description info ++ [CR]]
       ++ batch_announcement b (len batch)
       ++ [[LF; CR; ROBOT] ++ py " [SUBAGENT ERROR " ++ task_id
           ++ py "]: Monitoring failed: " ++ exc_str slice_error ++ [CR]].
Proof.
  intros batch record st' Hnd Hget Hcur Hinfo Hlen Hothers.
  subst st'. rewrite (monitor_task_unfolds _ _ _ _ _ _ Hnd Hget).
  rewrite (check_raises_on_finished_batch later _ b);
    cbn [running_tasks current_batch_id printed].
  - rewrite (monitor_task_batch _ now file _ _ Hnd Hget). fold batch.
    unfold len. rewrite length_fmap, <- !app_assoc.
    rewrite <- (monitor_task_marks _ _ _ _ _ Hnd Hget). fold record.
    split; [done|]. split; [apply dict_get_set_eq|].
    split; [|done]. apply dict_set_keys. by apply dict_get_Some_key in Hget.
  - done.
  - rewrite (monitor_task_batch _ now file _ _ Hnd Hget). by rewrite length_fmap.
  - rewrite (monitor_task_batch _ now file _ _ Hnd Hget).
    apply Forall_fmap, Forall_forall. intros p Hp. simpl.
    destruct (decide (p.1 = task_id)) as [Hk|Hk].
    + by rewrite bool_decide_eq_true_2.
    + rewrite bool_decide_eq_false_2 by done. by apply Hothers.
Qed.

(** X10: when the current batch has a single record, or another task of
    it is still unfinished, the end of a task only marks its record: it is
    completed, has [end_time] and the collected result (the text of the
    result file, or the placeholder for a missing file or a failed read),
    the other records and the order of the keys are unchanged, and only
    the completion line is printed. *)
Theorem monitor_task_keeps_unfinished_batch (task_id : pystr) (now later : Z)
    (file : result_file) (st : supervisor) (info : task_info) :
  let record := completed_record now file info in
  let st' := _monitor_task task_id now later file st in
  NoDup (fst <$> running_tasks st) ->
  dict_get task_id (running_tasks st) = Some info ->
  (forall b, current_batch_id st = Some b ->
     let batch := filter (fun p => batch_id p.2 = b) (running_tasks st) in
     (length batch < 2)%nat
     \/ Exists (fun p => p.1 <> task_id /\ completed p.2 = false) batch) ->
  running_tasks st' = dict_set task_id record (running_tasks st)
  /\ dict_get task_id (running_tasks st') = Some record
  /\ (forall k, k <> task_id ->
        dict_get k (running_tasks st') = dict_get k (running_tasks st))
  /\ fst <$> running_tasks st' = fst <$> running_tasks st
  /\ printed st'
     = printed st
       ++ [[LF; CR; ROBOT] ++ py " [SUBAGENT] Task " ++ task_id
           ++ py " completed: " ++ description info ++ [CR]].
Proof.
  intros record st' Hnd Hget Hopen.
  subst st'. rewrite (monitor_task_unfolds _ _ _ _ _ _ Hnd Hget).
  set (marked := Supervisor _ _ _).
  assert (Hsame : _check_all_tasks_completed later marked = (marked, None)).
  { unfold _check_all_tasks_completed. case_bool_decide; [done|].
    apply check_batches_fixed, Forall_forall. intros [k es] Hin.
    apply check_batch_unfinished; [|done].
    subst marked. cbn [running_tasks current_batch_id]. intros b Hcur.
    rewrite (monitor_task_batch _ now file _ _ Hnd Hget).
    rewrite length_fmap. destruct (Hopen b Hcur) as [Hshort|Hex]; [by left|right].
    apply Exists_fmap. eapply Exists_impl; [exact Hex|].
    intros p [Hk Hp]. simpl. by rewrite bool_decide_eq_false_2. }
  rewrite Hsame. subst marked. cbn [running_tasks printed].
  rewrite <- (monitor_task_marks _ _ _ _ _ Hnd Hget).
  fold record. split; [done|]. split; [|split; [|split; [|done]]].
  - apply dict_get_set_eq.
  - intros k Hk. by apply dict_get_set_ne.
  - apply dict_set_keys. apply dict_get_Some_key in Hget. done.
Qed.

Lemma monitor_task_last_of_batch_fails_witness :
  NoDup (fst <$> running_tasks supervisor_one_pending)
  /\ dict_get (py "task_2") (running_tasks supervisor_one_pending)
     = Some (pending (py "run tests") (py "batch_1") 10)
  /\ current_batch_id supervisor_one_pending = Some (py "batch_1")
  /\ batch_id (pending (py "run tests") (py "batch_1") 10) = py "batch_1"
  /\ (2 <= length (filter (fun p => batch_id p.2 = py "batch_1")
                          (running_tasks supervisor_one_pending)))%nat
  /\ (forall p, p ∈ filter (fun p => batch_id p.2 = py "batch_1")
                      (running_tasks supervisor_one_pending) ->
                p.1 <> py "task_2" -> completed p.2 = true)
  /\ fst <$> running_tasks (_monitor_task (py "task_2") 40 41
                              (ResultFile (Some (py "all green")))
                              supervisor_one_pending)
     = fst <$> running_tasks supervisor_one_pending.
Proof.
  assert (H1 : NoDup (fst <$> running_tasks supervisor_one_pending))
    by (apply (bool_decide_unpack _); vm_compute; exact I).
  assert (H2 : dict_get (py "task_2") (running_tasks supervisor_one_pending)
               = Some (pending (py "run tests") (py "batch_1") 10))
    by (vm_compute; reflexivity).
  assert (H3 : current_batch_id supervisor_one_pending = Some (py "batch_1"))
    by reflexivity.
  assert (H5 : batch_id (pending (py "run tests") (py "batch_1") 10) = py "batch_1")
    by reflexivity.
  assert (H6 : (2 <= length (filter (fun p => batch_id p.2 = py "batch_1")
                               (running_tasks supervisor_one_pending)))%nat)
    by (vm_compute; lia).
  assert (H7 : forall p, p ∈ filter (fun p => batch_id p.2 = py "batch_1")
                               (running_tasks supervisor_one_pending) ->
                         p.1 <> py "task_2" -> completed p.2 = true).
  { apply (proj1 (Forall_forall
             (fun p : pystr * task_info => p.1 <> py "task_2" -> completed p.2 = true) _)).
    apply (bool_decide_unpack _). vm_compute. exact I. }
  refine (conj H1 (conj H2 (conj H3 (conj H5 (conj H6 (conj H7 _)))))).
  exact (proj1 (proj2 (proj2 (monitor_task_last_of_batch_fails (py "task_2") 40 41
                  (ResultFile (Some (py "all green"))) supervisor_one_pending
                  _ _ H1 H2 H3 H5 H6 H7)))).
Defined.

(** The last task of a batch of two ends: both records are still in the
    map afterwards, and the last line printed is the failure. *)
Example monitor_task_ex :
  let st' := _monitor_task (py "task_2") 40 41 (ResultFile (Some (py "all green")))
                           supervisor_one_pending in
  fst <$> running_tasks st' = [py "task_1"; py "task_2"]
  /\ last (printed st')
     = Some ([LF; CR; ROBOT]
             ++ py " [SUBAGENT ERROR task_2]: Monitoring failed: unhashable type: 'slice'"
             ++ [CR]).
Proof. vm_compute. split; reflexivity. Qed.

Lemma monitor_task_keeps_unfinished_batch_witness :
  NoDup (fst <$> running_tasks supervisor_single_pending)
  /\ dict_get (py "task_1") (running_tasks supervisor_single_pending)
     = Some (pending (py "read docs") (py "batch_1") 0)
  /\ (forall b, current_batch_id supervisor_single_pending = Some b ->
        let batch := filter (fun p => batch_id p.2 = b)
                            (running_tasks supervisor_single_pending) in
        (length batch < 2)%nat
        \/ Exists (fun p => p.1 <> py "task_1" /\ completed p.2 = false) batch)
  /\ dict_get (py "task_1")
       (running_tasks (_monitor_task (py "task_1") 40 41 NoResultFile
                         supervisor_single_pending))
     = Some (completed_record 40 NoResultFile
               (pending (py "read docs") (py "batch_1") 0)).
Proof.
  assert (H1 : NoDup (fst <$> running_tasks supervisor_single_pending))
    by (apply (bool_decide_unpack _); vm_compute; exact I).
  assert (H2 : dict_get (py "task_1") (running_tasks supervisor_single_pending)
               = Some (pending (py "read docs") (py "batch_1") 0))
    by (vm_compute; reflexivity).
  assert (H3 : forall b, current_batch_id supervisor_single_pending = Some b ->
        let batch := filter (fun p => batch_id p.2 = b)
                            (running_tasks supervisor_single_pending) in
        (length batch < 2)%nat
        \/ Exists (fun p => p.1 <> py "task_1" /\ completed p.2 = false) batch).
  { intros b Hb. injection Hb as <-. left. vm_compute. lia. }
  refine (conj H1 (conj H2 (conj H3 _))).
  exact (proj1 (proj2 (monitor_task_keeps_unfinished_batch (py "task_1") 40 41
                         NoResultFile supervisor_single_pending _ H1 H2 H3))).
Defined.

Section OwnReply.
Context (json_dumps : tool_request -> pystr)
        (json_loads : pystr -> parsed).

(** What the reading loop returns for the reply [response]. *)
Let reply_text (response : list (pystr * jval)) : pystr :=
  if jval_truth (default (JBool false) (dict_get (py "success") response))
  then jval_text (default (JStr (py "Tool executed successfully"))
                          (dict_get (py "result") response))
  else py "Error from parent: "
       ++ jval_text (default (JStr (py "Unknown error"))
                             (dict_get (py "error") response)).

Let own_reply (request_id out : pystr) : Prop :=
  exists line response,
    json_loads (strip line) = Object response
    /\ dict_get (py "type") response = Some (JStr (py "tool_execution_response"))
    /\ dict_get (py "request_id") response = Some (JStr request_id)
    /\ out = reply_text response.

Lemma read_line_own_reply request_id line out :
  read_line json_loads request_id line = Return out -> own_reply request_id out.
Proof.
  unfold read_line. case_bool_decide; [done|].
  destruct (json_loads (strip line)) as [| |response] eqn:Hloads; try done.
  destruct (bool_decide (dict_get (py "type") response = _)) eqn:Htype; [|done].
  destruct (bool_decide (dict_get (py "request_id") response = _)) eqn:Hid; [|done].
  apply bool_decide_eq_true in Htype, Hid. cbn [andb].
  intros Hout. exists line, response. repeat (split; [done|]).
  unfold reply_text. destruct (jval_truth _); congruence.
Qed.

Lemma read_lines_own_reply request_id lines out :
  read_lines json_loads request_id lines = Return out -> own_reply request_id out.
Proof.
  induction lines as [|line lines IH]; [done|]. cbn [read_lines].
  destruct (read_line json_loads request_id line) eqn:Hline; [done| |done].
  intros [= <-]. by eapply read_line_own_reply.
Qed.

Lemma await_response_own_reply request_id tool_name buffer t events :
  let out := (await_response json_loads request_id tool_name buffer t events).1.1 in
  out = py "Error: No response received from parent for tool " ++ tool_name
  \/ own_reply request_id out.
Proof.
  revert buffer. induction events as [|[after [data|e]] events IH]; intros buffer;
    cbn [await_response]; [by left| |by destruct (t <=? after); left].
  destruct (t <=? after); [by left|].
  case_bool_decide; [by left|].
  destruct (read_lines json_loads request_id _) eqn:Hlines; [| |by left].
  - specialize (IH (incomplete_line (buffer ++ data))).
    by destruct (await_response _ _ _ _ _ events) as [[result remaining] waited].
  - right. by eapply read_lines_own_reply.
Qed.

(** X11: what [_forward_tool_to_parent] returns is the forwarding
    error (when [send] raises), or the no-response error, or the content
    of a received line that decodes to a [tool_execution_response] with
    the request id of this very call: a reply to another request is never
    taken for the result. *)
Theorem forwarded_result_is_own_reply (env : environment) (drawn : nat)
    (sock : socket) (tool_key tool_name : pystr) (arguments : arguments) :
  let out :=
    (_forward_tool_to_parent json_dumps json_loads env drawn sock tool_key tool_name
       arguments).2 in
  (exists e, send_raises sock = Some e
             /\ out = py "Error forwarding tool to parent: " ++ exc_str e)
  \/ out = py "Error: No response received from parent for tool " ++ tool_name
  \/ exists line response,
       json_loads (strip line) = Object response
       /\ dict_get (py "type") response = Some (JStr (py "tool_execution_response"))
       /\ dict_get (py "request_id") response = Some (JStr (uuid4 env drawn))
       /\ out = if jval_truth (default (JBool false) (dict_get (py "success") response))
                then jval_text (default (JStr (py "Tool executed successfully"))
                                        (dict_get (py "result") response))
                else py "Error from parent: "
                     ++ jval_text (default (JStr (py "Unknown error"))
                                           (dict_get (py "error") response)).
Proof.
  unfold _forward_tool_to_parent. destruct (send_raises sock) as [e|] eqn:Hsend.
  - left. by exists e.
  - right.
    pose proof (await_response_own_reply (uuid4 env drawn) tool_name [] 300
                  (incoming sock)) as H.
    destruct (await_response _ _ _ _ _ _) as [[result rest] waited]. cbn [fst snd] in *.
    destruct H as [H|H]; [by left | by right].
Qed.

End OwnReply.

Lemma complete_lines_no_LF s : LF ∉ s -> complete_lines s = [].
Proof. intros Hs. unfold complete_lines. by rewrite split_char_no_sep. Qed.

Lemma complete_lines_one_line s : LF ∉ s -> complete_lines (s ++ [LF]) = [s].
Proof.
  intros Hs. unfold complete_lines. rewrite split_char_prefix by done.
  by rewrite split_char_nil.
Qed.

Section RoundTrip.
Context (json_dumps : tool_request -> pystr)
        (json_dump_todos : list todo -> pystr)
        (json_loads : pystr -> parsed)
        (json_dumps_response : tool_response -> pystr)
        (str_args : arguments -> pystr).

Local Abbreviation dispatch :=
  (_execute_mcp_tool json_dumps json_dump_todos json_loads).
Local Abbreviation handle :=
  (_handle_subagent_tool_request json_dumps_response str_args).
Local Abbreviation forward := (_forward_tool_to_parent json_dumps json_loads).

(** X12: a forwarded call gives the subagent what the parent's
    dispatcher returns.  When the parent handles the request of a known
    task and its [_execute_mcp_tool], run with the subagent flag down,
    returns a result (as it does for a tool the parent has registered),
    the parent sends one line, the reply with the request's id and that
    result, and restores its flag; and when that line reaches the
    subagent, in whatever non-empty pieces each of which comes before the
    timeout, [_forward_tool_to_parent] returns exactly that result.  The
    JSON functions are assumed to decode the reply they encoded, and to
    print it on one line. *)
Theorem forwarded_call_round_trip
    (child : environment) (drawn : nat) (child_socket : socket)
    (parent : environment) (parent_tools : list (pystr * tool_info))
    (parent_link : subagent_link) (a : agent)
    (task_id : pystr) (task : task_info) (client_socket : socket)
    (tool_key tool_name : pystr) (args : arguments) (result : pystr)
    (pieces : list (Z * pystr)) (rest : list (Z * recv_event)) :
  let request_id := uuid4 child drawn in
  let request :=
    RequestMessage (Some request_id) (Some tool_key) (Some tool_name)
                   (Some args) in
  let announced := announce_tool_request str_args task_id tool_name args a in
  let reply :=
    json_dumps_response
      (ToolResponse (py "tool_execution_response") request_id true
                    (Some result) None) in
  let handled :=
    handle (dispatch parent parent_tools) task_id request (Some client_socket)
           parent_link a in
  request_id <> [] -> tool_key <> [] -> tool_name <> [] ->
  dict_get task_id (running_tasks (tasks_state a)) = Some task ->
  (dispatch parent parent_tools (SubagentLink false (comm_socket parent_link))
            tool_key args announced).2 = Returned result ->
  send_raises client_socket = None ->
  send_raises child_socket = None ->
  (LF ∉ reply) -> strip reply <> [] ->
  json_loads (strip reply)
  = Object [(py "type", JStr (py "tool_execution_response"));
            (py "request_id", JStr request_id);
            (py "success", JBool true);
            (py "result", JStr result)] ->
  Forall (fun piece => piece.1 < 300 /\ piece.2 <> []) pieces ->
  concat (snd <$> pieces) = reply ++ [LF] ->
  incoming child_socket = arrivals pieces ++ rest ->
  (exists sock, handled.2 = Some sock
                /\ sent sock = sent client_socket ++ [reply ++ [LF]])
  /\ is_subagent handled.1.2 = is_subagent parent_link
  /\ (forward child drawn child_socket tool_key tool_name args).2 = result.
Proof.
  intros request_id request announced reply handled
         Hid Hkey Hname Htask Hrun Hsend Hchild HLF Hstrip Hloads Hpieces Hconcat Hin.
  split; [|split].
  - subst handled. unfold _handle_subagent_tool_request, request.
    cbn [msg_request_id msg_tool_key msg_tool_name msg_tool_args default from_option id].
    rewrite !bool_decide_eq_false_2 by done. cbn [orb]. rewrite Htask.
    fold announced.
    destruct (_execute_mcp_tool _ _ _ parent parent_tools _ tool_key args announced)
      as [[a' link'] out].
    cbn [snd] in Hrun. subst out.
    cbn [snd]. unfold send_response. rewrite Hsend. fold reply.
    by eexists.
  - subst handled. unfold _handle_subagent_tool_request, request.
    cbn [msg_request_id msg_tool_key msg_tool_name msg_tool_args default from_option id].
    rewrite !bool_decide_eq_false_2 by done. cbn [orb]. rewrite Htask.
    fold announced.
    destruct (_execute_mcp_tool _ _ _ parent parent_tools _ tool_key args announced)
      as [[a' link'] out].
    cbn [snd] in Hrun. by subst out.
  - unfold _forward_tool_to_parent. cbv zeta. rewrite Hchild, Hin.
    fold request_id.
    destruct pieces as [|final earlier _] using rev_ind.
    { apply (f_equal length) in Hconcat. rewrite length_app in Hconcat.
      simpl in Hconcat. lia. }
    destruct final as [after d].
    rewrite fmap_app, concat_app in Hconcat. cbn [fmap list_fmap concat snd] in Hconcat.
    rewrite app_nil_r in Hconcat.
    pose proof (proj1 (Forall_app _ _ _) Hpieces) as [_ Hfinal].
    apply (proj1 (Forall_singleton _ _)) in Hfinal. cbn [fst snd] in Hfinal.
    destruct Hfinal as [_ Hfinal].
    assert (Hearlier : LF ∉ concat (snd <$> earlier)).
    { revert Hfinal Hconcat.
      destruct d as [|c d _] using rev_ind; intros Hfinal Hconcat; [done|].
      rewrite app_assoc in Hconcat. apply app_inj_tail in Hconcat as [E _].
      intros Hlf. apply HLF. rewrite <- E. apply elem_of_app. by left. }
    assert (Haw : await_response json_loads request_id tool_name [] 300
                    (arrivals (earlier ++ [(after, d)]) ++ rest)
                  = (result, rest, total (fst <$> earlier ++ [(after, d)]))).
    { apply await_response_returns.
      + done.
      + by rewrite complete_lines_no_LF.
      + refine (eq_trans (f_equal (fun s => read_lines json_loads request_id
                                              (complete_lines s)) Hconcat) _).
        rewrite complete_lines_one_line by done. cbn [read_lines].
        rewrite (read_line_response json_loads request_id reply _ Hstrip Hloads)
          by (cbn; by rewrite ?bool_decide_eq_true_2, ?bool_decide_eq_false_2 by done).
        done. }
    by rewrite Haw.
Qed.

End RoundTrip.

Lemma forwarded_call_round_trip_witness :
  uuid4 sample_environment 0 <> [] /\ py "builtin:get_current_directory" <> []
  /\ py "get_current_directory" <> []
  /\ dict_get (py "task_1") (running_tasks (tasks_state parent_agent))
     = Some (pending (py "read docs") (py "batch_1") 0)
  /\ (_execute_mcp_tool sample_json_dumps sample_json_dump_todos reply_json_loads
        sample_environment parent_tools
        (SubagentLink false (comm_socket no_link))
        (py "builtin:get_current_directory") no_args
        (announce_tool_request (fun _ => []) (py "task_1")
           (py "get_current_directory") no_args parent_agent)).2
     = Returned (py "/work")
  /\ send_raises idle_socket = None /\ send_raises sample_socket = None
  /\ (LF ∉ py "{reply}") /\ strip (py "{reply}") <> []
  /\ reply_json_loads (strip (py "{reply}"))
     = Object [(py "type", JStr (py "tool_execution_response"));
               (py "request_id", JStr (uuid4 sample_environment 0));
               (py "success", JBool true);
               (py "result", JStr (py "/work"))]
  /\ Forall (fun piece : Z * pystr => piece.1 < 300 /\ piece.2 <> [])
            [(1, py "{rep"); (1, py "ly}" ++ [LF])]
  /\ concat (snd <$> [(1, py "{rep"); (1, py "ly}" ++ [LF])]) = py "{reply}" ++ [LF]
  /\ incoming sample_socket = arrivals [(1, py "{rep"); (1, py "ly}" ++ [LF])] ++ []
  /\ (_forward_tool_to_parent sample_json_dumps reply_json_loads sample_environment
        0 sample_socket (py "builtin:get_current_directory")
        (py "get_current_directory") no_args).2
     = py "/work".
Proof.
  assert (H1 : uuid4 sample_environment 0 <> []) by (vm_compute; discriminate).
  assert (H2 : py "builtin:get_current_directory" <> []) by (vm_compute; discriminate).
  assert (H3 : py "get_current_directory" <> []) by (vm_compute; discriminate).
  assert (H4 : dict_get (py "task_1") (running_tasks (tasks_state parent_agent))
               = Some (pending (py "read docs") (py "batch_1") 0))
    by (vm_compute; reflexivity).
  assert (Hrun : (_execute_mcp_tool sample_json_dumps sample_json_dump_todos
                    reply_json_loads sample_environment parent_tools
                    (SubagentLink false (comm_socket no_link))
                    (py "builtin:get_current_directory") no_args
                    (announce_tool_request (fun _ => []) (py "task_1")
                       (py "get_current_directory") no_args parent_agent)).2
                 = Returned (py "/work"))
    by (vm_compute; reflexivity).
  assert (H5 : send_raises idle_socket = None) by reflexivity.
  assert (H6 : send_raises sample_socket = None) by reflexivity.
  assert (H7 : LF ∉ py "{reply}") by (apply (bool_decide_unpack _); vm_compute; exact I).
  assert (H8 : strip (py "{reply}") <> []) by (vm_compute; discriminate).
  assert (H9 : reply_json_loads (strip (py "{reply}"))
               = Object [(py "type", JStr (py "tool_execution_response"));
                         (py "request_id", JStr (uuid4 sample_environment 0));
                         (py "success", JBool true);
                         (py "result", JStr (py "/work"))])
    by (vm_compute; reflexivity).
  assert (H10 : Forall (fun piece : Z * pystr => piece.1 < 300 /\ piece.2 <> [])
                       [(1, py "{rep"); (1, py "ly}" ++ [LF])])
    by (repeat constructor; (lia || (vm_compute; discriminate))).
  assert (H11 : concat (snd <$> [(1, py "{rep"); (1, py "ly}" ++ [LF])])
                = py "{reply}" ++ [LF])
    by (vm_compute; reflexivity).
  assert (H12 : incoming sample_socket
                = arrivals [(1, py "{rep"); (1, py "ly}" ++ [LF])] ++ [])
    by (vm_compute; reflexivity).
  refine (conj H1 (conj H2 (conj H3 (conj H4 (conj Hrun (conj H5 (conj H6 (conj H7
            (conj H8 (conj H9 (conj H10 (conj H11 (conj H12 _))))))))))))).
  exact (proj2 (proj2 (forwarded_call_round_trip sample_json_dumps
            sample_json_dump_todos reply_json_loads reply_json_dumps
            (fun _ => []) sample_environment 0 sample_socket sample_environment
            parent_tools no_link parent_agent (py "task_1")
            (pending (py "read docs") (py "batch_1") 0) idle_socket
            (py "builtin:get_current_directory") (py "get_current_directory")
            no_args (py "/work") [(1, py "{rep"); (1, py "ly}" ++ [LF])] []
            H1 H2 H3 H4 Hrun H5 H6 H7 H8 H9 H10 H11 H12))).
Defined.

(** The parent does not have the tool the subagent asks for: its
    dispatcher exits, the handler takes the exit for the result, and the
    reply carries the exit code as an error. *)
Example forwarded_unknown_tool_ex :
  let request :=
    RequestMessage (Some (py "id-0")) (Some (py "builtin:read_file"))
                   (Some (py "read_file")) (Some (file_args (py "notes.txt"))) in
  let handled :=
    _handle_subagent_tool_request
      (fun r => default [] (resp_error r)) (fun _ => [])
      (_execute_mcp_tool sample_json_dumps sample_json_dump_todos reply_json_loads
                         sample_environment parent_tools)
      (py "task_1") request (Some idle_socket) no_link parent_agent in
  dict_get (py "builtin:read_file") parent_tools = None
  /\ handled.2
     = Some (Socket [py "Tool exited with code 2" ++ [LF]] [] None None 0).
Proof. vm_compute. split; reflexivity. Qed.

(** X13: when the summary cannot be generated, [compact_conversation]
    returns the system prompt (if the conversation opens with one)
    followed by the last five messages.  For a conversation of four or
    five messages that opens with the system prompt this is the whole
    conversation behind a second copy of the system prompt, one message
    longer than before; without system prompt such a conversation is
    returned unchanged. *)
Theorem compact_conversation_fallback
    (generate_response : list message -> res pystr) (messages : list message)
    (e : exc) :
  (3 < length messages)%nat ->
  generate_response (summary_messages (messages_to_summarize messages)) = Raise e ->
  let out := compact_conversation generate_response messages in
  out = option_list (system_message messages) ++ last_n 5 messages
  /\ (forall m, system_message messages = Some m -> (length messages <= 5)%nat ->
        out = m :: messages /\ head messages = Some m)
  /\ (system_message messages = None -> (length messages <= 5)%nat ->
        out = messages)
  /\ ((5 < length messages)%nat ->
        length out = (length (option_list (system_message messages)) + 5)%nat).
Proof.
  intros Hlen Hgen out.
  destruct (conversation_parts messages Hlen) as [_ Hmid].
  assert (Hout : out = option_list (system_message messages) ++ last_n 5 messages).
  { subst out. unfold compact_conversation.
    rewrite (bool_decide_eq_false_2 (length messages <= 3)%nat) by lia.
    rewrite (bool_decide_eq_false_2 (messages_to_summarize messages = [])) by done.
    by rewrite Hgen. }
  assert (Hall : (length messages <= 5)%nat -> last_n 5 messages = messages).
  { intros Hshort. unfold last_n.
    by replace (length messages - 5)%nat with 0%nat by lia. }
  split; [done|]. rewrite Hout. split; [|split].
  - intros m Hsys Hshort. rewrite Hsys, Hall by done. split; [done|].
    unfold system_message in Hsys. destruct messages as [|m0 rest]; [done|].
    case_bool_decide; by simplify_eq/=.
  - intros Hsys Hshort. by rewrite Hsys, Hall.
  - intros Hlong. rewrite length_app. unfold last_n. rewrite length_drop. lia.
Qed.

Lemma compact_conversation_fallback_witness :
  (3 < length five_messages)%nat
  /\ failing_backend (summary_messages (messages_to_summarize five_messages))
     = Raise (Exc OtherException (py "connection refused"))
  /\ compact_conversation failing_backend five_messages
     = option_list (system_message five_messages) ++ last_n 5 five_messages.
Proof.
  assert (H1 : (3 < length five_messages)%nat) by (vm_compute; lia).
  assert (H2 : failing_backend (summary_messages (messages_to_summarize five_messages))
               = Raise (Exc OtherException (py "connection refused")))
    by reflexivity.
  refine (conj H1 (conj H2 _)).
  exact (proj1 (compact_conversation_fallback failing_backend five_messages _ H1 H2)).
Defined.

(** X14: compacting a compacted conversation.  Without system prompt
    the result of a successful compaction has three messages and a second
    compaction returns it unchanged.  With a system prompt it has four,
    and a second compaction summarises the first summary alone: it
    replaces the summary message by a summary of it, or, if that fails,
    puts a second copy of the system prompt in front. *)
Theorem compact_conversation_twice
    (generate_response : list message -> res pystr) (messages : list message)
    (summary : pystr) :
  (3 < length messages)%nat ->
  generate_response (summary_messages (messages_to_summarize messages)) = Val summary ->
  let once := compact_conversation generate_response messages in
  let twice := compact_conversation generate_response once in
  (system_message messages = None -> length once = 3%nat /\ twice = once)
  /\ (forall m, system_message messages = Some m ->
        length once = 4%nat
        /\ messages_to_summarize once = [summary_message summary]
        /\ twice
           = match generate_response (summary_messages [summary_message summary]) with
             | Val again => [m; summary_message again] ++ last_n 2 messages
             | Raise _ => m :: once
             end).
Proof.
  intros Hlen Hgen once twice.
  destruct (conversation_parts messages Hlen) as [_ Hmid].
  assert (Honce : once = option_list (system_message messages)
                         ++ [summary_message summary] ++ last_n 2 messages).
  { subst once. unfold compact_conversation.
    rewrite (bool_decide_eq_false_2 (length messages <= 3)%nat) by lia.
    rewrite (bool_decide_eq_false_2 (messages_to_summarize messages = [])) by done.
    by rewrite Hgen. }
  assert (Hrecent : length (last_n 2 messages) = 2%nat) by (apply length_last_n; lia).
  destruct (last_n 2 messages) as [|r1 [|r2 [|]]] eqn:Erecent; simplify_eq/=.
  split.
  - intros Hsys. subst twice. rewrite Honce, Hsys. done.
  - intros m Hsys. subst twice. rewrite Honce, Hsys. cbn [option_list app].
    assert (Hrole : role m = Some (py "system")).
    { unfold system_message in Hsys. destruct messages as [|m0 rest]; [done|].
      case_bool_decide; by simplify_eq/=. }
    split; [done|].
    assert (Hsum : messages_to_summarize [m; summary_message summary; r1; r2]
                   = [summary_message summary]).
    { unfold messages_to_summarize, system_message.
      by rewrite (bool_decide_eq_true_2 _ Hrole). }
    split; [done|].
    change (option_list (Some m) ++ [summary_message summary; r1; r2])
      with [m; summary_message summary; r1; r2].
    unfold compact_conversation. cbn [length].
    rewrite (bool_decide_eq_false_2 (4 <= 3)%nat) by lia.
    rewrite Hsum. rewrite bool_decide_eq_false_2 by done.
    destruct (generate_response _); [|done].
    unfold system_message. by rewrite (bool_decide_eq_true_2 _ Hrole).
Qed.

Lemma compact_conversation_twice_witness :
  (3 < length four_empty_messages)%nat
  /\ (fun _ : list message => Val (py "ok"))
       (summary_messages (messages_to_summarize four_empty_messages))
     = Val (py "ok")
  /\ (forall m, system_message four_empty_messages = Some m ->
        length (compact_conversation (fun _ => Val (py "ok")) four_empty_messages)
        = 4%nat).
Proof.
  assert (H1 : (3 < length four_empty_messages)%nat) by (vm_compute; lia).
  assert (H2 : (fun _ : list message => Val (py "ok"))
                 (summary_messages (messages_to_summarize four_empty_messages))
               = Val (py "ok")) by reflexivity.
  refine (conj H1 (conj H2 _)).
  intros m Hm.
  exact (proj1 (proj2 (compact_conversation_twice (fun _ => Val (py "ok"))
                         four_empty_messages (py "ok") H1 H2) m Hm)).
Defined.

Lemma count_conversation_tokens_lower (messages : list message) :
  10 * len messages <= count_conversation_tokens messages.
Proof.
  unfold len. induction messages as [|m rest IH]; [done|].
  cbn [count_conversation_tokens length].
  assert (0 <= match content m with
               | Some (CStr s) => estimate_tokens s
               | _ => 0
               end).
  { destruct (content m) as [[s|shown]|]; try lia.
    unfold estimate_tokens, len. apply Z.div_pos; lia. }
  lia.
Qed.

(** X15: once [should_compact] is true it stays true however many
    messages are appended, each further message counting for at least 10
    tokens. *)
Theorem should_compact_monotone (limit : Z) (messages more : list message) :
  should_compact limit messages = true ->
  should_compact limit (messages ++ more) = true
  /\ count_conversation_tokens messages + 10 * len more
     <= count_conversation_tokens (messages ++ more).
Proof.
  unfold should_compact. intros Hover%bool_decide_eq_true.
  pose proof (count_conversation_tokens_lower more) as Hmore.
  rewrite count_conversation_tokens_app.
  split; [apply bool_decide_eq_true|]; unfold len in *; lia.
Qed.

Lemma should_compact_monotone_witness :
  should_compact 50 (replicate 5 empty_user_message) = true
  /\ should_compact 50 (replicate 5 empty_user_message ++ [empty_user_message]) = true.
Proof.
  assert (H : should_compact 50 (replicate 5 empty_user_message) = true)
    by (vm_compute; reflexivity).
  refine (conj H _).
  exact (proj1 (should_compact_monotone 50 _ [empty_user_message] H)).
Defined.

Lemma consume_stream_undisturbed items full :
  Forall undisturbed items ->
  consume_stream items full = StreamEnd (full ++ streamed_text items) false [] None.
Proof.
  intros Hitems. revert full.
  induction Hitems as [|item items (c & key & -> & Hkey) _ IH]; intros full.
  - unfold streamed_text. cbn. by rewrite app_nil_r.
  - cbn [consume_stream]. rewrite (bool_decide_eq_false_2 _ Hkey).
    rewrite IH. unfold streamed_text. cbn. by rewrite app_assoc.
Qed.

Lemma consume_stream_raises pre e post full :
  Forall undisturbed pre ->
  consume_stream (pre ++ StreamRaises e :: post) full
  = StreamEnd (full ++ streamed_text pre) false post (Some e).
Proof.
  intros Hpre. revert full.
  induction Hpre as [|item pre (c & key & -> & Hkey) _ IH]; intros full.
  - unfold streamed_text. cbn. by rewrite app_nil_r.
  - cbn [consume_stream app]. rewrite (bool_decide_eq_false_2 _ Hkey).
    rewrite IH. unfold streamed_text. cbn. by rewrite app_assoc.
Qed.

Section Streams.
Context {attrs : Type} (setraw : attrs -> attrs).

(** X16: a streaming response during which ESC is not read and the
    interruption flag stays down is consumed to its end: the terminal gets
    its attributes back, and the conversation gains one assistant message
    whose content is the concatenation of all chunks, or nothing when that
    text is empty. *)
Theorem stream_response_complete (st : chat_state) (response : list stream_item) :
  Forall undisturbed response ->
  let text := streamed_text response in
  let out := stream_response setraw st response in
  out.2 = StreamEnd text false [] None
  /\ terminal out.1 = terminal st
  /\ messages out.1
     = messages st
       ++ (if bool_decide (text = []) then []
           else [Message (Some (py "assistant")) (Some (CStr text))]).
Proof.
  intros Hitems text out. subst out. unfold stream_response.
  rewrite (consume_stream_undisturbed _ [] Hitems). cbn [app raised full_response].
  fold text. case_bool_decide; cbn; by rewrite ?app_nil_r.
Qed.

(** X17: when the response iterator raises after some chunks, the
    terminal attributes are restored, and no assistant message is
    appended: the text received so far is dropped, whereas after ESC it is
    kept. *)
Theorem stream_response_raises (st : chat_state) (pre post : list stream_item)
    (e : exc) :
  Forall undisturbed pre ->
  let out := stream_response setraw st (pre ++ StreamRaises e :: post) in
  messages out.1 = messages st
  /\ terminal out.1 = terminal st
  /\ out.2 = StreamEnd (streamed_text pre) false post (Some e).
Proof.
  intros Hpre out. subst out. unfold stream_response.
  by rewrite (consume_stream_raises pre e post [] Hpre).
Qed.

End Streams.

Lemma stream_response_complete_witness :
  Forall undisturbed [Chunk (StrChunk (py "Hel")) None false;
                      Chunk (StrChunk (py "lo")) (Some 97%N) false]
  /\ messages (stream_response clear_flags greeting
                 [Chunk (StrChunk (py "Hel")) None false;
                  Chunk (StrChunk (py "lo")) (Some 97%N) false]).1
     = messages greeting
       ++ (if bool_decide (streamed_text
                             [Chunk (StrChunk (py "Hel")) None false;
                              Chunk (StrChunk (py "lo")) (Some 97%N) false] = [])
           then []
           else [Message (Some (py "assistant"))
                   (Some (CStr (streamed_text
                                  [Chunk (StrChunk (py "Hel")) None false;
                                   Chunk (StrChunk (py "lo")) (Some 97%N) false])))]).
Proof.
  assert (H : Forall undisturbed [Chunk (StrChunk (py "Hel")) None false;
                                  Chunk (StrChunk (py "lo")) (Some 97%N) false]).
  { repeat constructor.
    - exists (StrChunk (py "Hel")), None. split; [reflexivity | discriminate].
    - exists (StrChunk (py "lo")), (Some 97%N). split; [reflexivity | discriminate]. }
  refine (conj H _).
  exact (proj2 (proj2 (stream_response_complete clear_flags greeting _ H))).
Defined.

Lemma stream_response_raises_witness :
  Forall undisturbed [Chunk (StrChunk (py "Hel")) None false]
  /\ messages (stream_response clear_flags greeting
                 ([Chunk (StrChunk (py "Hel")) None false]
                  ++ StreamRaises (Exc OtherException (py "reset")) :: [])).1
     = messages greeting.
Proof.
  assert (H : Forall undisturbed [Chunk (StrChunk (py "Hel")) None false]).
  { repeat constructor.
    exists (StrChunk (py "Hel")), None. split; [reflexivity | discriminate]. }
  refine (conj H _).
  exact (proj1 (stream_response_raises clear_flags greeting _ []
                  (Exc OtherException (py "reset")) H)).
Defined.

Lemma replace_char_map c d s :
  replace [c] [d] s = (fun x => if bool_decide (x = c) then d else x) <$> s.
Proof.
  induction s as [|x s IH]; [by simp replace|].
  destruct (decide (x = c)) as [->|Hx].
  - rewrite replace_hit by (cbn; by rewrite bool_decide_eq_true_2).
    cbn [length drop fmap list_fmap]. rewrite drop_0, IH.
    by rewrite bool_decide_eq_true_2.
  - rewrite replace_miss
      by (cbn; by rewrite bool_decide_eq_false_2 by congruence).
    cbn [fmap list_fmap]. rewrite IH. by rewrite bool_decide_eq_false_2.
Qed.

(** X18: [normalize_tool_name] turns every colon into an underscore
    and changes nothing else: the length is kept, the result has no colon,
    a key without colon is returned as it is, normalising twice is
    normalising once, and the result of a key with a colon or an
    underscore passes [validate_tool_name].  Two keys that differ only in
    having a colon where the other has an underscore get the same name. *)
Theorem normalize_tool_name_chars (tool_key : pystr) :
  let name := normalize_tool_name tool_key in
  name = normalize_char <$> tool_key
  /\ length name = length tool_key
  /\ (COLON ∉ name)
  /\ (COLON ∉ tool_key -> name = tool_key)
  /\ normalize_tool_name name = name
  /\ (COLON ∈ tool_key \/ UNDERSCORE ∈ tool_key -> validate_tool_name name = true)
  /\ normalize_tool_name (py "a:b") = normalize_tool_name (py "a_b").
Proof.
  intros name.
  assert (Hname : name = normalize_char <$> tool_key) by apply replace_char_map.
  assert (Hfree : COLON ∉ name).
  { rewrite Hname. intros (c & Hc & _)%list_elem_of_fmap.
    unfold normalize_char in Hc. case_bool_decide; [discriminate | congruence]. }
  assert (Hid : forall s, COLON ∉ s -> normalize_tool_name s = s).
  { intros s Hs. unfold normalize_tool_name. rewrite replace_char_map.
    rewrite <- (list_fmap_id s) at 2. apply Forall_fmap_ext_1, Forall_forall.
    intros c Hc. rewrite bool_decide_eq_false_2; [done|]. by intros ->. }
  split; [done|]. split; [by rewrite Hname, length_fmap|]. split; [done|].
  split; [apply Hid|]. split; [by apply Hid|]. split; [|by vm_compute].
  intros Hin. unfold validate_tool_name.
  assert (Hunder : UNDERSCORE ∈ name).
  { rewrite Hname. apply list_elem_of_fmap. destruct Hin as [Hin|Hin].
    - exists COLON. by split.
    - exists UNDERSCORE. by split. }
  rewrite (proj2 (contains_char UNDERSCORE name) Hunder), orb_true_r.
  rewrite bool_decide_eq_false_2; [done|]. intros E. rewrite E in Hunder.
  by apply elem_of_nil in Hunder.
Qed.

(** X19: the line [display_tool_execution_result] gives has at most 224
    characters whatever the length of the result: a result of at most 200
    characters is shown whole after the prefix, a longer one is cut to its
    first 200 characters followed by three dots. *)
Theorem display_tool_execution_result_bounded (result : pystr)
    (is_error is_subagent : bool) :
  let shown := display_tool_execution_result result is_error is_subagent in
  (length shown <= 224)%nat
  /\ (len result <= 200 -> exists prefix, shown = prefix ++ py " " ++ result)
  /\ (200 < len result ->
      exists prefix, shown = prefix ++ py " " ++ take 200 result ++ py "...").
Proof.
  intros shown. subst shown. unfold display_tool_execution_result.
  split; [|split].
  - destruct (Z.ltb_spec 200 (len result)) as [Hlong|Hshort];
      destruct is_error, is_subagent; rewrite ?length_app, ?length_take;
      try change (length [CROSS_MARK]) with 1%nat;
      try change (length [CHECK_MARK]) with 1%nat;
      repeat match goal with
             | |- context [length (py ?s)] =>
                 let n := eval vm_compute in (length (py s)) in
                 change (length (py s)) with n
             end; unfold len in *; lia.
  - intros Hshort. rewrite (proj2 (Z.ltb_ge 200 (len result))) by lia. by eexists.
  - intros Hlong. rewrite (proj2 (Z.ltb_lt 200 (len result))) by lia. by eexists.
Qed.

Lemma display_tool_execution_result_bounded_witness :
  len (py "ok") <= 200
  /\ exists prefix,
       display_tool_execution_result (py "ok") false false
       = prefix ++ py " " ++ py "ok".
Proof.
  assert (H : len (py "ok") <= 200) by (vm_compute; discriminate).
  refine (conj H _).
  exact (proj1 (proj2 (display_tool_execution_result_bounded (py "ok") false false)) H).
Defined.

(** X20: whatever the current model name, [get_token_limit] is one of
    128000, 64000, 16000, 200000 and 32000.  For each of them the float
    product [limit * 0.8] of [should_compact] is exactly four fifths of the
    limit, an integer, so [should_compact] is true exactly when the token
    estimate exceeds that integer. *)
Theorem token_limit_known (lower : pystr -> pystr) (model_name : option pystr) :
  let limit := get_token_limit lower model_name in
  limit ∈ [128000; 64000; 16000; 200000; 32000]
  /\ PrimFloat.eqb (float_threshold limit) (exact_threshold limit) = true
  /\ (4 * limit) mod 5 = 0
  /\ (forall messages,
        should_compact limit messages = true
        <-> 4 * limit / 5 < count_conversation_tokens messages).
Proof.
  intros limit.
  assert (Htable : Forall (fun entry : pystr * Z =>
                             entry.2 ∈ [128000; 64000; 16000; 200000; 32000])
                          _get_model_token_limits).
  { unfold _get_model_token_limits. repeat constructor; cbn [snd];
      rewrite !elem_of_cons; auto 10. }
  rewrite Forall_forall in Htable.
  assert (Hin : limit ∈ [128000; 64000; 16000; 200000; 32000]).
  { subst limit. unfold get_token_limit.
    assert (Hdefault : (32000 : Z) ∈ [128000; 64000; 16000; 200000; 32000])
      by (rewrite !elem_of_cons; auto 10).
    destruct model_name as [[|c name]|]; try done.
    destruct (dict_get (c :: name) _get_model_token_limits) as [l|] eqn:Hget.
    - destruct (dict_get_split _ _ _ Hget) as (d1 & d2 & Hd & _).
      apply (Htable (c :: name, l)). rewrite Hd. apply elem_of_app. right.
      apply elem_of_cons. by left.
    - destruct (find _ _) as [[pattern l]|] eqn:Hfind; [|done].
      apply find_some in Hfind as [Hl _]. apply (Htable (pattern, l)).
      by apply list_elem_of_In. }
  split; [done|].
  assert (Hexact : PrimFloat.eqb (float_threshold limit) (exact_threshold limit) = true
                   /\ (4 * limit) mod 5 = 0).
  { rewrite !elem_of_cons in Hin.
    destruct Hin as [->|[->|[->|[->|[->|Hin]]]]];
      [by vm_compute..|by apply elem_of_nil in Hin]. }
  split; [apply Hexact|]. split; [apply Hexact|].
  intros messages. unfold should_compact. rewrite bool_decide_eq_true.
  destruct Hexact as [_ Hmod]. apply Z.mod_divide in Hmod as [k Hk]; [|lia].
  rewrite Hk, Z.div_mul by lia. lia.
Qed.

(** X21: when the command runs to its end, the answer of
    [_bash_execute] is never empty; it is the no-output message exactly
    when stdout and stderr are empty and the return code is 0, and it
    opens with the STDOUT section whenever stdout is not empty. *)
Theorem bash_execute_no_output (args : arguments)
    (run : pystr -> Z -> res completed_process) (r : completed_process) :
  let command := default [] (arg_command args) in
  let out := _bash_execute args run in
  command <> [] -> run command (default 120 (arg_timeout args)) = Val r ->
  out <> []
  /\ (out = py "Command executed successfully (no output)"
      <-> stdout r = [] /\ stderr r = [] /\ returncode r = 0)
  /\ (stdout r <> [] -> startswith (py "STDOUT:" ++ [LF] ++ stdout r) out = true).
Proof.
  intros command out Hcmd Hrun. subst out. unfold _bash_execute. fold command.
  rewrite bool_decide_eq_false_2 by done. rewrite Hrun.
  destruct (decide (stdout r = [])) as [Hout|Hout].
  - rewrite (bool_decide_eq_true_2 _ Hout). cbn [app].
    destruct (decide (stderr r = [])) as [Herr|Herr].
    + rewrite (bool_decide_eq_true_2 _ Herr). cbn [app].
      destruct (decide (returncode r = 0)) as [Hcode|Hcode].
      * rewrite (bool_decide_eq_true_2 _ Hcode). cbn.
        split; [by vm_compute|]. split; [done | by intros ?].
      * rewrite (bool_decide_eq_false_2 _ Hcode).
        rewrite bool_decide_eq_false_2 by done.
        split; [done|]. split; [|by intros ?].
        split; [intros E%(f_equal head); by vm_compute in E | by intros (_ & _ & ?)].
    + rewrite (bool_decide_eq_false_2 _ Herr).
      rewrite bool_decide_eq_false_2 by done.
      split; [done|]. split; [|by intros ?].
      split; [intros E%(f_equal head); by vm_compute in E | by intros (_ & ? & _)].
  - rewrite (bool_decide_eq_false_2 _ Hout).
    rewrite bool_decide_eq_false_2 by (by vm_compute).
    split; [by vm_compute|]. split.
    + split; [intros E%(f_equal head); by vm_compute in E | by intros (? & _ & _)].
    + intros _. rewrite <- !app_assoc. apply startswith_spec. by eexists.
Qed.

Lemma bash_execute_no_output_witness :
  default [] (arg_command (command_args (py "true"))) <> []
  /\ quiet_shell (default [] (arg_command (command_args (py "true"))))
                 (default 120 (arg_timeout (command_args (py "true"))))
     = Val (CompletedProcess [] [] 0)
  /\ (_bash_execute (command_args (py "true")) quiet_shell
      = py "Command executed successfully (no output)"
      <-> stdout (CompletedProcess [] [] 0) = []
          /\ stderr (CompletedProcess [] [] 0) = []
          /\ returncode (CompletedProcess [] [] 0) = 0).
Proof.
  assert (H1 : default [] (arg_command (command_args (py "true"))) <> [])
    by (vm_compute; discriminate).
  assert (H2 : quiet_shell (default [] (arg_command (command_args (py "true"))))
                 (default 120 (arg_timeout (command_args (py "true"))))
               = Val (CompletedProcess [] [] 0)) by reflexivity.
  refine (conj H1 (conj H2 _)).
  exact (proj1 (proj2 (bash_execute_no_output (command_args (py "true")) quiet_shell
                         (CompletedProcess [] [] 0) H1 H2))).
Defined.

Lemma expected_lines_cons entry entries :
  expected_lines (entry :: entries)
  = if decide (entry.1 = AddLine) then expected_lines entries
    else entry.2 :: expected_lines entries.
Proof.
  unfold expected_lines. rewrite filter_cons.
  destruct (decide (entry.1 <> AddLine)), (decide (entry.1 = AddLine)); done.
Qed.

Lemma check_section_prefix (section : list pystr) (i : nat) entries :
  check_section section i entries
  = bool_decide (expected_lines entries `prefix_of` drop i section).
Proof.
  revert i. induction entries as [|[action content] entries IH]; intros i.
  - symmetry. apply bool_decide_eq_true_2, prefix_nil.
  - rewrite expected_lines_cons. cbn [fst snd check_section].
    destruct (decide (action = AddLine)) as [->|Haction]; [apply IH|].
    assert (Hstep : check_section section i ((action, content) :: entries)
                    = match section !! i with
                      | None => false
                      | Some found =>
                          if bool_decide (found = content)
                          then check_section section (S i) entries
                          else false
                      end) by (by destruct action).
    cbn [check_section] in Hstep. rewrite Hstep. clear Hstep.
    destruct (section !! i) as [found|] eqn:Hi.
    + rewrite (drop_S _ _ _ Hi). case_bool_decide as Hfound.
      * subst found. rewrite IH. apply bool_decide_ext. split.
        -- apply prefix_cons.
        -- apply prefix_cons_inv_2.
      * symmetry. apply bool_decide_eq_false_2. intros Hp.
        apply prefix_cons_inv_1 in Hp. congruence.
    + rewrite drop_ge by (by apply lookup_ge_None).
      symmetry. apply bool_decide_eq_false_2. apply prefix_nil_not.
Qed.

Lemma list_slice_window {A} (a c : Z) (l : list A) :
  0 <= a -> 0 <= c ->
  list_slice a (a + c) l = take (Z.to_nat c) (drop (Z.to_nat a) l).
Proof.
  intros Ha Hc. unfold list_slice, slice_bound, len.
  rewrite (proj2 (Z.ltb_ge a 0)), (proj2 (Z.ltb_ge (a + c) 0)) by lia.
  destruct (decide (a <= Z.of_nat (length l))) as [Hin|Hout].
  - replace (Z.to_nat (a `min` Z.of_nat (length l))) with (Z.to_nat a) by lia.
    set (k := (Z.to_nat ((a + c) `min` Z.of_nat (length l)) - Z.to_nat a)%nat).
    assert (Hk : k = Nat.min (Z.to_nat c) (length (drop (Z.to_nat a) l))).
    { rewrite length_drop. unfold k. lia. }
    by rewrite Hk, <- take_take, firstn_all.
  - rewrite !drop_ge by lia. by rewrite !take_nil.
Qed.

Lemma list_slice_assign_window {A} (a c : Z) (new l : list A) :
  0 <= a -> 0 <= c ->
  list_slice_assign a (a + c) new l
  = take (Z.to_nat a) l ++ new ++ drop (Z.to_nat a + Z.to_nat c) l.
Proof.
  intros Ha Hc. unfold list_slice_assign, slice_bound, len.
  rewrite (proj2 (Z.ltb_ge a 0)), (proj2 (Z.ltb_ge (a + c) 0)) by lia.
  f_equal; [|f_equal].
  - destruct (decide (a <= Z.of_nat (length l))).
    + f_equal. lia.
    + by rewrite !take_ge by lia.
  - destruct (decide (a + c <= Z.of_nat (length l))).
    + f_equal. lia.
    + by rewrite !drop_ge by lia.
Qed.

Lemma apply_hunk_window (lines : list pystr) (h : hunk) :
  0 <= old_start h -> 0 <= old_count h ->
  let start := Z.to_nat (old_start h) in
  let count := Z.to_nat (old_count h) in
  apply_hunk lines h
  = if bool_decide (expected_lines (hunk_lines h) `prefix_of` take count (drop start lines))
    then Some (take start lines ++ replacement_lines (hunk_lines h)
               ++ drop (start + count) lines)
    else None.
Proof.
  intros Hstart Hcount start count. unfold apply_hunk.
  rewrite check_section_prefix, drop_0, list_slice_window by done.
  by rewrite list_slice_assign_window.
Qed.

Section ApplyDiffProperties.
Context (hunk_header : pystr -> option (Z * option Z * Z * option Z)).

Let no_header (line : pystr) : Prop :=
  hunk_header (rstrip_chars [CR; LF] line) = None.

Lemma parse_diff_body body hunks h :
  Forall no_header body ->
  foldl (parse_diff_line hunk_header) (hunks, Some h) body
  = (hunks, Some (Hunk (old_start h) (old_count h) (new_start h) (new_count h)
                       (hunk_lines h ++ body_entries body))).
Proof.
  intros Hbody. revert h.
  induction Hbody as [|line body Hline _ IH]; intros h.
  - unfold body_entries. cbn. rewrite app_nil_r. by destruct h.
  - cbn [foldl parse_diff_line]. unfold no_header in Hline. rewrite Hline.
    unfold body_entries. cbn [omap list_omap].
    destruct (diff_line (rstrip_chars [CR; LF] line)) as [entry|].
    + rewrite IH. cbn. by rewrite <- app_assoc.
    + by rewrite IH.
Qed.

Lemma parse_diff_no_header (lines : list pystr) :
  Forall no_header lines ->
  foldl (parse_diff_line hunk_header) ([], None) lines = ([], None).
Proof.
  induction 1 as [|line lines Hline _ IH]; [done|].
  cbn [foldl parse_diff_line]. unfold no_header in Hline. by rewrite Hline.
Qed.

(** X22: [_apply_diff] on a diff of one hunk (a header line, then the
    body) whose header names old line [g1 >= 1] and an old count.  The
    hunk is applied exactly when the context and removed lines of the
    body, in order, are the beginning of the section of that many lines
    at that place; the whole section is then replaced by the context and
    added lines, so that lines of the section the body does not list are
    dropped unchecked; otherwise the result is [None].  A body of context
    lines that are the whole section gives the file back unchanged. *)
Theorem apply_diff_one_hunk (lines : list pystr) (header : pystr)
    (body : list pystr) (g1 g3 : Z) (g2 g4 : option Z) :
  let diff := join [LF] (header :: body) in
  let start := Z.to_nat (g1 - 1) in
  let count := Z.to_nat (default 1 g2) in
  let expected := expected_lines (body_entries body) in
  let replacement := replacement_lines (body_entries body) in
  Forall (fun line => LF ∉ line) (header :: body) ->
  hunk_header (rstrip_chars [CR; LF] header) = Some (g1, g2, g3, g4) ->
  Forall (fun line => hunk_header (rstrip_chars [CR; LF] line) = None) body ->
  1 <= g1 -> 0 <= default 1 g2 ->
  (expected `prefix_of` take count (drop start lines) ->
   _apply_diff hunk_header lines diff
   = Some (take start lines ++ replacement ++ drop (start + count) lines))
  /\ (~ expected `prefix_of` take count (drop start lines) ->
      _apply_diff hunk_header lines diff = None)
  /\ (expected = take count (drop start lines) -> replacement = expected ->
      _apply_diff hunk_header lines diff = Some lines).
Proof.
  intros diff start count expected replacement Hfree Hheader Hbody Hg1 Hg2.
  assert (Hparse : parse_diff hunk_header diff
                   = [Hunk (g1 - 1) (default 1 g2) (g3 - 1) (default 1 g4)
                           (body_entries body)]).
  { unfold parse_diff, diff. rewrite split_char_join by done.
    cbn [foldl parse_diff_line]. rewrite Hheader. cbn [option_list app].
    by rewrite parse_diff_body. }
  assert (Hrun : _apply_diff hunk_header lines diff
                 = if bool_decide (expected `prefix_of` take count (drop start lines))
                   then Some (take start lines ++ replacement
                              ++ drop (start + count) lines)
                   else None).
  { unfold _apply_diff. rewrite Hparse. rewrite bool_decide_eq_false_2 by done.
    cbn [reverse rev_append foldl]. by rewrite apply_hunk_window by (cbn; lia). }
  rewrite Hrun. split; [|split].
  - intros Hp. by rewrite bool_decide_eq_true_2.
  - intros Hp. by rewrite bool_decide_eq_false_2.
  - intros Hsame Hkeep. rewrite bool_decide_eq_true_2 by (by rewrite Hsame).
    rewrite Hkeep, Hsame. f_equal.
    rewrite <- drop_drop. by rewrite !take_drop.
Qed.

(** X23: a diff none of whose lines is a hunk header is rejected:
    [_apply_diff] returns [None] whatever its other lines are. *)
Theorem apply_diff_without_hunk (lines : list pystr) (diff : pystr) :
  Forall (fun line => hunk_header (rstrip_chars [CR; LF] line) = None)
         (split [LF] diff) ->
  _apply_diff hunk_header lines diff = None.
Proof.
  intros Hnone. unfold _apply_diff, parse_diff.
  by rewrite parse_diff_no_header.
Qed.

End ApplyDiffProperties.

Lemma apply_diff_one_hunk_witness :
  Forall (fun line => LF ∉ line) (py "@@ -2,2 +2,1 @@" :: one_context_line)
  /\ sample_hunk_header (rstrip_chars [CR; LF] (py "@@ -2,2 +2,1 @@"))
     = Some (2, Some 2, 2, Some 1)
  /\ Forall (fun line => sample_hunk_header (rstrip_chars [CR; LF] line) = None)
            one_context_line
  /\ 1 <= 2 /\ 0 <= default 1 (Some 2)
  /\ expected_lines (body_entries one_context_line)
     `prefix_of` take (Z.to_nat (default 1 (Some 2)))
                      (drop (Z.to_nat (2 - 1)) four_lines)
  /\ _apply_diff sample_hunk_header four_lines
       (join [LF] (py "@@ -2,2 +2,1 @@" :: one_context_line))
     = Some (take (Z.to_nat (2 - 1)) four_lines
             ++ replacement_lines (body_entries one_context_line)
             ++ drop (Z.to_nat (2 - 1) + Z.to_nat (default 1 (Some 2))) four_lines).
Proof.
  assert (H1 : Forall (fun line => LF ∉ line)
                      (py "@@ -2,2 +2,1 @@" :: one_context_line))
    by (apply (bool_decide_unpack _); vm_compute; exact I).
  assert (H2 : sample_hunk_header (rstrip_chars [CR; LF] (py "@@ -2,2 +2,1 @@"))
               = Some (2, Some 2, 2, Some 1)) by (vm_compute; reflexivity).
  assert (H3 : Forall (fun line => sample_hunk_header (rstrip_chars [CR; LF] line) = None)
                      one_context_line)
    by (repeat constructor).
  assert (H4 : 1 <= 2) by lia.
  assert (H5 : 0 <= default 1 (Some 2)) by (vm_compute; discriminate).
  assert (H6 : expected_lines (body_entries one_context_line)
               `prefix_of` take (Z.to_nat (default 1 (Some 2)))
                                (drop (Z.to_nat (2 - 1)) four_lines))
    by (apply (bool_decide_unpack _); vm_compute; exact I).
  refine (conj H1 (conj H2 (conj H3 (conj H4 (conj H5 (conj H6 _)))))).
  exact (proj1 (apply_diff_one_hunk sample_hunk_header four_lines
                  (py "@@ -2,2 +2,1 @@") one_context_line 2 2 (Some 2) (Some 1)
                  H1 H2 H3 H4 H5) H6).
Defined.

Example apply_diff_drops_unlisted_line :
  _apply_diff sample_hunk_header four_lines
    (join [LF] (py "@@ -2,2 +2,1 @@" :: one_context_line))
  = Some [py "a" ++ [LF]; py "b" ++ [LF]; py "d" ++ [LF]].
Proof. vm_compute. reflexivity. Qed.

Lemma apply_diff_without_hunk_witness :
  Forall (fun line => sample_hunk_header (rstrip_chars [CR; LF] line) = None)
         (split [LF] (py "-a" ++ [LF] ++ py "+b"))
  /\ _apply_diff sample_hunk_header four_lines (py "-a" ++ [LF] ++ py "+b") = None.
Proof.
  assert (H : Forall (fun line => sample_hunk_header (rstrip_chars [CR; LF] line) = None)
                     (split [LF] (py "-a" ++ [LF] ++ py "+b")))
    by (vm_compute; repeat constructor).
  refine (conj H _).
  exact (apply_diff_without_hunk sample_hunk_header four_lines _ H).
Defined.

(** X24: the two [replace_in_file] implementations do the same to the
    files: for the same arguments they leave the same file system, and
    one answers with a success message exactly when the other does; only
    the wording of their answers differs. *)
Theorem replace_in_file_same_files (args : arguments) (fs : filesystem) :
  (_replace_in_file args fs).1 = (Executor.replace_in_file args fs).1
  /\ (startswith (py "Successfully") (_replace_in_file args fs).2
      = startswith (py "Successfully") (Executor.replace_in_file args fs).2).
Proof.
  unfold _replace_in_file, Executor.replace_in_file.
  case_bool_decide; [done|]. case_bool_decide; [done|].
  destruct (read_text fs _) as [content|[[] msg]] eqn:Hread; try done.
  - destruct (contains _ content) eqn:Hfound; cbn [negb].
    + destruct (write_text fs _ _) as [fs' [[]|e]]; cbn [fst snd]; split; try done.
    + split; [done|]. cbn [snd].
      assert (Hprefix := not_found_error_prefix
                (default [] (arg_file_path args)) (default [] (arg_old_text args)) content).
      apply startswith_spec in Hprefix as [t Ht]. rewrite Ht. done.
Qed.

Lemma str_le_antisym a b : str_le a b = true -> str_le b a = true -> a = b.
Proof.
  revert b. induction a as [|x a IH]; intros [|y b]; cbn; try done.
  destruct (N.ltb_spec x y), (N.ltb_spec y x); try done; try lia.
  intros Hab Hba. f_equal; [lia | by apply IH].
Qed.

Lemma NoDup_fmap_eq {A B} (f : A -> B) (l : list A) x y :
  NoDup (f <$> l) -> x ∈ l -> y ∈ l -> f x = f y -> x = y.
Proof.
  induction l as [|z l IH]; [by intros _ ?%elem_of_nil|].
  rewrite fmap_cons, NoDup_cons, !elem_of_cons.
  intros [Hz Hnd] [->|Hx] [->|Hy] Hf; try done.
  - exfalso. apply Hz. rewrite Hf. apply list_elem_of_fmap. by exists y.
  - exfalso. apply Hz. rewrite <- Hf. apply list_elem_of_fmap. by exists x.
  - by apply IH.
Qed.

Lemma sorted_entries_unique (entries entries' : list dir_entry) :
  NoDup (entry_name <$> entries) -> entries ≡ₚ entries' ->
  sorted_items ((fun item => (entry_name item, item)) <$> entries)
  = sorted_items ((fun item => (entry_name item, item)) <$> entries').
Proof.
  intros Hnd Hperm.
  set (keyed := fun item : dir_entry => (entry_name item, item)).
  destruct (sorted_items_spec (keyed <$> entries)) as [Hp Hs].
  destruct (sorted_items_spec (keyed <$> entries')) as [Hp' Hs'].
  apply (StronglySorted_unique_strong key_le); [|done|done|].
  - intros p q Hp1 Hq1 Hpq Hqp.
    rewrite Hp in Hp1. rewrite Hp', <- Hperm in Hq1.
    apply list_elem_of_fmap in Hp1 as (x & -> & Hx).
    apply list_elem_of_fmap in Hq1 as (y & -> & Hy).
    unfold key_le, keyed in *. cbn in *.
    assert (Hname : entry_name x = entry_name y) by by apply str_le_antisym.
    by rewrite (NoDup_fmap_eq entry_name entries x y Hnd Hx Hy Hname).
  - by rewrite Hp, Hp', Hperm.
Qed.

(** X25: the listing of [_list_directory] does not depend on the order in
    which the system gives the entries: two listings of the same entries
    (names distinct) are the same text, one line per entry in the order
    of the names; a directory without entries is reported as empty. *)
Theorem list_directory_sorted (args : arguments)
    (look look' : pystr -> res path_state) (entries entries' : list dir_entry) :
  let directory_path := default (py ".") (arg_directory_path args) in
  look directory_path = Val (Directory entries) ->
  look' directory_path = Val (Directory entries') ->
  NoDup (entry_name <$> entries) -> entries ≡ₚ entries' ->
  _list_directory args look = _list_directory args look'
  /\ (entries = [] -> _list_directory args look = py "Directory is empty")
  /\ exists ordered,
       ordered ≡ₚ entries /\ StronglySorted name_le ordered
       /\ (entries <> [] ->
           _list_directory args look = join [LF] (directory_line <$> ordered)).
Proof.
  intros directory_path Hlook Hlook' Hnd Hperm.
  unfold _list_directory. fold directory_path. rewrite Hlook, Hlook'.
  rewrite <- (sorted_entries_unique entries entries' Hnd Hperm).
  set (keyed := fun item : dir_entry => (entry_name item, item)).
  destruct (sorted_items_spec (keyed <$> entries)) as [Hp Hs].
  split; [done|]. split.
  - intros ->. done.
  - exists (snd <$> sorted_items (keyed <$> entries)). split; [|split].
    + rewrite Hp, <- list_fmap_compose. by rewrite list_fmap_id.
    + assert (Hall : Forall (fun p => p.1 = entry_name p.2)
                            (sorted_items (keyed <$> entries))).
      { rewrite Hp. apply Forall_fmap. by apply Forall_true. }
      clear Hp. induction Hs as [|p l Hl IH Hle]; [constructor|].
      apply Forall_cons in Hall as [Hp Hall]. cbn [fmap list_fmap].
      constructor; [by apply IH|].
      apply Forall_fmap. rewrite Forall_forall in *. intros q Hq.
      specialize (Hle q Hq). specialize (Hall q Hq). unfold key_le in Hle.
      unfold name_le. cbn. by rewrite <- Hp, <- Hall.
    + intros Hne. rewrite list_fmap_compose.
      rewrite bool_decide_eq_false_2; [done|].
      intros Hnil%fmap_nil_inv%fmap_nil_inv.
      rewrite Hnil in Hp. symmetry in Hp. apply Permutation_nil_r in Hp.
      apply Hne. by apply fmap_nil_inv in Hp.
Qed.

Lemma list_directory_sorted_witness :
  look_forward (default (py ".") (arg_directory_path (directory_args (py "."))))
  = Val (Directory two_entries)
  /\ look_backward (default (py ".") (arg_directory_path (directory_args (py "."))))
     = Val (Directory (reverse two_entries))
  /\ NoDup (entry_name <$> two_entries)
  /\ two_entries ≡ₚ reverse two_entries
  /\ _list_directory (directory_args (py ".")) look_forward
     = _list_directory (directory_args (py ".")) look_backward.
Proof.
  assert (H1 : look_forward (default (py ".") (arg_directory_path (directory_args (py "."))))
               = Val (Directory two_entries)) by reflexivity.
  assert (H2 : look_backward (default (py ".") (arg_directory_path (directory_args (py "."))))
               = Val (Directory (reverse two_entries))) by reflexivity.
  assert (H3 : NoDup (entry_name <$> two_entries))
    by (apply (bool_decide_unpack _); vm_compute; exact I).
  assert (H4 : two_entries ≡ₚ reverse two_entries)
    by (symmetry; apply reverse_Permutation).
  refine (conj H1 (conj H2 (conj H3 (conj H4 _)))).
  exact (proj1 (list_directory_sorted (directory_args (py ".")) look_forward
                  look_backward two_entries (reverse two_entries) H1 H2 H3 H4)).
Defined.

Example list_directory_ex :
  _list_directory (directory_args (py ".")) look_backward
  = [PAGE] ++ py " README (12 bytes)" ++ [LF] ++ [FOLDER] ++ py " src/".
Proof. vm_compute. reflexivity. Qed.

(** X26: the line numbers in the hint of the executor's [replace_in_file]
    count from 0.  When the text is not found and the hint is given, it
    lists at most three indexes, each the 0-based index of a line of the
    file that contains the first line of [old_text] (stripped); so the
    first line of the file is line 0 in the hint, while [read_file]
    numbers it 1. *)
Theorem not_found_hint_is_zero_based (file_path old_text content : pystr) :
  let lines := split [LF] content in
  let needle := strip (default [] (head (split [LF] old_text))) in
  let hint := take 3 (Executor.matching_lines needle lines) in
  (strip old_text = [] \/ contains (strip old_text) content = false) ->
  needle <> [] -> hint <> [] ->
  Executor.not_found_error file_path old_text content
  = py "Error: Text to replace not found in " ++ file_path
    ++ py ". Found similar text on line(s) " ++ Executor.repr_int_list hint
    ++ py " - check exact whitespace and indentation."
  /\ (length hint <= 3)%nat
  /\ Forall (fun i => 0 <= i
                      /\ exists line, lines !! Z.to_nat i = Some line
                                      /\ contains needle line = true) hint
  /\ (forall first, head lines = Some first -> contains needle first = true ->
        head hint = Some 0).
Proof.
  intros lines needle hint Hstripped Hneedle Hhint.
  split; [|split; [|split]].
  - unfold Executor.not_found_error. fold lines needle hint.
    assert (Hfirst : negb (bool_decide (strip old_text = []))
                     && contains (strip old_text) content = false).
    { destruct Hstripped as [Hs|Hs].
      - by rewrite (bool_decide_eq_true_2 _ Hs).
      - by rewrite Hs, andb_false_r. }
    rewrite Hfirst. by rewrite !bool_decide_eq_false_2 by done.
  - subst hint. rewrite length_take. lia.
  - subst hint. apply Forall_take. unfold Executor.matching_lines.
    apply Forall_fmap, Forall_forall. intros [i line] Hin.
    apply list_elem_of_filter in Hin as [Hfound Hin].
    apply elem_of_lookup_imap in Hin as (j & y & E & Hj). injection E as -> ->.
    cbn. split; [lia|]. exists y. by rewrite Nat2Z.id.
  - intros first Hhead Hfound. subst hint. unfold Executor.matching_lines.
    destruct lines as [|l0 rest]; [done|]. injection Hhead as ->.
    cbn [imap]. rewrite filter_cons. cbn [snd].
    rewrite decide_True by done. done.
Qed.

Lemma not_found_hint_is_zero_based_witness :
  (strip (py "x" ++ [LF] ++ py "y") = []
   \/ contains (strip (py "x" ++ [LF] ++ py "y")) (py "x" ++ [LF] ++ py "z") = false)
  /\ strip (default [] (head (split [LF] (py "x" ++ [LF] ++ py "y")))) <> []
  /\ take 3 (Executor.matching_lines
               (strip (default [] (head (split [LF] (py "x" ++ [LF] ++ py "y")))))
               (split [LF] (py "x" ++ [LF] ++ py "z"))) <> []
  /\ Executor.not_found_error (py "f") (py "x" ++ [LF] ++ py "y")
       (py "x" ++ [LF] ++ py "z")
     = py "Error: Text to replace not found in " ++ py "f"
       ++ py ". Found similar text on line(s) "
       ++ Executor.repr_int_list
            (take 3 (Executor.matching_lines
                       (strip (default [] (head (split [LF] (py "x" ++ [LF] ++ py "y")))))
                       (split [LF] (py "x" ++ [LF] ++ py "z"))))
       ++ py " - check exact whitespace and indentation.".
Proof.
  assert (H1 : strip (py "x" ++ [LF] ++ py "y") = []
               \/ contains (strip (py "x" ++ [LF] ++ py "y"))
                           (py "x" ++ [LF] ++ py "z") = false)
    by (right; vm_compute; reflexivity).
  assert (H2 : strip (default [] (head (split [LF] (py "x" ++ [LF] ++ py "y")))) <> [])
    by (vm_compute; discriminate).
  assert (H3 : take 3 (Executor.matching_lines
                         (strip (default [] (head (split [LF] (py "x" ++ [LF] ++ py "y")))))
                         (split [LF] (py "x" ++ [LF] ++ py "z"))) <> [])
    by (vm_compute; discriminate).
  refine (conj H1 (conj H2 (conj H3 _))).
  exact (proj1 (not_found_hint_is_zero_based (py "f") _ _ H1 H2 H3)).
Defined.

Example not_found_hint_ex :
  Executor.not_found_error (py "f") (py "x" ++ [LF] ++ py "y") (py "x" ++ [LF] ++ py "z")
  = py "Error: Text to replace not found in f. Found similar text on line(s) [0] - check exact whitespace and indentation."
  /\ _read_file (file_args (py "f")) (fs1 (py "f") (py "x" ++ [LF] ++ py "z"))
     = py "     1" ++ [ARROW] ++ py "x" ++ [LF] ++ py "     2" ++ [ARROW] ++ py "z".
Proof. split; vm_compute; reflexivity. Qed.
